(** * Inventory ledger of app.py: a shallow embedding and its properties

    The program keeps its whole store in [self.data], a Python dict of
    collections, each a list of dicts.  The ledger lives in
    [JSONDatabase] (accessors, [transfer_inventory], [log_audit]) and
    in three form handlers of the dashboard (receive, adjust, deduct)
    plus the stock update done when an invoice is created.

    Records are modelled as finite maps from field names to JSON
    scalars, collections as lists, Python exceptions as an error value,
    and in-place mutation as explicit state passing: a mutation done
    before an exception is raised stays in the state. *)

From stdpp Require Import gmap strings list fin_maps pretty.
From Stdlib Require Import ZArith Lia.

Local Open Scope Z_scope.

(** ** Python values and dicts *)

(** The JSON scalars that reach the ledger: [None], ints (unbounded, as
    in Python) and strings. *)
Inductive value : Type :=
  | VNone
  | VInt (n : Z)
  | VStr (s : string).

#[global] Instance value_eq_dec : EqDecision value.
Proof. solve_decision. Defined.

(** A record of a collection: a Python dict with string keys. *)
Abbreviation record := (gmap string value) (only parsing).

(** [str(v)], as an f-string renders a value. *)
Definition py_str (v : value) : string :=
  match v with
  | VNone => "None"
  | VInt n => pretty n
  | VStr s => s
  end.

(** [bool(v)]: [None], [0] and the empty string are falsy. *)
Definition truthy (v : value) : bool :=
  match v with
  | VNone => false
  | VInt n => negb (n =? 0)
  | VStr s => negb (bool_decide (s = ""))
  end.

(** [bool(d)] for a dict: only the empty dict is falsy. *)
Definition dict_truthy (d : record) : bool := negb (bool_decide (d = ∅)).

(** [v == w] on scalars never raises. *)
Definition py_eq (v w : value) : bool := bool_decide (v = w).

(** [d.update(u)]: the keys of [u] win. *)
Definition dict_update (d u : record) : record := u ∪ d.

(** ** Exceptions *)

Inductive exn : Type :=
  | KeyError (key : string)
  | TypeError (op : string).

Inductive result (A : Type) : Type :=
  | Ok (a : A)
  | Raise (e : exn).
Arguments Ok {A} a.
Arguments Raise {A} e.

Definition rbind {A B} (r : result A) (k : A → result B) : result B :=
  match r with
  | Ok a => k a
  | Raise e => Raise e
  end.

Definition rmap {A B} (f : A → B) (r : result A) : result B :=
  rbind r (λ a, Ok (f a)).

Notation "'let?' x ':=' c 'in' k" := (rbind c (λ x, k))
  (at level 10, x pattern, c at level 100, k at level 200).

(** [d[k]]: raises [KeyError] on a missing key. *)
Definition subscript (d : record) (k : string) : result value :=
  match d !! k with
  | Some v => Ok v
  | None => Raise (KeyError k)
  end.

(** [o[k]] where [o] may be [None]: subscripting [None] is a
    [TypeError]. *)
Definition subscript_opt (o : option record) (k : string) : result value :=
  match o with
  | Some d => subscript d k
  | None => Raise (TypeError "subscript")
  end.

(** [v + n], [v - n] and [v < n] with [n] an int: defined on ints,
    a [TypeError] on [None] and on strings. *)
Definition py_add (v : value) (n : Z) : result Z :=
  match v with
  | VInt a => Ok (a + n)
  | _ => Raise (TypeError "+")
  end.

Definition py_sub (v : value) (n : Z) : result Z :=
  match v with
  | VInt a => Ok (a - n)
  | _ => Raise (TypeError "-")
  end.

Definition py_lt (v : value) (n : Z) : result bool :=
  match v with
  | VInt a => Ok (a <? n)
  | _ => Raise (TypeError "<")
  end.

(** ** Comprehensions and generators over a collection *)

(** A list comprehension [[x for x in l if p x]]: the whole list is
    scanned, and the first exception of [p] aborts it. *)
Fixpoint filterM (p : record → result bool) (l : list record)
  : result (list record) :=
  match l with
  | [] => Ok []
  | x :: l' =>
      let? b := p x in
      let? rest := filterM p l' in
      Ok (if b then x :: rest else rest)
  end.

(** [next((x for x in l if p x), None)]: the generator is lazy, the
    scan stops at the first match; the position stands for the
    reference Python returns. *)
Fixpoint first_where (p : record → result bool) (l : list record)
  : result (option (nat * record)) :=
  match l with
  | [] => Ok None
  | x :: l' =>
      let? b := p x in
      if b then Ok (Some (0%nat, x))
      else let? r := first_where p l' in
           Ok (prod_map S id <$> r)
  end.

(** [sum(loc['quantity'] for loc in l)], starting from [acc]. *)
Fixpoint sum_quantities (acc : Z) (l : list record) : result Z :=
  match l with
  | [] => Ok acc
  | loc :: l' =>
      let? v := subscript loc "quantity" in
      let? acc' := (match v with
                    | VInt n => Ok (acc + n)
                    | _ => Raise (TypeError "+")
                    end) in
      sum_quantities acc' l'
  end.

(** ** The store *)

(** The collections of [self.data] the ledger touches.
    [_initialize_db] (lines 219-281) creates ['inventory'] and
    ['audit_log'] but no ['inventory_locations']: that collection is
    there only when the loaded file has it, and is [None] otherwise.
    [clock] counts the calls to [uuid.uuid4()] and
    [datetime.datetime.now()] made so far. *)
Record JSONDatabase : Type := mkDB {
  inventory : list record;
  inventory_locations : option (list record);
  audit_log : list record;
  clock : nat
}.

(** What the program reads from outside the store: the uuid and clock
    sources, and [st.session_state.user_id]. *)
Record Env : Type := mkEnv {
  uuid4 : nat → string;
  now_isoformat : nat → string;
  session_user_id : value
}.

(** Stateful code: the state survives an exception. *)
Definition M (A : Type) : Type := JSONDatabase → JSONDatabase * result A.

Definition ret {A} (a : A) : M A := λ s, (s, Ok a).

Definition bind {A B} (m : M A) (k : A → M B) : M B :=
  λ s, match m s with
       | (s', Ok a) => k a s'
       | (s', Raise e) => (s', Raise e)
       end.

Definition lift {A} (r : result A) : M A := λ s, (s, r).

Definition read {A} (f : JSONDatabase → result A) : M A := λ s, (s, f s).

(** [try: body except Exception as e: handler e]. *)
Definition try_except {A} (body : M A) (handler : exn → M A) : M A :=
  λ s, match body s with
       | (s', Ok a) => (s', Ok a)
       | (s', Raise e) => handler e s'
       end.

Notation "'let*' x ':=' c 'in' k" := (bind c (λ x, k))
  (at level 10, x pattern, c at level 100, k at level 200).

Definition set_inventory (f : list record → list record) : M unit :=
  λ s, (mkDB (f (inventory s)) (inventory_locations s) (audit_log s) (clock s),
        Ok tt).

Definition set_inventory_locations (f : list record → list record) : M unit :=
  λ s, (mkDB (inventory s) (f <$> inventory_locations s) (audit_log s)
             (clock s),
        Ok tt).

(** [self.data['inventory_locations']] *)
Definition locations_rows (s : JSONDatabase) : result (list record) :=
  match inventory_locations s with
  | Some rows => Ok rows
  | None => Raise (KeyError "inventory_locations")
  end.

Definition set_audit_log (f : list record → list record) : M unit :=
  λ s, (mkDB (inventory s) (inventory_locations s) (f (audit_log s)) (clock s),
        Ok tt).

Section Ledger.

Variable env : Env.

(** [str(uuid.uuid4())] *)
Definition fresh_uuid : M string :=
  λ s, (mkDB (inventory s) (inventory_locations s) (audit_log s)
             (S (clock s)),
        Ok (uuid4 env (clock s))).

(** [datetime.datetime.now().isoformat()] *)
Definition now : M string :=
  λ s, (mkDB (inventory s) (inventory_locations s) (audit_log s)
             (S (clock s)),
        Ok (now_isoformat env (clock s))).

(** *** Accessors of [JSONDatabase] *)

Definition id_is (key : value) (r : record) : result bool :=
  let? v := subscript r "id" in Ok (py_eq v key).

(** [get_inventory_item] (lines 79-81) *)
Definition get_inventory_item (s : JSONDatabase) (item_id : value)
  : result (option record) :=
  let? r := first_where (id_is item_id) (inventory s) in
  Ok (snd <$> r).

(** [update_inventory_item] (lines 95-102); [_save_data] rewrites the
    JSON file and leaves [self.data] as it is. *)
Definition update_inventory_item (item_id : value) (update_data : record)
  : M bool :=
  let* found := read (λ s, first_where (id_is item_id) (inventory s)) in
  match found with
  | Some (i, item) =>
      if dict_truthy item then
        let* _ := set_inventory (λ l, <[i := dict_update item update_data]> l) in
        ret true
      else ret false
  | None => ret false
  end.

(** [add_inventory_location] (lines 118-128): appends, whatever the
    collection already holds; the [except] clause turns the
    [KeyError] of a missing collection into [None]. *)
Definition add_inventory_location (location_data : record)
  : M (option string) :=
  try_except
    (let* uid := fresh_uuid in
     let* ts := now in
     let row := <["created_at" := VStr ts]>
                  (<["id" := VStr uid]> location_data) in
     let* _ := read locations_rows in
     let* _ := set_inventory_locations (λ l, l ++ [row]) in
     ret (Some uid))
    (λ _, ret None).

Definition product_is (product_id : value) (il : record) : result bool :=
  let? p := subscript il "product_id" in Ok (py_eq p product_id).

Definition location_is (location_id : value) (il : record) : result bool :=
  let? l := subscript il "location_id" in Ok (py_eq l location_id).

(** [a and b] on the two comparisons: the second is evaluated only
    when the first holds. *)
Definition product_and_location_is (product_id location_id : value)
  (il : record) : result bool :=
  let? b := product_is product_id il in
  if b then location_is location_id il else Ok false.

(** [get_inventory_locations] (lines 130-139); an absent argument is
    [None]. *)
Definition get_inventory_locations (s : JSONDatabase)
  (product_id location_id : value) : result (list record) :=
  let? rows := locations_rows s in
  if truthy product_id && truthy location_id then
    filterM (product_and_location_is product_id location_id) rows
  else if truthy product_id then
    filterM (product_is product_id) rows
  else if truthy location_id then
    filterM (location_is location_id) rows
  else Ok rows.

(** [update_inventory_location] (lines 141-148) *)
Definition update_inventory_location (location_id : value)
  (update_data : record) : M bool :=
  let* found := read (λ s, let? rows := locations_rows s in
                           first_where (id_is location_id) rows) in
  match found with
  | Some (i, location) =>
      if dict_truthy location then
        let* _ := set_inventory_locations
                    (λ l, <[i := dict_update location update_data]> l) in
        ret true
      else ret false
  | None => ret false
  end.

(** [get_total_inventory_by_product] (lines 150-153) *)
Definition get_total_inventory_by_product (s : JSONDatabase)
  (product_id : value) : result Z :=
  let? locations := get_inventory_locations s product_id VNone in
  sum_quantities 0 locations.

(** The dict built at lines 987-993. *)
Definition log_entry (uid : string) (user_id : value)
  (action details ts : string) : record :=
  <["id" := VStr uid]> (<["user_id" := user_id]>
  (<["action" := VStr action]> (<["details" := VStr details]>
  (<["timestamp" := VStr ts]> ∅)))).

(** [log_audit] (lines 984-999); nothing in its [try] block raises. *)
Definition log_audit (user_id : value) (action details : string)
  : M (option string) :=
  let* uid := fresh_uuid in
  let* ts := now in
  let* _ := set_audit_log
              (λ l, l ++ [log_entry uid user_id action details ts]) in
  ret (Some uid).

(** *** [transfer_inventory] (lines 155-191) *)

(** The second component of the pair the method returns. *)
Inductive message : Type :=
  | Msg (text : string)
  | ErrorTransferring (e : exn).

(** [not source_loc or source_loc['quantity'] < quantity] *)
Definition source_insufficient (source_loc : option record) (quantity : Z)
  : result bool :=
  match source_loc with
  | None => Ok true
  | Some r =>
      if dict_truthy r then
        let? v := subscript r "quantity" in py_lt v quantity
      else Ok true
  end.

(** The row [add_inventory_location] is given at lines 176-180. *)
Definition new_location_row (product_id to_location_id : value)
  (quantity : Z) : record :=
  <["product_id" := product_id]>
    (<["location_id" := to_location_id]>
       (<["quantity" := VInt quantity]> ∅)).

(** "Update or create destination location" (lines 169-180) *)
Definition update_or_create_destination (product_id to_location_id : value)
  (quantity : Z) : M unit :=
  let* dlocs := read (λ s, get_inventory_locations s product_id
                                                   to_location_id) in
  match head dlocs with
  | Some dest_loc =>
      if dict_truthy dest_loc then
        let* did := lift (subscript dest_loc "id") in
        let* dq := lift (subscript dest_loc "quantity") in
        let* new_dq := lift (py_add dq quantity) in
        let* _ := update_inventory_location did
                    {["quantity" := VInt new_dq]} in
        ret tt
      else
        let* _ := add_inventory_location
                    (new_location_row product_id to_location_id quantity) in
        ret tt
  | None =>
      let* _ := add_inventory_location
                  (new_location_row product_id to_location_id quantity) in
      ret tt
  end.

Definition transfer_body (product_id from_location_id to_location_id : value)
  (quantity : Z) (reason : string) : M (bool * message) :=
  let* locs := read (λ s, get_inventory_locations s product_id
                                                  from_location_id) in
  let source_loc := head locs in
  let* short := lift (source_insufficient source_loc quantity) in
  if short : bool then ret (false, Msg "Not enough inventory at source location")
  else
    let* sid := lift (subscript_opt source_loc "id") in
    let* sq := lift (subscript_opt source_loc "quantity") in
    let* new_sq := lift (py_sub sq quantity) in
    let* _ := update_inventory_location sid {["quantity" := VInt new_sq]} in
    let* _ := update_or_create_destination product_id to_location_id
                                           quantity in
    let* _ := log_audit (session_user_id env) "inventory_transfer"
                ("Transferred " +:+ pretty quantity +:+ " units of "
                 +:+ py_str product_id +:+ " from "
                 +:+ py_str from_location_id +:+ " to "
                 +:+ py_str to_location_id +:+ ". Reason: " +:+ reason) in
    ret (true, Msg "Inventory transferred successfully").

Definition transfer_inventory (product_id from_location_id to_location_id : value)
  (quantity : Z) (reason : string) : M (bool * message) :=
  try_except
    (transfer_body product_id from_location_id to_location_id quantity reason)
    (λ e, ret (false, ErrorTransferring e)).

(** *** The stock forms of the dashboard and the invoice form *)

(** What a form handler shows: [st.success] or [st.error]. *)
Inductive ui : Type :=
  | st_success (text : string)
  | st_error (text : string).

(** "Receive Stock" (lines 3178-3188).  [product] aliases the record
    that [update_inventory_item] mutates; the update writes
    ['quantity'] only, so ['name'] read afterwards is the one read
    here. *)
Definition receive_stock (product_id : value) (quantity : Z) : M ui :=
  let* product := read (λ s, get_inventory_item s product_id) in
  let* pq := lift (subscript_opt product "quantity") in
  let* new_qty := lift (py_add pq quantity) in
  let* _ := update_inventory_item product_id {["quantity" := VInt new_qty]} in
  let* name := lift (subscript_opt product "name") in
  let* _ := log_audit (session_user_id env) "stock_received"
              ("Received " +:+ pretty quantity +:+ " units of "
               +:+ py_str name +:+ ". New stock: " +:+ pretty new_qty) in
  ret (st_success ("Stock updated! New quantity: " +:+ pretty new_qty)).

(** "Adjust Stock" (lines 3222-3238) *)
Definition adjust_stock (product_id : value) (adjustment : Z)
  (reason : string) : M ui :=
  let* product := read (λ s, get_inventory_item s product_id) in
  let* pq := lift (subscript_opt product "quantity") in
  let* new_qty := lift (py_add pq adjustment) in
  if new_qty <? 0 then ret (st_error "Cannot have negative stock")
  else
    let* _ := update_inventory_item product_id
                {["quantity" := VInt new_qty]} in
    let* name := lift (subscript_opt product "name") in
    let* _ := log_audit (session_user_id env) "stock_adjusted"
                ("Adjusted " +:+ py_str name +:+ " by "
                 +:+ pretty adjustment +:+ ". Reason: " +:+ reason
                 +:+ ". New stock: " +:+ pretty new_qty) in
    ret (st_success ("Stock adjusted! New quantity: " +:+ pretty new_qty)).

(** "Deduct Stock" on a product card (lines 2853-2864); [product] is
    the record the card was drawn for. *)
Definition deduct_stock (product : record) (deduct_qty : Z)
  (reason : string) : M ui :=
  let* pq := lift (subscript product "quantity") in
  let* diff := lift (py_sub pq deduct_qty) in
  let new_qty := if diff <? 0 then 0 else diff in
  let* pid := lift (subscript product "id") in
  let* _ := update_inventory_item pid {["quantity" := VInt new_qty]} in
  let* name := lift (subscript product "name") in
  let* _ := log_audit (session_user_id env) "stock_deducted"
              ("Deducted " +:+ pretty deduct_qty +:+ " of "
               +:+ py_str name +:+ ". Reason: " +:+ reason) in
  ret (st_success ("Stock updated! New quantity: " +:+ pretty new_qty)).

(** The stock update of "Create Invoice", run for each invoice line
    after [add_invoice_item], which writes to ['invoice_items'] only
    (lines 4376-4379).  No call to [log_audit] follows. *)
Definition invoice_deduct (item_id : value) (item_quantity : Z) : M unit :=
  let* product := read (λ s, get_inventory_item s item_id) in
  match product with
  | Some p =>
      if dict_truthy p then
        let* pq := lift (subscript p "quantity") in
        let* new_qty := lift (py_sub pq item_quantity) in
        let* _ := update_inventory_item item_id
                    {["quantity" := VInt (Z.max 0 new_qty)]} in
        ret tt
      else ret tt
  | None => ret tt
  end.

End Ledger.

(** ** Observations the properties are stated with *)

(** The quantity held for a product at a location, read the way
    [transfer_inventory] reads its source row: the first row
    [get_inventory_locations] returns for the pair. *)
Definition quantityAt (s : JSONDatabase) (product_id location_id : value)
  : result (option Z) :=
  let? locs := get_inventory_locations s product_id location_id in
  match head locs with
  | None => Ok None
  | Some r =>
      let? v := subscript r "quantity" in
      match v with
      | VInt n => Ok (Some n)
      | _ => Raise (TypeError "int")
      end
  end.

(** [Product.quantity], the aggregate: the ['quantity'] of the record
    [get_inventory_item] returns. *)
Definition product_quantity (s : JSONDatabase) (product_id : value)
  : result value :=
  let? product := get_inventory_item s product_id in
  subscript_opt product "quantity".

(** ** Predicates on the store *)

(** Row ids are pairwise distinct, as [uuid4] ids are. *)
Definition row_ids (rows : list record) : list (option value) :=
  (λ r : record, r !! "id") <$> rows.

Definition unique_ids (s : JSONDatabase) : Prop :=
  ∀ rows, inventory_locations s = Some rows → NoDup (row_ids rows).

(** The (product_id, location_id) pair of a row. *)
Definition pair_key (r : record) : option value * option value :=
  (r !! "product_id", r !! "location_id").

(** At most one row per (product_id, location_id) pair. *)
Definition unique_pairs (s : JSONDatabase) : Prop :=
  ∀ rows, inventory_locations s = Some rows → NoDup (pair_key <$> rows).

(** A row as [add_inventory_location] and [transfer_inventory] leave
    it: with an id, a product, a location and an int quantity. *)
Definition wf_row (r : record) : Prop :=
  is_Some (r !! "id") ∧ is_Some (r !! "product_id") ∧
  is_Some (r !! "location_id") ∧ ∃ n, r !! "quantity" = Some (VInt n).

Definition wf_rows (s : JSONDatabase) : Prop :=
  ∃ rows, inventory_locations s = Some rows ∧ Forall wf_row rows.

(** Two rows that differ at most in their ['quantity']. *)
Definition qty_only (r r' : record) : Prop :=
  r' = r ∨ ∃ v, r' = <["quantity" := v]> r.

(** The inventory collection [inv'] differs from [inv] at most in the
    ['quantity'] of records whose id is [P]: same length, every other
    record identical, every other field of every record identical. *)
Definition only_quantity_of (P : value) (inv inv' : list record) : Prop :=
  length inv' = length inv ∧
  ∀ j prod, inv !! j = Some prod →
    ∃ prod', inv' !! j = Some prod' ∧
      (∀ k, k ≠ "quantity" → prod' !! k = prod !! k) ∧
      (prod !! "id" ≠ Some P → prod' = prod).

(** From [s] to [s'] the list of (product, location) pairs of the rows
    is kept, or grows at its end by one pair that no row of [s]
    carried.  This looks at the pairs only, not at the quantities. *)
Definition pair_keys_grow (s s' : JSONDatabase) : Prop :=
  match inventory_locations s, inventory_locations s' with
  | Some rows, Some rows' =>
      pair_key <$> rows' = pair_key <$> rows ∨
      ∃ k, (k ∉ pair_key <$> rows) ∧
           pair_key <$> rows' = (pair_key <$> rows) ++ [k]
  | None, None => True
  | _, _ => False
  end.

(** Taking [q] units off a row of the pair (P, A) that holds at least
    [q]: that row's quantity goes from [a] to [a - q], nothing else
    changes. *)
Definition debit (P A : value) (q : Z) (rows rows' : list record) : Prop :=
  ∃ i (r : record) a,
    rows !! i = Some r ∧ pair_key r = (Some P, Some A) ∧
    r !! "quantity" = Some (VInt a) ∧ q ≤ a ∧
    rows' = <[i := <["quantity" := VInt (a - q)]> r]> rows.

(** Merge-or-create of [q] units for the pair (P, B): either a row of
    the pair is there and its quantity goes from [n] to [n + q], with
    no row added and nothing else changed; or no row carries the pair
    and exactly one row is appended, which carries the pair and holds
    [q]. *)
Definition merge_or_create (P B : value) (q : Z) (rows rows' : list record)
  : Prop :=
  (∃ i (r : record) n,
     rows !! i = Some r ∧ pair_key r = (Some P, Some B) ∧
     r !! "quantity" = Some (VInt n) ∧
     rows' = <[i := <["quantity" := VInt (n + q)]> r]> rows) ∨
  (((Some P, Some B) ∉ pair_key <$> rows) ∧
   ∃ r : record,
     rows' = rows ++ [r] ∧ pair_key r = (Some P, Some B) ∧
     r !! "quantity" = Some (VInt q)).

(** ** The ledger writes and the states they reach *)

Inductive ledger_write : Type :=
  | Receive (product_id : value) (quantity : Z)
  | Adjust (product_id : value) (adjustment : Z) (reason : string)
  | Transfer (product_id from_location_id to_location_id : value)
             (quantity : Z) (reason : string)
  | Deduct (item_id : value) (item_quantity : Z)
  | DeductCard (product : record) (deduct_qty : Z) (reason : string).

(** The store a write leaves, whether it succeeded or not. *)
Definition run_write (env : Env) (w : ledger_write) (s : JSONDatabase)
  : JSONDatabase :=
  match w with
  | Receive p q => fst (receive_stock env p q s)
  | Adjust p d reason => fst (adjust_stock env p d reason s)
  | Transfer p a b q reason => fst (transfer_inventory env p a b q reason s)
  | Deduct p q => fst (invoice_deduct p q s)
  | DeductCard product q reason => fst (deduct_stock env product q reason s)
  end.

Inductive reachable (env : Env) (s0 : JSONDatabase) : JSONDatabase → Prop :=
  | reach_refl : reachable env s0 s0
  | reach_step s w :
      reachable env s0 s → reachable env s0 (run_write env w s).

(** ** A small store to run the code on *)

Module Demo.

Definition env : Env :=
  mkEnv (λ n, "uuid-" +:+ pretty n) (λ n, "2024-01-01T00:00:" +:+ pretty n)
        (VStr "admin").

Definition product (id name : string) (qty : Z) : record :=
  <["id" := VStr id]> (<["name" := VStr name]>
  (<["price" := VInt 5]> (<["quantity" := VInt qty]> ∅))).

Definition row (id product_id location_id : string) (qty : Z) : record :=
  <["id" := VStr id]> (<["product_id" := VStr product_id]>
  (<["location_id" := VStr location_id]> (<["quantity" := VInt qty]> ∅))).

(** Product X with quantity 10; 10 units at A and none at B. *)
Definition db0 : JSONDatabase :=
  mkDB [product "X" "Widget" 10; product "Y" "Gadget" 3]
       (Some [row "r1" "X" "A" 10; row "r2" "X" "B" 0]) [] 0.

(** The same, with no row for B yet. *)
Definition db1 : JSONDatabase :=
  mkDB [product "X" "Widget" 10] (Some [row "r1" "X" "A" 10]) [] 0.

(** A store as [_initialize_db] leaves it, with one product added:
    no ['inventory_locations'] collection. *)
Definition db_fresh : JSONDatabase :=
  mkDB [product "X" "Widget" 10] None [] 0.

End Demo.



(** * The rest of the inventory code

    The other accessors of the inventory collection, the audit-log
    reader, the dashboard's statistics and filters, its "Confirm Delete"
    button and its "Transfer Stock" form, and [delete_location]. *)

(** [d.get(k, default)] never raises. *)
Definition dict_get (d : record) (k : string) (dflt : value) : value :=
  default dflt (d !! k).

(** [v < w] on two stored values: ints compare as numbers, strings
    lexicographically, anything else is a [TypeError]. *)
Definition py_lt_values (v w : value) : result bool :=
  match v, w with
  | VInt a, VInt b => Ok (a <? b)
  | VStr a, VStr b => Ok (String.ltb a b)
  | _, _ => Raise (TypeError "<")
  end.

(** [v <= n] and [v > n] with [n] an int. *)
Definition py_le (v : value) (n : Z) : result bool :=
  match v with
  | VInt a => Ok (a <=? n)
  | _ => Raise (TypeError "<=")
  end.

Definition py_gt (v : value) (n : Z) : result bool :=
  match v with
  | VInt a => Ok (n <? a)
  | _ => Raise (TypeError ">")
  end.

(** [r[k] == v] and [r['id'] != key]. *)
Definition field_is (k : string) (v : value) (r : record) : result bool :=
  let? x := subscript r k in Ok (py_eq x v).

Definition id_is_not (key : value) (r : record) : result bool :=
  let? v := subscript r "id" in Ok (negb (py_eq v key)).

(** [item.get('barcode') == barcode] *)
Definition barcode_is (barcode : value) (item : record) : result bool :=
  Ok (py_eq (dict_get item "barcode" VNone) barcode).

(** The second component of the pair a delete method returns: its
    fixed text, or "Error deleting <what>: <e>". *)
Inductive delete_message : Type :=
  | DeleteMsg (text : string)
  | DeleteError (what : string) (e : exn).

(** An exception a form handler lets escape: one of the ledger's, or
    the [AttributeError] of calling a method on [None]. *)
Inductive form_exn : Type :=
  | Raised (e : exn)
  | AttributeError (attr : string).

(** The store with the ['locations'] collection beside the ledger's. *)
Record Catalog : Type := mkCatalog {
  ledger : JSONDatabase;
  locations : list record
}.

Section Inventory.

Variable env : Env.

(** [get_inventory_items] (lines 75-77) *)
Definition get_inventory_items (s : JSONDatabase) : list record :=
  inventory s.

(** [add_inventory_item] (lines 83-93); nothing in its [try] block
    raises: [_initialize_db] creates ['inventory']. *)
Definition add_inventory_item (item_data : record) : M (option string) :=
  try_except
    (let* uid := fresh_uuid env in
     let* ts := now env in
     let item := <["created_at" := VStr ts]>
                   (<["id" := VStr uid]> item_data) in
     let* _ := set_inventory (λ l, l ++ [item]) in
     ret (Some uid))
    (λ _, ret None).

(** [delete_inventory_item] (lines 104-111) *)
Definition delete_inventory_item (item_id : value)
  : M (bool * delete_message) :=
  try_except
    (let* kept := read (λ s, filterM (id_is_not item_id) (inventory s)) in
     let* _ := set_inventory (λ _, kept) in
     ret (true, DeleteMsg "Item deleted successfully"))
    (λ e, ret (false, DeleteError "item" e)).

(** [get_inventory_item_by_barcode] (lines 113-115) *)
Definition get_inventory_item_by_barcode (s : JSONDatabase) (barcode : value)
  : result (option record) :=
  let? r := first_where (barcode_is barcode) (inventory s) in
  Ok (snd <$> r).

(** [get_audit_logs] (lines 1001-1008); an absent argument is [None]. *)
Definition get_audit_logs (s : JSONDatabase) (user_id action : value)
  : result (list record) :=
  let? logs := (if truthy user_id
                then filterM (field_is "user_id" user_id) (audit_log s)
                else Ok (audit_log s)) in
  if truthy action then filterM (field_is "action" action) logs else Ok logs.

(** *** Statistics and filters of the dashboard *)

(** [i['quantity'] < i.get('min_stock', 5)] (lines 2772, 2813) *)
Definition is_low_stock (i : record) : result bool :=
  let? q := subscript i "quantity" in
  py_lt_values q (dict_get i "min_stock" (VInt 5)).

(** [i['quantity'] <= 0] (lines 2775, 2815, 3118) *)
Definition is_out_of_stock (i : record) : result bool :=
  let? q := subscript i "quantity" in py_le q 0.

(** [p['quantity'] > 0] (lines 2817, 3120) *)
Definition is_in_stock (p : record) : result bool :=
  let? q := subscript p "quantity" in py_gt q 0.

(** The "Low Stock" and "Out of Stock" cards (lines 2771-2776). *)
Definition low_stock_count (s : JSONDatabase) : result nat :=
  let? l := filterM is_low_stock (get_inventory_items s) in Ok (length l).

Definition out_of_stock_count (s : JSONDatabase) : result nat :=
  let? l := filterM is_out_of_stock (get_inventory_items s) in Ok (length l).

(** The "Stock Status" filter of the product list (lines 2811-2817):
    any choice other than the three named ones falls in the last
    branch. *)
Definition filter_by_stock (stock_filter : string) (products : list record)
  : result (list record) :=
  if bool_decide (stock_filter = "All") then Ok products
  else if bool_decide (stock_filter = "Low Stock") then
    filterM is_low_stock products
  else if bool_decide (stock_filter = "Out of Stock") then
    filterM is_out_of_stock products
  else filterM is_in_stock products.

(** *** The "Confirm Delete" button *)

(** "Confirm Delete" (lines 2888-2896): the result of
    [delete_inventory_item] is not looked at. *)
Definition confirm_delete (delete_product : record) : M unit :=
  let* pid := lift (subscript delete_product "id") in
  let* _ := delete_inventory_item pid in
  let* name := lift (subscript delete_product "name") in
  let* _ := log_audit env (session_user_id env) "product_deleted"
              ("Deleted product: " +:+ py_str name) in
  ret tt.

(** *** The "Transfer Stock" form (lines 3269-3289)

    It does not call [transfer_inventory]. *)
Definition transfer_stock_checked (product : record)
  (product_id from_location to_location : value) (quantity : Z) : M ui :=
  if negb (py_eq (dict_get product "location_id" VNone) from_location) then
    ret (st_error "Product is not at the selected source location")
  else
    let* pq := lift (subscript product "quantity") in
    let* short := lift (py_lt pq quantity) in
    if short : bool then
      ret (st_error "Not enough stock available for transfer")
    else
      let* pq' := lift (subscript product "quantity") in
      let* new_source_qty := lift (py_sub pq' quantity) in
      let* _ := update_inventory_item product_id
                  {["quantity" := VInt new_source_qty]} in
      let* name := lift (subscript product "name") in
      let* _ := log_audit env (session_user_id env) "stock_transferred"
                  ("Transferred " +:+ pretty quantity +:+ " units of "
                   +:+ py_str name +:+ " from " +:+ py_str from_location
                   +:+ " to " +:+ py_str to_location) in
      ret (st_success ("Transferred " +:+ pretty quantity +:+ " units to "
                       +:+ py_str to_location)).

Definition transfer_stock_form (product_id from_location to_location : value)
  (quantity : Z) (s : JSONDatabase) : JSONDatabase * (form_exn + ui) :=
  match get_inventory_item s product_id with
  | Raise e => (s, inl (Raised e))
  | Ok None => (s, inl (AttributeError "get"))
  | Ok (Some product) =>
      match transfer_stock_checked product product_id from_location
                                   to_location quantity s with
      | (s', Ok shown) => (s', inr shown)
      | (s', Raise e) => (s', inl (Raised e))
      end
  end.

End Inventory.

(** [any(p for p in self.data['inventory']
         if p.get('location_id') == location_id)] *)
Definition location_has_products (s : JSONDatabase) (location_id : value)
  : bool :=
  existsb (λ p, py_eq (dict_get p "location_id" VNone) location_id
                && dict_truthy p)
          (inventory s).

(** [delete_location] (lines 538-551) *)
Definition delete_location (location_id : value) (c : Catalog)
  : Catalog * (bool * delete_message) :=
  if location_has_products (ledger c) location_id then
    (c, (false, DeleteMsg "Location has products. Reassign them first."))
  else
    match filterM (id_is_not location_id) (locations c) with
    | Ok kept =>
        (mkCatalog (ledger c) kept,
         (true, DeleteMsg "Location deleted successfully"))
    | Raise e => (c, (false, DeleteError "location" e))
    end.

(** ** Predicates on the store, continued *)

(** No stored int quantity is negative, in the inventory and in the
    location rows. *)
Definition nonneg_records (l : list record) : Prop :=
  Forall (λ r : record, ∀ n, r !! "quantity" = Some (VInt n) → 0 ≤ n) l.

Definition nonneg_store (s : JSONDatabase) : Prop :=
  nonneg_records (inventory s) ∧
  ∀ rows, inventory_locations s = Some rows → nonneg_records rows.

(** The quantity a write is asked to move or add is not negative
    (the forms take it from a number input with [min_value=1]). *)
Definition write_nonneg (w : ledger_write) : Prop :=
  match w with
  | Receive _ q => 0 ≤ q
  | Transfer _ _ _ q _ => 0 ≤ q
  | _ => True
  end.

(** Every record of the collection has an ['id']. *)
Definition all_have_id (l : list record) : Prop :=
  Forall (λ r : record, is_Some (r !! "id")) l.

(** ** More stores to run the code on *)

Module Sample.

(** Product X is kept at location A, with 10 units there in the
    location rows; L is a second, empty location. *)
Definition product_at (id name location : string) (qty : Z) : record :=
  <["location_id" := VStr location]> (Demo.product id name qty).

Definition db_located : JSONDatabase :=
  mkDB [product_at "X" "Widget" "L1" 10; Demo.product "Y" "Gadget" 0]
       (Some [Demo.row "r1" "X" "A" 10; Demo.row "r2" "Y" "L2" 7]) [] 0.

(** An inventory with a record that lost its ['id']. *)
Definition db_broken : JSONDatabase :=
  mkDB [Demo.product "X" "Widget" 10; <["name" := VStr "Orphan"]> ∅]
       None [] 0.

Definition location (id name : string) : record :=
  <["id" := VStr id]> (<["name" := VStr name]> ∅).

Definition catalog : Catalog :=
  mkCatalog db_located [location "L1" "Shop"; location "L2" "Depot"].

End Sample.

(** * Properties *)

(** ** The monads *)

Lemma rmap_rmap {A B C} (f : A → B) (g : B → C) (r : result A) :
  rmap g (rmap f r) = rmap (g ∘ f) r.
Proof. by destruct r. Qed.

Lemma rmap_ext {A B} (f g : A → B) (r : result A) :
  (∀ a, f a = g a) → rmap f r = rmap g r.
Proof. intros Hfg. destruct r; simpl; [by rewrite Hfg | done]. Qed.

Lemma rmap_id {A} (f : A → A) (r : result A) :
  (∀ a, f a = a) → rmap f r = r.
Proof. intros Hf. destruct r; simpl; [by rewrite Hf | done]. Qed.

Lemma bind_inv {A B} (m : M A) (k : A → M B) s s'' r :
  bind m k s = (s'', r) →
  (∃ s' a, m s = (s', Ok a) ∧ k a s' = (s'', r)) ∨
  (∃ e, m s = (s'', Raise e) ∧ r = Raise e).
Proof.
  unfold bind. destruct (m s) as [s' [a|e]]; intros H.
  - left. eauto.
  - right. inversion H; subst. eauto.
Qed.

Lemma bind_ok {A B} (m : M A) (k : A → M B) s s' a :
  m s = (s', Ok a) → bind m k s = k a s'.
Proof. unfold bind. by intros ->. Qed.

Lemma bind_raise {A B} (m : M A) (k : A → M B) s s' e :
  m s = (s', Raise e) → bind m k s = (s', Raise e).
Proof. unfold bind. by intros ->. Qed.

(** ** Comprehensions *)

Section Comprehensions.

Variable p : record → result bool.

Lemma filterM_app l1 l2 :
  filterM p (l1 ++ l2) =
  let? a := filterM p l1 in let? b := filterM p l2 in Ok (a ++ b).
Proof.
  induction l1 as [|x l1 IH]; simpl.
  - by destruct (filterM p l2).
  - destruct (p x) as [b|e]; simpl; [|done].
    rewrite IH. destruct (filterM p l1) as [a|e]; simpl; [|done].
    destruct (filterM p l2); simpl; [|done]. by destruct b.
Qed.

Lemma filterM_all_false l :
  Forall (λ y, p y = Ok false) l → filterM p l = Ok [].
Proof.
  induction 1 as [|x l Hx _ IH]; simpl; [done|]. by rewrite Hx, IH.
Qed.

Lemma filterM_nil_inv l :
  filterM p l = Ok [] → Forall (λ y, p y = Ok false) l.
Proof.
  induction l as [|x l IH]; simpl; [constructor|].
  destruct (p x) as [[]|] eqn:Hx; simpl; try done;
    destruct (filterM p l); simpl; try done.
  intros [= ->]. constructor; auto.
Qed.

(** The head of a comprehension is the first match of the list. *)
Lemma filterM_head_split l x xs :
  filterM p l = Ok (x :: xs) →
  ∃ l1 l2, l = l1 ++ x :: l2 ∧ Forall (λ y, p y = Ok false) l1 ∧
           p x = Ok true ∧ filterM p l2 = Ok xs.
Proof.
  induction l as [|y l IH]; simpl; [done|].
  destruct (p y) as [[]|] eqn:Hy; simpl; try done;
    destruct (filterM p l) as [rest|] eqn:Hl; simpl; try done.
  - intros [= -> ->]. exists [], l. by repeat split.
  - intros [= ->]. destruct (IH eq_refl) as (l1 & l2 & -> & H1 & Hx & H2).
    exists (y :: l1), l2. repeat split; auto.
Qed.

Lemma filterM_elem l l' x :
  filterM p l = Ok l' → x ∈ l' → x ∈ l ∧ p x = Ok true.
Proof.
  revert l'. induction l as [|y l IH]; simpl; intros l'.
  - intros [= <-] Hx. by apply elem_of_nil in Hx.
  - destruct (p y) as [[]|] eqn:Hy; simpl; try done;
      destruct (filterM p l) as [rest|] eqn:Hl; simpl; try done;
      intros [= <-] Hx.
    + apply elem_of_cons in Hx as [->|Hx].
      * split; [left|done].
      * destruct (IH _ eq_refl Hx). split; [by right|done].
    + destruct (IH _ eq_refl Hx). split; [by right|done].
Qed.

(** Replacing a row by one the predicate treats alike. *)
Lemma filterM_middle_true l1 l2 x :
  p x = Ok true →
  filterM p (l1 ++ x :: l2) =
  let? a := filterM p l1 in let? b := filterM p l2 in Ok (a ++ x :: b).
Proof.
  intros Hp. rewrite filterM_app. simpl. rewrite Hp. simpl.
  destruct (filterM p l1); simpl; [|done]. by destruct (filterM p l2).
Qed.

Lemma filterM_middle_false l1 l2 x :
  p x = Ok false → filterM p (l1 ++ x :: l2) = filterM p (l1 ++ l2).
Proof.
  intros Hp. rewrite !filterM_app. simpl. rewrite Hp. simpl.
  destruct (filterM p l1); simpl; [|done]. by destruct (filterM p l2).
Qed.

Lemma first_where_split l i r :
  first_where p l = Ok (Some (i, r)) →
  ∃ l1 l2, l = l1 ++ r :: l2 ∧ length l1 = i ∧ p r = Ok true ∧
           Forall (λ y, p y = Ok false) l1.
Proof.
  revert i. induction l as [|y l IH]; simpl; intros i; [done|].
  destruct (p y) as [[]|] eqn:Hy; simpl; try done.
  - intros [= <- <-]. exists [], l. by repeat split.
  - destruct (first_where p l) as [[[j r']|]|] eqn:Hl; simpl; try done.
    intros [= <- <-]. destruct (IH _ eq_refl) as (l1 & l2 & -> & <- & Hr & H1).
    exists (y :: l1), l2. repeat split; auto.
Qed.

Lemma first_where_none l :
  first_where p l = Ok None → Forall (λ y, p y = Ok false) l.
Proof.
  induction l as [|y l IH]; simpl; [constructor|].
  destruct (p y) as [[]|] eqn:Hy; simpl; try done.
  destruct (first_where p l) as [[[j r']|]|] eqn:Hl; simpl; try done.
  intros _. constructor; auto.
Qed.

Lemma first_where_found l1 l2 r :
  Forall (λ y, p y = Ok false) l1 → p r = Ok true →
  first_where p (l1 ++ r :: l2) = Ok (Some (length l1, r)).
Proof.
  intros H1 Hr. induction H1 as [|y l1 Hy _ IH]; simpl.
  - by rewrite Hr.
  - by rewrite Hy, IH.
Qed.

(** On a list where the predicate never raises, the scan returns. *)
Lemma first_where_total l :
  Forall (λ y, ∃ b, p y = Ok b) l → ∃ o, first_where p l = Ok o.
Proof.
  induction 1 as [|y l [b Hy] _ [o IH]]; simpl; [eauto|].
  rewrite Hy, IH. destruct b; simpl; eauto.
Qed.

Lemma filterM_total l :
  Forall (λ y, ∃ b, p y = Ok b) l → ∃ l', filterM p l = Ok l'.
Proof.
  induction 1 as [|y l [b Hy] _ [o IH]]; simpl; [eauto|].
  rewrite Hy, IH. simpl; eauto.
Qed.

End Comprehensions.

Lemma filterM_ext p1 p2 l :
  Forall (λ y, p1 y = p2 y) l → filterM p1 l = filterM p2 l.
Proof. induction 1 as [|y l Hy _ IH]; simpl; [done|]. by rewrite Hy, IH. Qed.

(** ** Sums of quantities *)

Lemma sum_quantities_shift acc d l :
  sum_quantities (acc + d) l = rmap (λ t, t + d) (sum_quantities acc l).
Proof.
  revert acc. induction l as [|x l IH]; intros acc; simpl; [done|].
  destruct (subscript x "quantity") as [[| n |]|]; simpl; try done.
  replace (acc + d + n) with (acc + n + d) by lia. apply IH.
Qed.

Lemma sum_quantities_app acc l1 l2 :
  sum_quantities acc (l1 ++ l2) =
  let? t := sum_quantities acc l1 in sum_quantities t l2.
Proof.
  revert acc. induction l1 as [|x l1 IH]; intros acc; simpl; [done|].
  destruct (subscript x "quantity") as [[| n |]|]; simpl; try done.
Qed.

(** Changing the int quantity of one summed row shifts the sum. *)
Lemma sum_quantities_replace acc l1 l2 (x x' : record) n n' :
  x !! "quantity" = Some (VInt n) → x' !! "quantity" = Some (VInt n') →
  sum_quantities acc (l1 ++ x' :: l2) =
  rmap (λ t, t + (n' - n)) (sum_quantities acc (l1 ++ x :: l2)).
Proof.
  intros Hx Hx'. rewrite !sum_quantities_app.
  destruct (sum_quantities acc l1) as [t|]; simpl; [|done].
  unfold subscript. rewrite Hx, Hx'. simpl.
  replace (t + n') with (t + n + (n' - n)) by lia.
  apply sum_quantities_shift.
Qed.

(** ** Rows that differ in their quantity only *)

Lemma dict_update_quantity (r : record) v :
  dict_update r {["quantity" := v]} = <["quantity" := v]> r.
Proof. unfold dict_update. by rewrite insert_union_singleton_l. Qed.

Lemma qty_only_refl r : qty_only r r.
Proof. by left. Qed.

Lemma qty_only_insert (r : record) v : qty_only r (<["quantity" := v]> r).
Proof. right. by exists v. Qed.

Lemma qty_only_trans r1 r2 r3 :
  qty_only r1 r2 → qty_only r2 r3 → qty_only r1 r3.
Proof.
  intros [->|[v ->]] [->|[w ->]]; [by left|right; eauto|right; eauto|].
  right. exists w. by rewrite insert_insert_eq.
Qed.

Lemma qty_only_lookup r r' k :
  qty_only r r' → k ≠ "quantity" → r' !! k = r !! k.
Proof. intros [->|[v ->]] Hk; [done|]. by rewrite lookup_insert_ne. Qed.

Lemma qty_only_id_is key r r' : qty_only r r' → id_is key r' = id_is key r.
Proof.
  intros H. unfold id_is, subscript. by rewrite (qty_only_lookup r r').
Qed.

Lemma qty_only_product_is P r r' :
  qty_only r r' → product_is P r' = product_is P r.
Proof.
  intros H. unfold product_is, subscript. by rewrite (qty_only_lookup r r').
Qed.

Lemma qty_only_location_is A r r' :
  qty_only r r' → location_is A r' = location_is A r.
Proof.
  intros H. unfold location_is, subscript. by rewrite (qty_only_lookup r r').
Qed.

Lemma qty_only_product_and_location_is P A r r' :
  qty_only r r' →
  product_and_location_is P A r' = product_and_location_is P A r.
Proof.
  intros H. unfold product_and_location_is.
  by rewrite (qty_only_product_is P r r'), (qty_only_location_is A r r').
Qed.

Lemma qty_only_pair_key r r' : qty_only r r' → pair_key r' = pair_key r.
Proof.
  intros H. unfold pair_key. by rewrite !(qty_only_lookup r r').
Qed.

Lemma Forall2_qty_only_refl rows : Forall2 qty_only rows rows.
Proof. induction rows; constructor; auto using qty_only_refl. Qed.

Lemma Forall2_qty_only_trans l1 l2 l3 :
  Forall2 qty_only l1 l2 → Forall2 qty_only l2 l3 → Forall2 qty_only l1 l3.
Proof.
  intros H12. revert l3. induction H12; intros l3 H23; inversion H23; subst;
    constructor; eauto using qty_only_trans.
Qed.

Lemma Forall2_qty_only_insert rows i (r : record) v :
  rows !! i = Some r →
  Forall2 qty_only rows (<[i := <["quantity" := v]> r]> rows).
Proof.
  revert i. induction rows as [|x rows IH]; intros [|i] Hi; simpl in *;
    try done.
  - injection Hi as ->. constructor;
      auto using qty_only_insert, Forall2_qty_only_refl.
  - constructor; auto using qty_only_refl.
Qed.

Lemma Forall2_qty_only_pair_keys l l' :
  Forall2 qty_only l l' → pair_key <$> l' = pair_key <$> l.
Proof.
  induction 1 as [|r r' l l' Hr _ IH]; [done|].
  rewrite !fmap_cons. by rewrite IH, (qty_only_pair_key r r').
Qed.

(** ** What each primitive does to the store *)

Lemma id_is_true_lookup key r : id_is key r = Ok true → r !! "id" = Some key.
Proof.
  unfold id_is, subscript, py_eq. destruct (r !! "id") as [v|]; simpl; [|done].
  case_bool_decide; [by subst|done].
Qed.

Lemma id_is_true_truthy key r : id_is key r = Ok true → dict_truthy r = true.
Proof.
  intros H%id_is_true_lookup. unfold dict_truthy.
  case_bool_decide as Hr; [|done]. subst r. by rewrite lookup_empty in H.
Qed.

Lemma first_where_id_truthy key l i r :
  first_where (id_is key) l = Ok (Some (i, r)) → dict_truthy r = true.
Proof.
  intros (l1 & l2 & _ & _ & Hr & _)%first_where_split.
  by eapply id_is_true_truthy.
Qed.

Lemma update_inventory_location_run lid upd s :
  update_inventory_location lid upd s =
  match inventory_locations s with
  | None => (s, Raise (KeyError "inventory_locations"))
  | Some rows =>
      match first_where (id_is lid) rows with
      | Raise e => (s, Raise e)
      | Ok None => (s, Ok false)
      | Ok (Some (i, r)) =>
          (mkDB (inventory s) (Some (<[i := dict_update r upd]> rows))
                (audit_log s) (clock s), Ok true)
      end
  end.
Proof.
  unfold update_inventory_location, bind, read, locations_rows.
  destruct (inventory_locations s) as [rows|] eqn:Hrows; simpl; [|done].
  destruct (first_where (id_is lid) rows) as [[[i r]|]|] eqn:Hf; try done.
  rewrite (first_where_id_truthy _ _ _ _ Hf).
  unfold set_inventory_locations, ret. by rewrite Hrows.
Qed.

Lemma update_inventory_item_run item_id upd s :
  update_inventory_item item_id upd s =
  match first_where (id_is item_id) (inventory s) with
  | Raise e => (s, Raise e)
  | Ok None => (s, Ok false)
  | Ok (Some (i, r)) =>
      (mkDB (<[i := dict_update r upd]> (inventory s)) (inventory_locations s)
            (audit_log s) (clock s), Ok true)
  end.
Proof.
  unfold update_inventory_item, bind, read.
  destruct (first_where (id_is item_id) (inventory s)) as [[[i r]|]|] eqn:Hf;
    try done.
  by rewrite (first_where_id_truthy _ _ _ _ Hf).
Qed.

Lemma log_audit_run env user action details s :
  log_audit env user action details s =
  (mkDB (inventory s) (inventory_locations s)
        (audit_log s ++ [log_entry (uuid4 env (clock s)) user action details
                                   (now_isoformat env (S (clock s)))])
        (S (S (clock s))),
   Ok (Some (uuid4 env (clock s)))).
Proof. reflexivity. Qed.

Lemma add_inventory_location_run env data s rows :
  inventory_locations s = Some rows →
  add_inventory_location env data s =
  (mkDB (inventory s)
        (Some (rows ++ [<["created_at" := VStr (now_isoformat env (S (clock s)))]>
                          (<["id" := VStr (uuid4 env (clock s))]> data)]))
        (audit_log s) (S (S (clock s))),
   Ok (Some (uuid4 env (clock s)))).
Proof.
  intros Hrows. unfold add_inventory_location, try_except, bind, read,
    locations_rows, set_inventory_locations, fresh_uuid, now, ret. simpl.
  by rewrite Hrows.
Qed.

(** ** Rejected writes *)

Lemma lookup_Some_truthy (r : record) k v :
  r !! k = Some v → dict_truthy r = true.
Proof.
  intros H. unfold dict_truthy. case_bool_decide as Hr; [|done].
  subst r. by rewrite lookup_empty in H.
Qed.

Lemma transfer_short env s P A B q reason :
  (quantityAt s P A = Ok None ∨
   ∃ a, quantityAt s P A = Ok (Some a) ∧ a < q) →
  transfer_inventory env P A B q reason s =
  (s, Ok (false, Msg "Not enough inventory at source location")).
Proof.
  unfold quantityAt, transfer_inventory, try_except, transfer_body, bind, read.
  destruct (get_inventory_locations s P A) as [locs|e]; simpl.
  - destruct (head locs) as [r|] eqn:Hhead; simpl.
    + unfold subscript. destruct (r !! "quantity") as [v|] eqn:Hq; simpl.
      * rewrite (lookup_Some_truthy _ _ _ Hq).
        destruct v as [|a'|]; simpl;
          intros [?|(a & [= <-] & Ha)]; try done.
        by apply Z.ltb_lt in Ha as ->.
      * intros [?|(a & ? & _)]; done.
    + intros _. reflexivity.
  - intros [?|(a & ? & _)]; done.
Qed.



(** C4. An adjustment that would take the product's quantity below
    zero shows "Cannot have negative stock" and leaves the whole store
    as it was, so the product's quantity and every location sum are
    the ones before the call. *)
Theorem adjust_rejects_overdraw env s P delta reason c :
  product_quantity s P = Ok (VInt c) → delta < 0 → - delta > c →
  adjust_stock env P delta reason s =
  (s, Ok (st_error "Cannot have negative stock")) ∧
  product_quantity (fst (adjust_stock env P delta reason s)) P = Ok (VInt c) ∧
  get_total_inventory_by_product (fst (adjust_stock env P delta reason s)) P =
  get_total_inventory_by_product s P.
Proof.
  intros Hq Hd Hc.
  assert (adjust_stock env P delta reason s =
          (s, Ok (st_error "Cannot have negative stock"))) as ->.
  { unfold product_quantity in Hq. unfold adjust_stock, bind, read, lift.
    destruct (get_inventory_item s P) as [product|] eqn:Hp; simpl in *;
      [|done].
    rewrite Hq. simpl. assert ((c + delta <? 0) = true) as ->; [|done].
    apply Z.ltb_lt. lia. }
  done.
Qed.

Lemma adjust_rejects_overdraw_witness :
  adjust_stock Demo.env (VStr "X") (-11) "Damaged" Demo.db0 =
  (Demo.db0, Ok (st_error "Cannot have negative stock")) ∧
  product_quantity
    (fst (adjust_stock Demo.env (VStr "X") (-11) "Damaged" Demo.db0))
    (VStr "X") = Ok (VInt 10) ∧
  get_total_inventory_by_product
    (fst (adjust_stock Demo.env (VStr "X") (-11) "Damaged" Demo.db0))
    (VStr "X") =
  get_total_inventory_by_product Demo.db0 (VStr "X").
Proof.
  apply (adjust_rejects_overdraw Demo.env Demo.db0 (VStr "X") (-11) "Damaged" 10);
    [vm_compute; reflexivity | lia | lia].
Defined.

(** ** Reading the location rows *)

Lemma get_inventory_locations_pair s P A rows :
  truthy P = true → truthy A = true → inventory_locations s = Some rows →
  get_inventory_locations s P A = filterM (product_and_location_is P A) rows.
Proof.
  intros HP HA Hrows. unfold get_inventory_locations, locations_rows.
  by rewrite Hrows, HP, HA.
Qed.

Lemma get_total_rows s P rows :
  truthy P = true → inventory_locations s = Some rows →
  get_total_inventory_by_product s P =
  let? l := filterM (product_is P) rows in sum_quantities 0 l.
Proof.
  intros HP Hrows.
  unfold get_total_inventory_by_product, get_inventory_locations,
    locations_rows.
  by rewrite Hrows, HP.
Qed.

Lemma get_inventory_locations_Some s P A locs :
  get_inventory_locations s P A = Ok locs →
  ∃ rows, inventory_locations s = Some rows.
Proof.
  unfold get_inventory_locations, locations_rows.
  destruct (inventory_locations s); [eauto|done].
Qed.

Lemma quantityAt_of_filter s P A rows (x : record) xs n :
  truthy P = true → truthy A = true → inventory_locations s = Some rows →
  filterM (product_and_location_is P A) rows = Ok (x :: xs) →
  x !! "quantity" = Some (VInt n) →
  quantityAt s P A = Ok (Some n).
Proof.
  intros HP HA Hrows Hf Hx. unfold quantityAt.
  rewrite (get_inventory_locations_pair _ _ _ _ HP HA Hrows), Hf. simpl.
  unfold subscript. by rewrite Hx.
Qed.

Lemma quantityAt_of_filter_nil s P A rows :
  truthy P = true → truthy A = true → inventory_locations s = Some rows →
  filterM (product_and_location_is P A) rows = Ok [] →
  quantityAt s P A = Ok None.
Proof.
  intros HP HA Hrows Hf. unfold quantityAt.
  by rewrite (get_inventory_locations_pair _ _ _ _ HP HA Hrows), Hf.
Qed.

Lemma pair_is_true_inv P A (r : record) :
  product_and_location_is P A r = Ok true →
  r !! "product_id" = Some P ∧ r !! "location_id" = Some A.
Proof.
  unfold product_and_location_is, product_is, location_is, subscript, py_eq.
  destruct (r !! "product_id") as [p|]; simpl; [|done].
  case_bool_decide; [subst|done].
  destruct (r !! "location_id") as [l|]; simpl; [|done].
  case_bool_decide; [by subst|done].
Qed.

Lemma pair_is_true_intro P A (r : record) :
  r !! "product_id" = Some P → r !! "location_id" = Some A →
  product_and_location_is P A r = Ok true.
Proof.
  intros HP HA.
  unfold product_and_location_is, product_is, location_is, subscript, py_eq.
  rewrite HP. simpl. rewrite bool_decide_eq_true_2 by done.
  rewrite HA. simpl. by rewrite bool_decide_eq_true_2.
Qed.

Lemma pair_is_other_location P A B (r : record) :
  A ≠ B → product_and_location_is P A r = Ok true →
  product_and_location_is P B r = Ok false.
Proof.
  intros HAB [HP HA]%pair_is_true_inv.
  unfold product_and_location_is, product_is, location_is, subscript, py_eq.
  rewrite HP. simpl. rewrite bool_decide_eq_true_2 by done.
  rewrite HA. simpl. by rewrite bool_decide_eq_false_2.
Qed.

Lemma pair_is_product_is P A (r : record) :
  product_and_location_is P A r = Ok true → product_is P r = Ok true.
Proof.
  intros [HP _]%pair_is_true_inv. unfold product_is, subscript, py_eq.
  rewrite HP. simpl. by rewrite bool_decide_eq_true_2.
Qed.

(** ** Rows found by id, when ids are distinct *)

Lemma list_insert_middle {A} (l1 l2 : list A) x y :
  <[length l1 := y]> (l1 ++ x :: l2) = l1 ++ y :: l2.
Proof. induction l1 as [|z l1 IH]; simpl; [done|]. by rewrite IH. Qed.

Lemma unique_split_eq (l1 l2 m1 m2 : list record) (x y : record) :
  NoDup (row_ids (l1 ++ x :: l2)) →
  l1 ++ x :: l2 = m1 ++ y :: m2 →
  x !! "id" = y !! "id" →
  l1 = m1 ∧ x = y ∧ l2 = m2.
Proof.
  intros Hnd Heq Hid.
  assert (length l1 = length m1) as Hlen.
  { eapply (NoDup_lookup _ _ _ (x !! "id") Hnd).
    - unfold row_ids. rewrite list_lookup_fmap, list_lookup_middle by done.
      done.
    - rewrite Heq. unfold row_ids.
      rewrite list_lookup_fmap, list_lookup_middle by done. simpl.
      by rewrite Hid. }
  apply app_inj_1 in Heq as [-> Heq]; [|done].
  by injection Heq as -> ->.
Qed.

(** With distinct ids, updating by the id of the first match of a
    comprehension rewrites that very row. *)
Lemma update_first_match s p rows (x : record) xs key v :
  inventory_locations s = Some rows →
  NoDup (row_ids rows) →
  filterM p rows = Ok (x :: xs) →
  x !! "id" = Some key →
  ∃ l1 l2,
    rows = l1 ++ x :: l2 ∧ Forall (λ y, p y = Ok false) l1 ∧
    p x = Ok true ∧ filterM p l2 = Ok xs ∧
    update_inventory_location key {["quantity" := v]} s =
    (mkDB (inventory s) (Some (l1 ++ <["quantity" := v]> x :: l2))
          (audit_log s) (clock s), Ok true) ∨
    ∃ e, update_inventory_location key {["quantity" := v]} s = (s, Raise e).
Proof.
  intros Hrows Hnd Hf Hid.
  destruct (filterM_head_split _ _ _ _ Hf) as (l1 & l2 & -> & H1 & Hx & H2).
  exists l1, l2. rewrite update_inventory_location_run, Hrows.
  destruct (first_where (id_is key) (l1 ++ x :: l2)) as [[[i r]|]|e] eqn:Hfw.
  - left. repeat split; try done.
    destruct (first_where_split _ _ _ _ Hfw) as (m1 & m2 & Heq & <- & Hr & _).
    apply id_is_true_lookup in Hr.
    destruct (unique_split_eq _ _ _ _ _ _ Hnd Heq) as (<- & <- & <-);
      [congruence|].
    by rewrite list_insert_middle, dict_update_quantity.
  - apply first_where_none in Hfw.
    apply Forall_app in Hfw as [_ Hfw]. apply Forall_cons in Hfw as [Hfw _].
    unfold id_is, subscript, py_eq in Hfw. rewrite Hid in Hfw. simpl in Hfw.
    by rewrite bool_decide_eq_true_2 in Hfw.
  - right. eauto.
Qed.

(** ** The location sum under a row update and a row append *)

Lemma total_replace P l1 l2 (x : record) n n' :
  product_is P x = Ok true → x !! "quantity" = Some (VInt n) →
  (let? l := filterM (product_is P) (l1 ++ <["quantity" := VInt n']> x :: l2) in
   sum_quantities 0 l) =
  rmap (λ t, t + (n' - n))
       (let? l := filterM (product_is P) (l1 ++ x :: l2) in
        sum_quantities 0 l).
Proof.
  intros Hp Hx.
  assert (product_is P (<["quantity" := VInt n']> x) = Ok true) as Hp'.
  { by rewrite (qty_only_product_is P x _ (qty_only_insert x _)). }
  rewrite !filterM_middle_true by done.
  destruct (filterM (product_is P) l1) as [a|]; simpl; [|done].
  destruct (filterM (product_is P) l2) as [b|]; simpl; [|done].
  apply sum_quantities_replace; [done|by rewrite lookup_insert_eq].
Qed.

Lemma total_append P rows (x : record) n :
  product_is P x = Ok true → x !! "quantity" = Some (VInt n) →
  (let? l := filterM (product_is P) (rows ++ [x]) in sum_quantities 0 l) =
  rmap (λ t, t + n)
       (let? l := filterM (product_is P) rows in sum_quantities 0 l).
Proof.
  intros Hp Hx. rewrite filterM_app. simpl. rewrite Hp. simpl.
  destruct (filterM (product_is P) rows) as [a|]; simpl; [|done].
  rewrite sum_quantities_app.
  destruct (sum_quantities 0 a) as [t|]; simpl; [|done].
  unfold subscript. by rewrite Hx.
Qed.

Lemma row_ids_replace l1 l2 (x : record) v :
  row_ids (l1 ++ <["quantity" := v]> x :: l2) = row_ids (l1 ++ x :: l2).
Proof.
  unfold row_ids. rewrite !fmap_app, !fmap_cons.
  by rewrite lookup_insert_ne.
Qed.

(** ** The steps of a transfer that returned [True] *)

Lemma destination_inv env s1 s2 P B q u :
  update_or_create_destination env P B q s1 = (s2, Ok u) →
  ∃ dlocs,
    get_inventory_locations s1 P B = Ok dlocs ∧
    ((∃ dest did b b2,
        head dlocs = Some dest ∧ dict_truthy dest = true ∧
        dest !! "id" = Some did ∧ dest !! "quantity" = Some (VInt b) ∧
        update_inventory_location did {["quantity" := VInt (b + q)]} s1 =
        (s2, Ok b2)) ∨
     ((head dlocs = None ∨
       ∃ dest, head dlocs = Some dest ∧ dict_truthy dest = false) ∧
      ∃ r, add_inventory_location env (new_location_row P B q) s1 =
           (s2, Ok r))).
Proof.
  unfold update_or_create_destination, bind at 1, read.
  destruct (get_inventory_locations s1 P B) as [dlocs|] eqn:Hd; [|done].
  intros H. exists dlocs. split; [done|].
  destruct (head dlocs) as [dest|] eqn:Hhead.
  - destruct (dict_truthy dest) eqn:Ht.
    + left. unfold bind, lift, subscript in H.
      destruct (dest !! "id") as [did|] eqn:Hid; [|done].
      destruct (dest !! "quantity") as [[|b|]|] eqn:Hq; simpl in H; try done.
      destruct (update_inventory_location did _ s1) as [s2' [b2|]] eqn:Hu;
        [|done].
      injection H as -> _. eauto 10.
    + right. split; [eauto|]. unfold bind at 1 in H.
      destruct (add_inventory_location env _ s1) as [s2' [r|]] eqn:Ha; [|done].
      injection H as -> _. eauto.
  - right. split; [eauto|]. unfold bind at 1 in H.
    destruct (add_inventory_location env _ s1) as [s2' [r|]] eqn:Ha; [|done].
    injection H as -> _. eauto.
Qed.

Lemma transfer_success_inv env s s' P A B q reason msg :
  transfer_inventory env P A B q reason s = (s', Ok (true, msg)) →
  ∃ locs src sid a s1 s2 b1 u,
    get_inventory_locations s P A = Ok locs ∧ head locs = Some src ∧
    src !! "id" = Some sid ∧ src !! "quantity" = Some (VInt a) ∧ q ≤ a ∧
    update_inventory_location sid {["quantity" := VInt (a - q)]} s =
    (s1, Ok b1) ∧
    update_or_create_destination env P B q s1 = (s2, Ok u) ∧
    log_audit env (session_user_id env) "inventory_transfer"
      ("Transferred " +:+ pretty q +:+ " units of " +:+ py_str P +:+ " from "
       +:+ py_str A +:+ " to " +:+ py_str B +:+ ". Reason: " +:+ reason) s2 =
    (s', Ok (Some (uuid4 env (clock s2)))) ∧
    msg = Msg "Inventory transferred successfully".
Proof.
  unfold transfer_inventory, try_except.
  destruct (transfer_body env P A B q reason s) as [s0 [res|e]] eqn:Hb;
    [|done].
  intros [= -> ->]. revert Hb.
  unfold transfer_body, bind at 1, read.
  destruct (get_inventory_locations s P A) as [locs|] eqn:Hl; [|done].
  unfold bind at 1, lift, source_insufficient.
  destruct (head locs) as [src|] eqn:Hhead; [|done].
  destruct (dict_truthy src); [|done].
  unfold subscript at 1.
  destruct (src !! "quantity") as [[|a|]|] eqn:Hq; simpl; try done.
  destruct (a <? q) eqn:Hlt; [done|]. apply Z.ltb_ge in Hlt.
  unfold bind at 1, subscript. destruct (src !! "id") as [sid|] eqn:Hid;
    [|done].
  unfold bind at 1. rewrite Hq. unfold bind at 1. simpl.
  unfold bind at 1.
  destruct (update_inventory_location sid _ s) as [s1 [b1|]] eqn:Hu; [|done].
  unfold bind at 1.
  destruct (update_or_create_destination env P B q s1) as [s2 [u|]] eqn:Hdest;
    [|done].
  unfold bind at 1. rewrite log_audit_run. unfold ret.
  intros [= <- <-]. exists locs, src, sid, a, s1, s2, b1, u.
  by rewrite log_audit_run.
Qed.

(** ** Conservation *)

Lemma new_row_facts env c P B q :
  let x := <["created_at" := VStr (now_isoformat env (S c))]>
             (<["id" := VStr (uuid4 env c)]> (new_location_row P B q)) in
  x !! "product_id" = Some P ∧ x !! "location_id" = Some B ∧
  x !! "quantity" = Some (VInt q).
Proof. unfold new_location_row. by simplify_map_eq. Qed.

(** C1. A transfer of [q] units of product [P] from location [A] to a
    different location [B] that returns [True] found [q <= a] units in
    the source row, leaves [a - q] there, leaves [q] more in the
    destination row (a row created with [q] when there was none),
    keeps the sum over the product's location rows, and does not touch
    the inventory collection, hence no product's aggregate quantity.
    Ids and locations are non-empty and row ids are distinct. *)
Theorem transfer_conservation env s s' P A B q reason msg :
  truthy P = true → truthy A = true → truthy B = true → A ≠ B →
  unique_ids s →
  transfer_inventory env P A B q reason s = (s', Ok (true, msg)) →
  ∃ a ob rows rows',
    quantityAt s P A = Ok (Some a) ∧ q ≤ a ∧
    quantityAt s P B = Ok ob ∧
    quantityAt s' P A = Ok (Some (a - q)) ∧
    quantityAt s' P B = Ok (Some (default 0 ob + q)) ∧
    inventory_locations s = Some rows ∧
    inventory_locations s' = Some rows' ∧
    length rows' = (length rows + match ob with Some _ => 0 | None => 1 end)%nat ∧
    get_total_inventory_by_product s' P = get_total_inventory_by_product s P ∧
    inventory s' = inventory s ∧
    ∀ X, product_quantity s' X = product_quantity s X.
Proof.
  intros HP HA HB HAB Huniq Hrun.
  destruct (transfer_success_inv _ _ _ _ _ _ _ _ _ Hrun)
    as (locs & src & sid & a & s1 & s2 & b1 & u & Hlocs & Hhead & Hsid & Hsq
        & Hle & Hupd & Hdest & Hlog & _).
  destruct (get_inventory_locations_Some _ _ _ _ Hlocs) as [rows Hrows].
  pose proof (Huniq _ Hrows) as Hnd.
  rewrite (get_inventory_locations_pair _ _ _ _ HP HA Hrows) in Hlocs.
  destruct locs as [|src' xs]; [done|]. injection Hhead as ->.
  destruct (update_first_match s _ _ _ _ _ (VInt (a - q)) Hrows Hnd Hlocs Hsid)
    as (l1 & l2 & [(-> & Hl1 & Hsrc & Hl2 & Hupd')|[e He]]);
    [|by rewrite He in Hupd].
  rewrite Hupd' in Hupd. injection Hupd as <- <-.
  set (src' := <["quantity" := VInt (a - q)]> src) in *.
  set (rows1 := l1 ++ src' :: l2) in *.
  assert (qty_only src src') as Hqo by apply qty_only_insert.
  assert (product_and_location_is P A src' = Ok true) as Hsrc'.
  { by rewrite (qty_only_product_and_location_is P A src src'). }
  assert (product_and_location_is P B src = Ok false) as HsrcB.
  { by apply (pair_is_other_location P A B). }
  assert (product_and_location_is P B src' = Ok false) as Hsrc'B.
  { by rewrite (qty_only_product_and_location_is P B src src'). }
  assert (filterM (product_and_location_is P A) rows1 = Ok (src' :: xs))
    as HfA1.
  { unfold rows1. rewrite filterM_middle_true by done.
    by rewrite (filterM_all_false _ _ Hl1), Hl2. }
  assert (filterM (product_and_location_is P B) rows1 =
          filterM (product_and_location_is P B) (l1 ++ src :: l2)) as HfB1.
  { unfold rows1. by rewrite !filterM_middle_false. }
  assert ((let? l := filterM (product_is P) rows1 in sum_quantities 0 l) =
          rmap (λ t, t + (a - q - a))
               (let? l := filterM (product_is P) (l1 ++ src :: l2) in
                sum_quantities 0 l)) as Htot1.
  { apply total_replace; [by eapply pair_is_product_is|done]. }
  assert (NoDup (row_ids rows1)) as Hnd1.
  { unfold rows1, src'. by rewrite row_ids_replace. }
  set (st1 := mkDB (inventory s) (Some rows1) (audit_log s) (clock s)) in *.
  assert (inventory_locations st1 = Some rows1) as Hrows1 by done.
  rewrite log_audit_run in Hlog. injection Hlog as <-.
  destruct (destination_inv _ _ _ _ _ _ _ Hdest) as (dlocs & Hdlocs & Hcase).
  rewrite (get_inventory_locations_pair _ _ _ _ HP HB Hrows1) in Hdlocs.
  exists a.
  destruct Hcase as [(dest & did & b & b2 & Hdh & _ & Hdid & Hdq & Hdu)
                    |[Hnone (r & Hadd)]].
  - (* the destination row exists: merged *)
    destruct dlocs as [|dest' ys]; [done|]. injection Hdh as ->.
    destruct (update_first_match st1 _ _ _ _ _ (VInt (b + q))
                Hrows1 Hnd1 Hdlocs Hdid)
      as (n1 & n2 & [(Hsplit & Hn1 & Hd & Hn2 & Hdu')|[e He]]);
      [|by rewrite He in Hdu].
    rewrite Hdu' in Hdu. injection Hdu as <- <-.
    set (dest' := <["quantity" := VInt (b + q)]> dest) in *.
    assert (qty_only dest dest') as Hqd by apply qty_only_insert.
    assert (product_and_location_is P B dest' = Ok true) as Hd'.
    { by rewrite (qty_only_product_and_location_is P B dest dest'). }
    assert (product_and_location_is P A dest = Ok false) as HdA.
    { by apply (pair_is_other_location P B A). }
    assert (product_and_location_is P A dest' = Ok false) as Hd'A.
    { by rewrite (qty_only_product_and_location_is P A dest dest'). }
    exists (Some b), (l1 ++ src :: l2), (n1 ++ dest' :: n2). simpl.
    split_and!; try done.
    + by eapply quantityAt_of_filter.
    + eapply quantityAt_of_filter; [done..| |done]. by rewrite <- HfB1.
    + eapply quantityAt_of_filter; [done|done|done| |].
      * rewrite filterM_middle_false by done.
        rewrite <- (filterM_middle_false _ n1 n2 dest) by done.
        rewrite <- Hsplit. exact HfA1.
      * unfold src'. by rewrite lookup_insert_eq.
    + eapply quantityAt_of_filter; [done|done|done| |].
      * rewrite filterM_middle_true by done.
        by rewrite (filterM_all_false _ _ Hn1), Hn2.
      * unfold dest'. by rewrite lookup_insert_eq.
    + rewrite !length_app. simpl.
      assert (length rows1 = length (l1 ++ src :: l2)) as Hlen.
      { unfold rows1. by rewrite !length_app. }
      rewrite Hsplit, !length_app in Hlen. simpl in Hlen. lia.
    + erewrite !get_total_rows by done.
      unfold dest'. rewrite (total_replace P n1 n2 dest b (b + q));
        [|by eapply pair_is_product_is|done].
      rewrite <- Hsplit, Htot1, rmap_rmap. apply rmap_id. intros t. simpl. lia.
  - (* no destination row: created *)
    assert (dlocs = []) as ->.
    { destruct Hnone as [Hn|(dest & Hdh & Hfalsy)]; [by destruct dlocs|].
      destruct dlocs as [|d ys]; [done|]. injection Hdh as ->.
      destruct (filterM_head_split _ _ _ _ Hdlocs) as (? & ? & _ & _ & Hd & _).
      apply pair_is_true_inv in Hd as [Hd _].
      by rewrite (lookup_Some_truthy _ _ _ Hd) in Hfalsy. }
    rewrite (add_inventory_location_run _ _ _ _ Hrows1) in Hadd.
    injection Hadd as <- _. simpl.
    destruct (new_row_facts env (clock s) P B q) as (HnP & HnB & Hnq).
    set (new := <["created_at" := _]> _) in *.
    assert (product_and_location_is P B new = Ok true) as HnewB.
    { by apply pair_is_true_intro. }
    assert (product_and_location_is P A new = Ok false) as HnewA.
    { by apply (pair_is_other_location P B A). }
    exists None, (l1 ++ src :: l2), (rows1 ++ [new]). simpl.
    split_and!; try done.
    + by eapply quantityAt_of_filter.
    + eapply quantityAt_of_filter_nil; [done..|]. by rewrite <- HfB1.
    + eapply quantityAt_of_filter; [done|done|done| |].
      * rewrite filterM_app, HfA1. simpl. rewrite HnewA. simpl.
        by rewrite app_nil_r.
      * unfold src'. by rewrite lookup_insert_eq.
    + eapply quantityAt_of_filter; [done|done|done| |done].
      rewrite filterM_app, Hdlocs. simpl. by rewrite HnewB.
    + unfold rows1. rewrite !length_app. simpl. lia.
    + erewrite !get_total_rows by done.
      rewrite (total_append P rows1 new q);
        [|by eapply pair_is_product_is|done].
      rewrite Htot1, rmap_rmap. apply rmap_id. intros t. simpl. lia.
Qed.

(** When source and destination are the same location, the row is
    written twice and ends where it started: the location rows of the
    store are unchanged. *)
Lemma transfer_same_location env s s' P A q reason msg :
  truthy P = true → truthy A = true → unique_ids s →
  transfer_inventory env P A A q reason s = (s', Ok (true, msg)) →
  inventory_locations s' = inventory_locations s.
Proof.
  intros HP HA Huniq Hrun.
  destruct (transfer_success_inv _ _ _ _ _ _ _ _ _ Hrun)
    as (locs & src & sid & a & s1 & s2 & b1 & u & Hlocs & Hhead & Hsid & Hsq
        & Hle & Hupd & Hdest & Hlog & _).
  destruct (get_inventory_locations_Some _ _ _ _ Hlocs) as [rows Hrows].
  pose proof (Huniq _ Hrows) as Hnd.
  rewrite (get_inventory_locations_pair _ _ _ _ HP HA Hrows) in Hlocs.
  destruct locs as [|src' xs]; [done|]. injection Hhead as ->.
  destruct (update_first_match s _ _ _ _ _ (VInt (a - q)) Hrows Hnd Hlocs Hsid)
    as (l1 & l2 & [(-> & Hl1 & Hsrc & Hl2 & Hupd')|[e He]]);
    [|by rewrite He in Hupd].
  rewrite Hupd' in Hupd. injection Hupd as <- <-.
  set (src' := <["quantity" := VInt (a - q)]> src) in *.
  set (rows1 := l1 ++ src' :: l2) in *.
  assert (product_and_location_is P A src' = Ok true) as Hsrc'.
  { by rewrite (qty_only_product_and_location_is P A src src'
                  (qty_only_insert src _)). }
  assert (filterM (product_and_location_is P A) rows1 = Ok (src' :: xs))
    as HfA1.
  { unfold rows1. rewrite filterM_middle_true by done.
    by rewrite (filterM_all_false _ _ Hl1), Hl2. }
  assert (NoDup (row_ids rows1)) as Hnd1.
  { unfold rows1, src'. by rewrite row_ids_replace. }
  set (st1 := mkDB (inventory s) (Some rows1) (audit_log s) (clock s)) in *.
  assert (inventory_locations st1 = Some rows1) as Hrows1 by done.
  rewrite log_audit_run in Hlog. injection Hlog as <-. simpl.
  destruct (destination_inv _ _ _ _ _ _ _ Hdest) as (dlocs & Hdlocs & Hcase).
  rewrite (get_inventory_locations_pair _ _ _ _ HP HA Hrows1), HfA1 in Hdlocs.
  injection Hdlocs as <-.
  destruct Hcase as [(dest & did & b & b2 & [= <-] & _ & Hdid & Hdq & Hdu)
                    |[[?|(dest & [= <-] & Hfalsy)] _]]; [|done|].
  - unfold src' in Hdq. rewrite lookup_insert_eq in Hdq. injection Hdq as <-.
    destruct (update_first_match st1 _ _ _ _ _ (VInt (a - q + q))
                Hrows1 Hnd1 HfA1 Hdid)
      as (n1 & n2 & [(Hsplit & _ & _ & _ & Hdu')|[e He]]);
      [|by rewrite He in Hdu].
    rewrite Hdu' in Hdu. injection Hdu as <- _. simpl.
    destruct (unique_split_eq _ _ _ _ _ _ Hnd1 Hsplit eq_refl) as (<- & _ & <-).
    rewrite Hrows. do 3 f_equal. unfold src'. rewrite insert_insert_eq.
    replace (a - q + q) with a by lia. by apply insert_id.
  - assert (is_Some (src' !! "quantity")) as [v Hv].
    { unfold src'. rewrite lookup_insert_eq. eauto. }
    by rewrite (lookup_Some_truthy _ _ _ Hv) in Hfalsy.
Qed.

Lemma transfer_conservation_witness :
  let s' := fst (transfer_inventory Demo.env (VStr "X") (VStr "A") (VStr "B") 4
                                    "restock" Demo.db1) in
  ∃ a ob rows rows',
    quantityAt Demo.db1 (VStr "X") (VStr "A") = Ok (Some a) ∧ 4 ≤ a ∧
    quantityAt Demo.db1 (VStr "X") (VStr "B") = Ok ob ∧
    quantityAt s' (VStr "X") (VStr "A") = Ok (Some (a - 4)) ∧
    quantityAt s' (VStr "X") (VStr "B") = Ok (Some (default 0 ob + 4)) ∧
    inventory_locations Demo.db1 = Some rows ∧
    inventory_locations s' = Some rows' ∧
    length rows' =
      (length rows + match ob with Some _ => 0 | None => 1 end)%nat ∧
    get_total_inventory_by_product s' (VStr "X") =
      get_total_inventory_by_product Demo.db1 (VStr "X") ∧
    inventory s' = inventory Demo.db1 ∧
    ∀ X, product_quantity s' X = product_quantity Demo.db1 X.
Proof.
  intros s'.
  apply (transfer_conservation Demo.env Demo.db1 s' (VStr "X") (VStr "A")
           (VStr "B") 4 "restock" (Msg "Inventory transferred successfully"));
    [reflexivity | reflexivity | reflexivity | discriminate | |
     vm_compute; reflexivity].
  intros rows [= <-]. apply (bool_decide_unpack _). vm_compute. exact I.
Defined.

(** ** What a write can do to the location rows *)

Lemma first_where_head_id key rows i (x : record) :
  first_where (id_is key) rows = Ok (Some (i, x)) →
  ∀ y, head rows = Some y → is_Some (y !! "id").
Proof.
  intros (l1 & l2 & -> & _ & Hx & Hl1)%first_where_split y Hy.
  destruct l1 as [|z l1]; simpl in Hy; injection Hy as ->.
  - apply id_is_true_lookup in Hx. eauto.
  - apply Forall_cons in Hl1 as [Hz _]. unfold id_is, subscript in Hz.
    destruct (y !! "id"); [eauto|done].
Qed.

Lemma update_inventory_location_cases lid v s s' r :
  update_inventory_location lid {["quantity" := v]} s = (s', r) →
  (s' = s ∧ r ≠ Ok true) ∨
  ∃ rows i (x : record),
    inventory_locations s = Some rows ∧ rows !! i = Some x ∧
    (∀ y, head rows = Some y → is_Some (y !! "id")) ∧ r = Ok true ∧
    s' = mkDB (inventory s) (Some (<[i := <["quantity" := v]> x]> rows))
              (audit_log s) (clock s).
Proof.
  rewrite update_inventory_location_run.
  destruct (inventory_locations s) as [rows|] eqn:Hrows;
    [|intros [= <- <-]; by left].
  destruct (first_where (id_is lid) rows) as [[[i x]|]|e] eqn:Hfw;
    intros [= <- <-]; [|by left..].
  right. exists rows, i, x. rewrite dict_update_quantity.
  split_and!; try done.
  - destruct (first_where_split _ _ _ _ Hfw) as (l1 & l2 & -> & <- & _).
    by rewrite list_lookup_middle.
  - by eapply first_where_head_id.
Qed.

Lemma pair_keys_insert_qty (rows : list record) (i : nat) (x : record) v :
  rows !! i = Some x →
  pair_key <$> <[i := <["quantity" := v]> x]> rows = pair_key <$> rows.
Proof.
  intros Hi. apply Forall2_qty_only_pair_keys.
  by apply Forall2_qty_only_insert.
Qed.

Lemma update_inventory_location_unique_pairs lid v s s' r :
  update_inventory_location lid {["quantity" := v]} s = (s', r) →
  unique_pairs s → unique_pairs s'.
Proof.
  intros [[-> _]|(rows & i & x & Hrows & Hi & _ & _ & ->)]
    %update_inventory_location_cases Hu; [done|].
  intros rows' [= <-]. rewrite pair_keys_insert_qty by done. by apply Hu.
Qed.

(** An empty answer of [get_inventory_locations] means no row carries
    the pair asked for. *)
Lemma get_inventory_locations_nil_keys s P B rows :
  inventory_locations s = Some rows →
  get_inventory_locations s P B = Ok [] →
  (Some P, Some B) ∉ pair_key <$> rows.
Proof.
  intros Hrows. unfold get_inventory_locations, locations_rows.
  rewrite Hrows. simpl. intros Hnil Hin.
  apply list_elem_of_fmap in Hin as (y & Hy & Hin). unfold pair_key in Hy.
  injection Hy as HyP HyB. symmetry in HyP, HyB.
  destruct (truthy P), (truthy B); simpl in Hnil.
  - apply filterM_nil_inv in Hnil.
    rewrite Forall_forall in Hnil. specialize (Hnil _ Hin).
    by rewrite pair_is_true_intro in Hnil.
  - apply filterM_nil_inv in Hnil.
    rewrite Forall_forall in Hnil. specialize (Hnil _ Hin).
    unfold product_is, subscript, py_eq in Hnil. rewrite HyP in Hnil.
    simpl in Hnil. by rewrite bool_decide_eq_true_2 in Hnil.
  - apply filterM_nil_inv in Hnil.
    rewrite Forall_forall in Hnil. specialize (Hnil _ Hin).
    unfold location_is, subscript, py_eq in Hnil. rewrite HyB in Hnil.
    simpl in Hnil. by rewrite bool_decide_eq_true_2 in Hnil.
  - injection Hnil as ->. by apply elem_of_nil in Hin.
Qed.

(** The first row of an answer is a non-empty dict, provided the first
    row of the collection is. *)
Lemma get_inventory_locations_head_truthy s P B rows d ds :
  inventory_locations s = Some rows →
  (∀ y, head rows = Some y → is_Some (y !! "id")) →
  get_inventory_locations s P B = Ok (d :: ds) →
  dict_truthy d = true.
Proof.
  intros Hrows Hhead. unfold get_inventory_locations, locations_rows.
  rewrite Hrows. simpl.
  destruct (truthy P), (truthy B); simpl; intros Hf.
  - destruct (filterM_head_split _ _ _ _ Hf) as (? & ? & _ & _ & Hd & _).
    apply pair_is_true_inv in Hd as [Hd _]. by eapply lookup_Some_truthy.
  - destruct (filterM_head_split _ _ _ _ Hf) as (? & ? & _ & _ & Hd & _).
    unfold product_is, subscript in Hd.
    destruct (d !! "product_id") eqn:E; [|done]. by eapply lookup_Some_truthy.
  - destruct (filterM_head_split _ _ _ _ Hf) as (? & ? & _ & _ & Hd & _).
    unfold location_is, subscript in Hd.
    destruct (d !! "location_id") eqn:E; [|done]. by eapply lookup_Some_truthy.
  - injection Hf as ->. destruct (Hhead d eq_refl) as [v Hv].
    by eapply lookup_Some_truthy.
Qed.

Lemma get_inventory_locations_elem s P A rows locs x :
  inventory_locations s = Some rows →
  get_inventory_locations s P A = Ok locs → x ∈ locs → x ∈ rows.
Proof.
  intros Hrows. unfold get_inventory_locations, locations_rows.
  rewrite Hrows. simpl.
  destruct (truthy P), (truthy A); simpl; intros Hf Hx;
    try (by destruct (filterM_elem _ _ _ _ Hf Hx)).
  by injection Hf as ->.
Qed.

(** Every way the destination step can end. *)
Lemma destination_cases env s1 s2 P B q r rows1 :
  inventory_locations s1 = Some rows1 →
  (∀ y, head rows1 = Some y → is_Some (y !! "id")) →
  update_or_create_destination env P B q s1 = (s2, r) →
  s2 = s1 ∨
  (∃ i (x : record) v,
     rows1 !! i = Some x ∧ r = Ok tt ∧
     s2 = mkDB (inventory s1) (Some (<[i := <["quantity" := v]> x]> rows1))
               (audit_log s1) (clock s1)) ∨
  (get_inventory_locations s1 P B = Ok [] ∧ r = Ok tt ∧
   s2 = mkDB (inventory s1)
          (Some (rows1 ++
                 [<["created_at" := VStr (now_isoformat env (S (clock s1)))]>
                    (<["id" := VStr (uuid4 env (clock s1))]>
                       (new_location_row P B q))]))
          (audit_log s1) (S (S (clock s1)))).
Proof.
  intros Hrows Hhead.
  unfold update_or_create_destination, bind at 1, read.
  destruct (get_inventory_locations s1 P B) as [dlocs|] eqn:Hd;
    [|intros [= <- <-]; by left].
  destruct dlocs as [|dest ds]; simpl.
  - unfold bind. rewrite (add_inventory_location_run _ _ _ _ Hrows).
    intros [= <- <-]. right; right. done.
  - rewrite (get_inventory_locations_head_truthy _ _ _ _ _ _ Hrows Hhead Hd).
    unfold bind at 1, lift, subscript.
    destruct (dest !! "id") as [did|]; [|intros [= <- <-]; by left].
    unfold bind at 1.
    destruct (dest !! "quantity") as [dq|]; [|intros [= <- <-]; by left].
    unfold bind at 1.
    destruct (py_add dq q) as [n|]; [|intros [= <- <-]; by left].
    unfold bind at 1.
    destruct (update_inventory_location did _ s1) as [s2' r'] eqn:Hu.
    destruct (update_inventory_location_cases _ _ _ _ _ Hu)
      as [[-> _]|(rows & i & x & Hrows' & Hi & _ & -> & ->)].
    + destruct r'; intros [= <- <-]; by left.
    + intros [= <- <-]. right; left. exists i, x, (VInt n).
      rewrite Hrows in Hrows'. by injection Hrows' as <-.
Qed.

(** Every way a transfer can end: nothing written; or the source row
    rewritten and then the destination step, followed by the audit
    entry exactly when that step did not raise. *)
Lemma transfer_cases env s s' P A B q reason r :
  transfer_inventory env P A B q reason s = (s', r) →
  ∃ b msg, r = Ok (b, msg) ∧
    ((s' = s ∧ b = false) ∨
     ∃ rows i (x : record) v s2 rr,
       inventory_locations s = Some rows ∧ rows !! i = Some x ∧
       (∀ y, head rows = Some y → is_Some (y !! "id")) ∧
       update_or_create_destination env P B q
         (mkDB (inventory s) (Some (<[i := <["quantity" := v]> x]> rows))
               (audit_log s) (clock s)) = (s2, rr) ∧
       ((∃ e, rr = Raise e ∧ s' = s2 ∧ b = false) ∨
        (∃ u, rr = Ok u ∧ b = true ∧
              msg = Msg "Inventory transferred successfully" ∧
              log_audit env (session_user_id env) "inventory_transfer"
                ("Transferred " +:+ pretty q +:+ " units of " +:+ py_str P
                 +:+ " from " +:+ py_str A +:+ " to " +:+ py_str B
                 +:+ ". Reason: " +:+ reason) s2 =
              (s', Ok (Some (uuid4 env (clock s2))))))).
Proof.
  unfold transfer_inventory, try_except, transfer_body, bind at 1, read.
  destruct (get_inventory_locations s P A) as [locs|] eqn:Hl;
    [|intros [= <- <-]; eauto 10].
  unfold bind at 1, lift, source_insufficient.
  destruct (head locs) as [src|] eqn:Hhead; [|intros [= <- <-]; eauto 10].
  destruct (dict_truthy src); [|intros [= <- <-]; eauto 10].
  unfold subscript at 1.
  destruct (src !! "quantity") as [sq|] eqn:Hq; simpl;
    [|intros [= <- <-]; eauto 10].
  destruct (py_lt sq q) as [[]|]; simpl; try (intros [= <- <-]; eauto 10).
  unfold bind at 1, subscript. destruct (src !! "id") as [sid|] eqn:Hid;
    [|intros [= <- <-]; eauto 10].
  unfold bind at 1. rewrite Hq. unfold bind at 1.
  destruct (py_sub sq q) as [n|]; [|intros [= <- <-]; eauto 10].
  unfold bind at 1.
  destruct (update_inventory_location sid _ s) as [s1 r1] eqn:Hu.
  destruct (update_inventory_location_cases _ _ _ _ _ Hu)
    as [[-> Hr1]|(rows & i & x & Hrows & Hi & Hh & -> & ->)].
  - destruct r1 as [[]|]; [done| |intros [= <- <-]; eauto 10].
    (* the scan cannot miss the source row *)
    exfalso. rewrite update_inventory_location_run in Hu.
    destruct (inventory_locations s) as [rows|] eqn:Hrows; [|done].
    destruct (first_where (id_is sid) rows) as [[[]|]|] eqn:Hfw; try done.
    apply first_where_none in Hfw. rewrite Forall_forall in Hfw.
    assert (src ∈ rows) as Hin.
    { eapply get_inventory_locations_elem; [done..|].
      destruct locs; [done|]. injection Hhead as ->. left. }
    specialize (Hfw _ Hin). unfold id_is, subscript, py_eq in Hfw.
    rewrite Hid in Hfw. simpl in Hfw. by rewrite bool_decide_eq_true_2 in Hfw.
  - unfold bind at 1.
    destruct (update_or_create_destination env P B q _) as [s2 [u|e]] eqn:Hd.
    + unfold bind at 1. rewrite log_audit_run. unfold ret. intros [= <- <-].
      do 2 eexists. split; [done|]. right.
      exists rows, i, x, (VInt n), s2, (Ok u). split_and!; try done.
      right. exists u. by rewrite log_audit_run.
    + intros [= <- <-]. do 2 eexists. split; [done|]. right.
      exists rows, i, x, (VInt n), s2, (Raise e). split_and!; try done.
      left. eauto.
Qed.

(** ** The form handlers, unfolded *)

Lemma first_where_insert_qty key (inv : list record) i (prod : record) v :
  first_where (id_is key) inv = Ok (Some (i, prod)) →
  inv !! i = Some prod ∧ prod !! "id" = Some key ∧
  first_where (id_is key) (<[i := <["quantity" := v]> prod]> inv) =
  Ok (Some (i, <["quantity" := v]> prod)).
Proof.
  intros (l1 & l2 & -> & <- & Hp & Hl1)%first_where_split.
  split_and!.
  - by rewrite list_lookup_middle.
  - by apply id_is_true_lookup.
  - rewrite list_insert_middle. apply first_where_found; [done|].
    by rewrite (qty_only_id_is key prod _ (qty_only_insert prod v)).
Qed.

Lemma receive_stock_run env P q s :
  receive_stock env P q s =
  match first_where (id_is P) (inventory s) with
  | Raise e => (s, Raise e)
  | Ok None => (s, Raise (TypeError "subscript"))
  | Ok (Some (i, prod)) =>
      match prod !! "quantity" with
      | None => (s, Raise (KeyError "quantity"))
      | Some (VInt c) =>
          let inv' := <[i := <["quantity" := VInt (c + q)]> prod]>
                        (inventory s) in
          match prod !! "name" with
          | None =>
              (mkDB inv' (inventory_locations s) (audit_log s) (clock s),
               Raise (KeyError "name"))
          | Some name =>
              (mkDB inv' (inventory_locations s)
                 (audit_log s ++
                  [log_entry (uuid4 env (clock s)) (session_user_id env)
                     "stock_received"
                     ("Received " +:+ pretty q +:+ " units of "
                      +:+ py_str name +:+ ". New stock: " +:+ pretty (c + q))
                     (now_isoformat env (S (clock s)))])
                 (S (S (clock s))),
               Ok (st_success ("Stock updated! New quantity: "
                               +:+ pretty (c + q))))
          end
      | Some _ => (s, Raise (TypeError "+"))
      end
  end.
Proof.
  unfold receive_stock, bind at 1, read, get_inventory_item.
  destruct (first_where (id_is P) (inventory s)) as [[[i prod]|]|] eqn:Hfw;
    simpl; try done.
  unfold bind at 1, lift, subscript.
  destruct (prod !! "quantity") as [[|c|]|] eqn:Hq; simpl; try done.
  unfold bind at 1. simpl. unfold bind at 1.
  rewrite update_inventory_item_run, Hfw, dict_update_quantity.
  unfold bind at 1. destruct (prod !! "name") as [name|]; [|done].
  unfold bind. by rewrite log_audit_run.
Qed.

Lemma adjust_stock_run env P d reason s :
  adjust_stock env P d reason s =
  match first_where (id_is P) (inventory s) with
  | Raise e => (s, Raise e)
  | Ok None => (s, Raise (TypeError "subscript"))
  | Ok (Some (i, prod)) =>
      match prod !! "quantity" with
      | None => (s, Raise (KeyError "quantity"))
      | Some (VInt c) =>
          if c + d <? 0 then (s, Ok (st_error "Cannot have negative stock"))
          else
            let inv' := <[i := <["quantity" := VInt (c + d)]> prod]>
                          (inventory s) in
            match prod !! "name" with
            | None =>
                (mkDB inv' (inventory_locations s) (audit_log s) (clock s),
                 Raise (KeyError "name"))
            | Some name =>
                (mkDB inv' (inventory_locations s)
                   (audit_log s ++
                    [log_entry (uuid4 env (clock s)) (session_user_id env)
                       "stock_adjusted"
                       ("Adjusted " +:+ py_str name +:+ " by " +:+ pretty d
                        +:+ ". Reason: " +:+ reason +:+ ". New stock: "
                        +:+ pretty (c + d))
                       (now_isoformat env (S (clock s)))])
                   (S (S (clock s))),
                 Ok (st_success ("Stock adjusted! New quantity: "
                                 +:+ pretty (c + d))))
            end
      | Some _ => (s, Raise (TypeError "+"))
      end
  end.
Proof.
  unfold adjust_stock, bind at 1, read, get_inventory_item.
  destruct (first_where (id_is P) (inventory s)) as [[[i prod]|]|] eqn:Hfw;
    simpl; try done.
  unfold bind at 1, lift, subscript.
  destruct (prod !! "quantity") as [[|c|]|] eqn:Hq; simpl; try done.
  unfold bind at 1. simpl. destruct (c + d <? 0); [done|].
  unfold bind at 1.
  rewrite update_inventory_item_run, Hfw, dict_update_quantity.
  unfold bind at 1. destruct (prod !! "name") as [name|]; [|done].
  unfold bind. by rewrite log_audit_run.
Qed.

Lemma invoice_deduct_run P q s :
  invoice_deduct P q s =
  match first_where (id_is P) (inventory s) with
  | Raise e => (s, Raise e)
  | Ok None => (s, Ok tt)
  | Ok (Some (i, prod)) =>
      match prod !! "quantity" with
      | None => (s, Raise (KeyError "quantity"))
      | Some (VInt c) =>
          (mkDB (<[i := <["quantity" := VInt (Z.max 0 (c - q))]> prod]>
                   (inventory s))
                (inventory_locations s) (audit_log s) (clock s), Ok tt)
      | Some _ => (s, Raise (TypeError "-"))
      end
  end.
Proof.
  unfold invoice_deduct, bind at 1, read, get_inventory_item.
  destruct (first_where (id_is P) (inventory s)) as [[[i prod]|]|] eqn:Hfw;
    simpl; try done.
  rewrite (first_where_id_truthy _ _ _ _ Hfw).
  unfold bind at 1, lift, subscript.
  destruct (prod !! "quantity") as [[|c|]|] eqn:Hq; simpl; try done.
  unfold bind at 1. simpl. unfold bind.
  by rewrite update_inventory_item_run, Hfw, dict_update_quantity.
Qed.

Lemma deduct_stock_run env (product : record) q reason s :
  deduct_stock env product q reason s =
  match product !! "quantity" with
  | None => (s, Raise (KeyError "quantity"))
  | Some (VInt c) =>
      let new_qty := if c - q <? 0 then 0 else c - q in
      match product !! "id" with
      | None => (s, Raise (KeyError "id"))
      | Some pid =>
          match first_where (id_is pid) (inventory s) with
          | Raise e => (s, Raise e)
          | Ok found =>
              let inv' :=
                match found with
                | Some (i, prod) =>
                    <[i := <["quantity" := VInt new_qty]> prod]> (inventory s)
                | None => inventory s
                end in
              match product !! "name" with
              | None =>
                  (mkDB inv' (inventory_locations s) (audit_log s) (clock s),
                   Raise (KeyError "name"))
              | Some name =>
                  (mkDB inv' (inventory_locations s)
                     (audit_log s ++
                      [log_entry (uuid4 env (clock s)) (session_user_id env)
                         "stock_deducted"
                         ("Deducted " +:+ pretty q +:+ " of " +:+ py_str name
                          +:+ ". Reason: " +:+ reason)
                         (now_isoformat env (S (clock s)))])
                     (S (S (clock s))),
                   Ok (st_success ("Stock updated! New quantity: "
                                   +:+ pretty new_qty)))
              end
          end
      end
  | Some _ => (s, Raise (TypeError "-"))
  end.
Proof.
  unfold deduct_stock, bind at 1, lift, subscript.
  destruct (product !! "quantity") as [[|c|]|] eqn:Hq; simpl; try done.
  unfold bind at 1. simpl. unfold bind at 1.
  destruct (product !! "id") as [pid|]; [|done].
  unfold bind at 1. rewrite update_inventory_item_run.
  destruct (first_where (id_is pid) (inventory s)) as [[[i prod]|]|] eqn:Hfw;
    try done.
  - rewrite dict_update_quantity. unfold bind at 1.
    destruct (product !! "name") as [name|]; [|by destruct s].
    unfold bind. by rewrite log_audit_run.
  - unfold bind at 1.
    destruct (product !! "name") as [name|]; [|by destruct s].
    unfold bind. by rewrite log_audit_run.
Qed.

(** ** Frames of the aggregate writes *)

Lemma only_quantity_of_refl P inv : only_quantity_of P inv inv.
Proof. split; [done|]. intros j prod Hj. exists prod. by repeat split. Qed.

Lemma only_quantity_of_insert P (inv : list record) i (prod : record) v :
  inv !! i = Some prod → prod !! "id" = Some P →
  only_quantity_of P inv (<[i := <["quantity" := v]> prod]> inv).
Proof.
  intros Hi Hid. split; [by rewrite length_insert|].
  intros j prod' Hj. destruct (decide (i = j)) as [->|Hne].
  - rewrite Hi in Hj. injection Hj as <-.
    exists (<["quantity" := v]> prod). split_and!.
    + apply list_lookup_insert_eq. by eapply lookup_lt_Some.
    + intros k Hk. by rewrite lookup_insert_ne.
    + done.
  - exists prod'. rewrite list_lookup_insert_ne by done. by repeat split.
Qed.

Lemma receive_stock_locations env P q s :
  inventory_locations (fst (receive_stock env P q s)) = inventory_locations s.
Proof. rewrite receive_stock_run. by repeat case_match. Qed.

Lemma adjust_stock_locations env P d reason s :
  inventory_locations (fst (adjust_stock env P d reason s)) =
  inventory_locations s.
Proof. rewrite adjust_stock_run. by repeat case_match. Qed.

Lemma invoice_deduct_locations P q s :
  inventory_locations (fst (invoice_deduct P q s)) = inventory_locations s.
Proof. rewrite invoice_deduct_run. by repeat case_match. Qed.

Lemma deduct_stock_locations env product q reason s :
  inventory_locations (fst (deduct_stock env product q reason s)) =
  inventory_locations s.
Proof. rewrite deduct_stock_run. by repeat case_match. Qed.

Lemma receive_stock_inventory env P q s :
  only_quantity_of P (inventory s) (inventory (fst (receive_stock env P q s))).
Proof.
  rewrite receive_stock_run.
  destruct (first_where (id_is P) (inventory s)) as [[[i prod]|]|] eqn:Hfw;
    simpl; try apply only_quantity_of_refl.
  destruct (first_where_insert_qty _ _ _ _ VNone Hfw) as (Hi & Hid & _).
  repeat case_match; simpl;
    auto using only_quantity_of_refl, only_quantity_of_insert.
Qed.

Lemma invoice_deduct_inventory P q s :
  only_quantity_of P (inventory s) (inventory (fst (invoice_deduct P q s))).
Proof.
  rewrite invoice_deduct_run.
  destruct (first_where (id_is P) (inventory s)) as [[[i prod]|]|] eqn:Hfw;
    simpl; try apply only_quantity_of_refl.
  destruct (first_where_insert_qty _ _ _ _ VNone Hfw) as (Hi & Hid & _).
  repeat case_match; simpl;
    auto using only_quantity_of_refl, only_quantity_of_insert.
Qed.

(** C10. Receiving stock and the invoice's stock deduction, however
    they end, leave every location row as it was and change the
    inventory collection at most in the ['quantity'] field of the
    record of product [P]: the collection keeps its length, every
    other record is identical, and every other field of every record
    is identical. *)
Theorem receive_deduct_frame env s P q :
  (inventory_locations (fst (receive_stock env P q s)) = inventory_locations s ∧
   only_quantity_of P (inventory s)
                    (inventory (fst (receive_stock env P q s)))) ∧
  (inventory_locations (fst (invoice_deduct P q s)) = inventory_locations s ∧
   only_quantity_of P (inventory s) (inventory (fst (invoice_deduct P q s)))).
Proof.
  split_and!;
    auto using receive_stock_locations, receive_stock_inventory,
               invoice_deduct_locations, invoice_deduct_inventory.
Qed.

(** The same frame for the "Deduct Stock" button of a product card. *)
Lemma deduct_stock_frame env (product : record) P q reason s :
  product !! "id" = Some P →
  inventory_locations (fst (deduct_stock env product q reason s)) =
  inventory_locations s ∧
  only_quantity_of P (inventory s)
                   (inventory (fst (deduct_stock env product q reason s))).
Proof.
  intros Hid. split; [apply deduct_stock_locations|].
  rewrite deduct_stock_run, Hid.
  destruct (first_where (id_is P) (inventory s)) as [[[i prod]|]|] eqn:Hfw;
    simpl.
  - destruct (first_where_insert_qty _ _ _ _ VNone Hfw) as (Hi & Hid' & _).
    repeat case_match; simpl;
      auto using only_quantity_of_refl, only_quantity_of_insert.
  - repeat case_match; simpl; auto using only_quantity_of_refl.
  - repeat case_match; simpl; auto using only_quantity_of_refl.
Qed.

(** ** What the sums depend on *)

Lemma get_total_locations s s' P :
  inventory_locations s' = inventory_locations s →
  get_total_inventory_by_product s' P = get_total_inventory_by_product s P.
Proof.
  intros H.
  unfold get_total_inventory_by_product, get_inventory_locations,
    locations_rows.
  by rewrite H.
Qed.

Lemma product_quantity_found s P i (prod : record) :
  first_where (id_is P) (inventory s) = Ok (Some (i, prod)) →
  product_quantity s P = subscript prod "quantity".
Proof.
  intros H. unfold product_quantity, get_inventory_item. by rewrite H.
Qed.

(** ** Receiving *)

(** C3, as the code has it.  A receive that completes adds exactly [q]
    to the product's aggregate quantity; it writes no location row, so
    the sum over the product's location rows stays what it was. *)
Theorem receive_increases_aggregate env s s' P q out :
  receive_stock env P q s = (s', Ok out) →
  ∃ c, product_quantity s P = Ok (VInt c) ∧
       product_quantity s' P = Ok (VInt (c + q)) ∧
       inventory_locations s' = inventory_locations s ∧
       get_total_inventory_by_product s' P =
       get_total_inventory_by_product s P.
Proof.
  intros Hrun.
  assert (inventory_locations s' = inventory_locations s) as Hloc.
  { by rewrite <- (receive_stock_locations env P q s), Hrun. }
  rewrite receive_stock_run in Hrun.
  destruct (first_where (id_is P) (inventory s)) as [[[i prod]|]|] eqn:Hfw;
    try done.
  destruct (prod !! "quantity") as [[|c|]|] eqn:Hq; try done.
  destruct (first_where_insert_qty _ _ _ _ (VInt (c + q)) Hfw)
    as (_ & _ & Hfw').
  destruct (prod !! "name"); [|done]. injection Hrun as <- _.
  exists c. split_and!.
  - rewrite (product_quantity_found _ _ _ _ Hfw). unfold subscript.
    by rewrite Hq.
  - unfold product_quantity, get_inventory_item. simpl. rewrite Hfw'. simpl.
    unfold subscript. by rewrite lookup_insert_eq.
  - done.
  - by apply get_total_locations.
Qed.

Lemma receive_increases_aggregate_witness :
  ∃ c, product_quantity Demo.db0 (VStr "X") = Ok (VInt c) ∧
       product_quantity (fst (receive_stock Demo.env (VStr "X") 4 Demo.db0))
                        (VStr "X") = Ok (VInt (c + 4)) ∧
       inventory_locations (fst (receive_stock Demo.env (VStr "X") 4 Demo.db0))
       = inventory_locations Demo.db0 ∧
       get_total_inventory_by_product
         (fst (receive_stock Demo.env (VStr "X") 4 Demo.db0)) (VStr "X") =
       get_total_inventory_by_product Demo.db0 (VStr "X").
Proof.
  apply (receive_increases_aggregate Demo.env Demo.db0 _ (VStr "X") 4
           (st_success "Stock updated! New quantity: 14")).
  vm_compute. reflexivity.
Defined.

(** C3 as stated fails: product X has 10 units in its location rows;
    receiving 4 units completes, and the sum over its location rows is
    still 10, not 14. *)
Lemma receive_total_counterexample :
  snd (receive_stock Demo.env (VStr "X") 4 Demo.db0) =
    Ok (st_success "Stock updated! New quantity: 14") ∧
  get_total_inventory_by_product Demo.db0 (VStr "X") = Ok 10 ∧
  get_total_inventory_by_product
    (fst (receive_stock Demo.env (VStr "X") 4 Demo.db0)) (VStr "X") = Ok 10 ∧
  get_total_inventory_by_product
    (fst (receive_stock Demo.env (VStr "X") 4 Demo.db0)) (VStr "X")
  ≠ Ok (10 + 4).
Proof. vm_compute. by repeat split. Qed.

(** ** Deducting on an invoice *)

(** C2, as the code has it.  The invoice's deduction of [q > 0] units
    from a product holding [c] never fails and leaves [max 0 (c - q)],
    which is never negative and is [0] when [q > c]; it writes no
    location row, so the sum over the product's location rows stays
    what it was. *)
Theorem invoice_deduct_clamps s P q c :
  product_quantity s P = Ok (VInt c) → 0 < q →
  ∃ s', invoice_deduct P q s = (s', Ok tt) ∧
        product_quantity s' P = Ok (VInt (Z.max 0 (c - q))) ∧
        0 ≤ Z.max 0 (c - q) ∧
        (c < q → product_quantity s' P = Ok (VInt 0)) ∧
        inventory_locations s' = inventory_locations s ∧
        get_total_inventory_by_product s' P =
        get_total_inventory_by_product s P.
Proof.
  intros Hq Hpos. rewrite invoice_deduct_run.
  unfold product_quantity, get_inventory_item in Hq.
  destruct (first_where (id_is P) (inventory s)) as [[[i prod]|]|] eqn:Hfw;
    try done.
  simpl in Hq. unfold subscript in Hq.
  destruct (prod !! "quantity") as [v|] eqn:Hpq; [|done].
  injection Hq as ->.
  destruct (first_where_insert_qty _ _ _ _ (VInt (Z.max 0 (c - q))) Hfw)
    as (_ & _ & Hfw').
  eexists. split; [done|].
  assert (product_quantity
            (mkDB (<[i := <["quantity" := VInt (Z.max 0 (c - q))]> prod]>
                     (inventory s))
                  (inventory_locations s) (audit_log s) (clock s)) P =
          Ok (VInt (Z.max 0 (c - q)))) as Hnew.
  { unfold product_quantity, get_inventory_item. simpl. rewrite Hfw'. simpl.
    unfold subscript. by rewrite lookup_insert_eq. }
  split_and!; try done.
  - lia.
  - intros Hlt. rewrite Hnew. do 2 f_equal. lia.
Qed.

Lemma invoice_deduct_clamps_witness :
  ∃ s', invoice_deduct (VStr "X") 11 Demo.db0 = (s', Ok tt) ∧
        product_quantity s' (VStr "X") = Ok (VInt (Z.max 0 (10 - 11))) ∧
        0 ≤ Z.max 0 (10 - 11) ∧
        (10 < 11 → product_quantity s' (VStr "X") = Ok (VInt 0)) ∧
        inventory_locations s' = inventory_locations Demo.db0 ∧
        get_total_inventory_by_product s' (VStr "X") =
        get_total_inventory_by_product Demo.db0 (VStr "X").
Proof.
  apply (invoice_deduct_clamps Demo.db0 (VStr "X") 11 10);
    [vm_compute; reflexivity | lia].
Defined.

(** C2 as stated fails: product X holds 10, all of it in its location
    rows; deducting 11 completes and clamps the aggregate to 0, and
    the sum over its location rows is still 10, not 0. *)
Lemma deduct_total_counterexample :
  snd (invoice_deduct (VStr "X") 11 Demo.db0) = Ok tt ∧
  product_quantity Demo.db0 (VStr "X") = Ok (VInt 10) ∧
  product_quantity (fst (invoice_deduct (VStr "X") 11 Demo.db0)) (VStr "X")
    = Ok (VInt 0) ∧
  get_total_inventory_by_product
    (fst (invoice_deduct (VStr "X") 11 Demo.db0)) (VStr "X") = Ok 10 ∧
  get_total_inventory_by_product
    (fst (invoice_deduct (VStr "X") 11 Demo.db0)) (VStr "X") ≠ Ok 0.
Proof. vm_compute. by repeat split. Qed.

(** ** The audit log *)

Lemma head_insert_has_id (rows : list record) i (x : record) v :
  rows !! i = Some x →
  (∀ y, head rows = Some y → is_Some (y !! "id")) →
  ∀ y, head (<[i := <["quantity" := v]> x]> rows) = Some y →
       is_Some (y !! "id").
Proof.
  intros Hi Hh y. destruct rows as [|z rows]; [done|].
  destruct i as [|i]; simpl in *.
  - injection Hi as ->. intros [= <-]. rewrite lookup_insert_ne by done.
    by apply Hh.
  - intros [= <-]. by apply Hh.
Qed.

Lemma destination_frame env s1 s2 P B q r rows1 :
  inventory_locations s1 = Some rows1 →
  (∀ y, head rows1 = Some y → is_Some (y !! "id")) →
  update_or_create_destination env P B q s1 = (s2, r) →
  inventory s2 = inventory s1 ∧ audit_log s2 = audit_log s1.
Proof.
  intros Hrows Hh Hd.
  destruct (destination_cases _ _ _ _ _ _ _ _ Hrows Hh Hd)
    as [->|[(i & x & v & _ & _ & ->)|(_ & _ & ->)]]; done.
Qed.

(** A transfer that returns [True] appends one entry, of action
    ["inventory_transfer"], naming the session user, the product and
    both locations; a transfer that returns [False] appends none. *)
Lemma transfer_inventory_audit env s s' P A B q reason b msg :
  transfer_inventory env P A B q reason s = (s', Ok (b, msg)) →
  if b then
    ∃ uid ts,
      audit_log s' = audit_log s ++
        [log_entry uid (session_user_id env) "inventory_transfer"
           ("Transferred " +:+ pretty q +:+ " units of " +:+ py_str P
            +:+ " from " +:+ py_str A +:+ " to " +:+ py_str B
            +:+ ". Reason: " +:+ reason) ts]
  else audit_log s' = audit_log s.
Proof.
  intros Hrun.
  destruct (transfer_cases _ _ _ _ _ _ _ _ _ Hrun)
    as (b' & msg' & [= <- <-] & Hcases).
  destruct Hcases as [[-> ->]|(rows & i & x & v & s2 & rr & Hrows & Hi & Hh
                              & Hd & Hend)]; [done|].
  eapply destination_frame in Hd as [_ Haud];
    [|done|by apply head_insert_has_id].
  simpl in Haud.
  destruct Hend as [(e & _ & -> & ->)|(u & _ & -> & _ & Hlog)]; [done|].
  rewrite log_audit_run in Hlog. injection Hlog as <-. simpl.
  rewrite Haud. eauto.
Qed.

(** A receive that completes appends one entry of action
    ["stock_received"]; one that raises appends none. *)
Lemma receive_stock_audit env s s' P q r :
  receive_stock env P q s = (s', r) →
  match r with
  | Ok _ =>
      ∃ uid details ts,
        audit_log s' = audit_log s ++
          [log_entry uid (session_user_id env) "stock_received" details ts]
  | Raise _ => audit_log s' = audit_log s
  end.
Proof.
  rewrite receive_stock_run. repeat case_match; intros [= <- <-]; simpl;
    eauto.
Qed.

(** An adjustment that completes appends one entry of action
    ["stock_adjusted"]; a rejected one, or one that raises, appends
    none. *)
Lemma adjust_stock_audit env s s' P d reason r :
  adjust_stock env P d reason s = (s', r) →
  match r with
  | Ok (st_success _) =>
      ∃ uid details ts,
        audit_log s' = audit_log s ++
          [log_entry uid (session_user_id env) "stock_adjusted" details ts]
  | _ => audit_log s' = audit_log s
  end.
Proof.
  rewrite adjust_stock_run. repeat case_match; intros [= <- <-]; simpl;
    simplify_eq; eauto.
Qed.

(** The "Deduct Stock" button appends one entry of action
    ["stock_deducted"] when it completes. *)
Lemma deduct_stock_audit env s s' product q reason r :
  deduct_stock env product q reason s = (s', r) →
  match r with
  | Ok _ =>
      ∃ uid details ts,
        audit_log s' = audit_log s ++
          [log_entry uid (session_user_id env) "stock_deducted" details ts]
  | Raise _ => audit_log s' = audit_log s
  end.
Proof.
  rewrite deduct_stock_run. repeat case_match; intros [= <- <-]; simpl;
    eauto.
Qed.

(** C7, where the code departs from it.  The stock deduction made when
    an invoice is created never writes to the audit log: on the store
    [Demo.db0] it completes, takes product X from 10 to 8, and leaves
    the audit log empty, whereas the "Deduct Stock" button logs the
    same mutation. *)
Theorem invoice_deduct_writes_no_audit_entry :
  (∀ s P q, audit_log (fst (invoice_deduct P q s)) = audit_log s) ∧
  snd (invoice_deduct (VStr "X") 2 Demo.db0) = Ok tt ∧
  product_quantity (fst (invoice_deduct (VStr "X") 2 Demo.db0)) (VStr "X")
    = Ok (VInt 8) ∧
  audit_log (fst (invoice_deduct (VStr "X") 2 Demo.db0)) = [] ∧
  length (audit_log (fst (deduct_stock Demo.env (Demo.product "X" "Widget" 10)
                                       2 "sale" Demo.db0))) = 1%nat.
Proof.
  split.
  - intros s P q. rewrite invoice_deduct_run. by repeat case_match.
  - vm_compute. by repeat split.
Qed.

(** ** One row per (product, location) pair *)

Lemma pair_keys_grow_same s s' :
  inventory_locations s' = inventory_locations s → pair_keys_grow s s'.
Proof.
  intros H. unfold pair_keys_grow. rewrite H.
  destruct (inventory_locations s); [by left|done].
Qed.

Lemma transfer_pair_keys_grow env s P A B q reason :
  pair_keys_grow s (fst (transfer_inventory env P A B q reason s)).
Proof.
  destruct (transfer_inventory env P A B q reason s) as [s' r] eqn:Hrun.
  simpl.
  destruct (transfer_cases _ _ _ _ _ _ _ _ _ Hrun)
    as (b & msg & -> & Hcases).
  destruct Hcases as [[-> ->]|(rows & i & x & v & s2 & rr & Hrows & Hi & Hh
                              & Hd & Hend)]; [by apply pair_keys_grow_same|].
  assert (inventory_locations s' = inventory_locations s2) as Hs'.
  { destruct Hend as [(e & _ & -> & _)|(u & _ & _ & _ & Hlog)]; [done|].
    rewrite log_audit_run in Hlog. by injection Hlog as <-. }
  unfold pair_keys_grow. rewrite Hs', Hrows.
  pose proof (pair_keys_insert_qty rows i x v Hi) as Hkeys.
  set (s1 := mkDB (inventory s) (Some (<[i := <["quantity" := v]> x]> rows))
                  (audit_log s) (clock s)) in *.
  assert (inventory_locations s1 = Some (<[i := <["quantity" := v]> x]> rows))
    as Hrows1 by done.
  destruct (destination_cases _ _ _ _ _ _ _ _ Hrows1
              (head_insert_has_id _ _ _ v Hi Hh) Hd)
    as [->|[(j & y & w & Hj & _ & ->)|(Hnil & _ & ->)]]; simpl.
  - by left.
  - left. by rewrite pair_keys_insert_qty.
  - right. exists (Some P, Some B). split.
    + rewrite <- Hkeys.
      by apply (get_inventory_locations_nil_keys _ _ _ _ Hrows1 Hnil).
    + rewrite fmap_app, Hkeys. simpl. by do 2 f_equal.
Qed.

Lemma run_write_pair_keys_grow env w s :
  pair_keys_grow s (run_write env w s).
Proof.
  destruct w; simpl.
  - apply pair_keys_grow_same, receive_stock_locations.
  - apply pair_keys_grow_same, adjust_stock_locations.
  - apply transfer_pair_keys_grow.
  - apply pair_keys_grow_same, invoice_deduct_locations.
  - apply pair_keys_grow_same, deduct_stock_locations.
Qed.

Lemma pair_keys_grow_unique_pairs s s' :
  pair_keys_grow s s' → unique_pairs s → unique_pairs s'.
Proof.
  unfold pair_keys_grow, unique_pairs. intros Hm Hu rows' Hrows'.
  rewrite Hrows' in Hm.
  destruct (inventory_locations s) as [rows|]; [|done].
  specialize (Hu rows eq_refl).
  destruct Hm as [->|(k & Hk & ->)]; [done|].
  apply NoDup_app. split_and!; [done| |apply NoDup_singleton].
  intros k' Hin ->%list_elem_of_singleton. done.
Qed.

Lemma reachable_unique_pairs env s0 s :
  unique_pairs s0 → reachable env s0 s → unique_pairs s.
Proof.
  intros H0 Hreach. induction Hreach as [|s w _ IH]; [done|].
  eapply pair_keys_grow_unique_pairs; [apply run_write_pair_keys_grow|done].
Qed.

Lemma pair_is_true_pair_key P A (r : record) :
  product_and_location_is P A r = Ok true → pair_key r = (Some P, Some A).
Proof.
  intros [HP HA]%pair_is_true_inv. unfold pair_key. by rewrite HP, HA.
Qed.

Lemma lookup_middle {A} (l1 l2 : list A) x :
  (l1 ++ x :: l2) !! length l1 = Some x.
Proof. by rewrite list_lookup_middle. Qed.

(** What a transfer that returns [True] does to the rows: the source
    row is debited, then the destination is merged or created. *)
Lemma transfer_debits_then_merges env s s' P A B q reason msg :
  truthy P = true → truthy A = true → truthy B = true → unique_ids s →
  transfer_inventory env P A B q reason s = (s', Ok (true, msg)) →
  ∃ rows rows1 rows',
    inventory_locations s = Some rows ∧
    debit P A q rows rows1 ∧
    merge_or_create P B q rows1 rows' ∧
    inventory_locations s' = Some rows'.
Proof.
  intros HP HA HB Huniq Hrun.
  destruct (transfer_success_inv _ _ _ _ _ _ _ _ _ Hrun)
    as (locs & src & sid & a & s1 & s2 & b1 & u & Hlocs & Hhead & Hsid & Hsq
        & Hle & Hupd & Hdest & Hlog & _).
  destruct (get_inventory_locations_Some _ _ _ _ Hlocs) as [rows Hrows].
  pose proof (Huniq _ Hrows) as Hnd.
  rewrite (get_inventory_locations_pair _ _ _ _ HP HA Hrows) in Hlocs.
  destruct locs as [|src' xs]; [done|]. injection Hhead as ->.
  destruct (update_first_match s _ _ _ _ _ (VInt (a - q)) Hrows Hnd Hlocs Hsid)
    as (l1 & l2 & [(-> & Hl1 & Hsrc & Hl2 & Hupd')|[e He]]);
    [|by rewrite He in Hupd].
  rewrite Hupd' in Hupd. injection Hupd as <- <-.
  set (src' := <["quantity" := VInt (a - q)]> src) in *.
  set (rows1 := l1 ++ src' :: l2) in *.
  assert (NoDup (row_ids rows1)) as Hnd1.
  { unfold rows1, src'. by rewrite row_ids_replace. }
  set (st1 := mkDB (inventory s) (Some rows1) (audit_log s) (clock s)) in *.
  assert (inventory_locations st1 = Some rows1) as Hrows1 by done.
  rewrite log_audit_run in Hlog. injection Hlog as <-.
  exists (l1 ++ src :: l2), rows1.
  assert (debit P A q (l1 ++ src :: l2) rows1) as Hdebit.
  { exists (length l1), src, a. split_and!; try done.
    - apply lookup_middle.
    - by apply pair_is_true_pair_key.
    - unfold rows1, src'. by rewrite list_insert_middle. }
  destruct (destination_inv _ _ _ _ _ _ _ Hdest) as (dlocs & Hdlocs & Hcase).
  pose proof Hdlocs as Hdlocs'.
  rewrite (get_inventory_locations_pair _ _ _ _ HP HB Hrows1) in Hdlocs.
  destruct Hcase as [(dest & did & b & b2 & Hdh & _ & Hdid & Hdq & Hdu)
                    |[Hnone (r & Hadd)]].
  - (* a row of the destination pair exists: it is credited *)
    destruct dlocs as [|dest' ys]; [done|]. injection Hdh as ->.
    destruct (update_first_match st1 _ _ _ _ _ (VInt (b + q))
                Hrows1 Hnd1 Hdlocs Hdid)
      as (n1 & n2 & [(Hsplit & Hn1 & Hd & Hn2 & Hdu')|[e He]]);
      [|by rewrite He in Hdu].
    rewrite Hdu' in Hdu. injection Hdu as <- <-.
    exists (n1 ++ <["quantity" := VInt (b + q)]> dest :: n2).
    split_and!; try done.
    left. exists (length n1), dest, b. split_and!; try done.
    + rewrite Hsplit. apply lookup_middle.
    + by apply pair_is_true_pair_key.
    + rewrite Hsplit. by rewrite list_insert_middle.
  - (* no row of the destination pair: one is appended *)
    assert (dlocs = []) as ->.
    { destruct Hnone as [Hn|(dest & Hdh & Hfalsy)]; [by destruct dlocs|].
      destruct dlocs as [|d ys]; [done|]. injection Hdh as ->.
      destruct (filterM_head_split _ _ _ _ Hdlocs) as (? & ? & _ & _ & Hd & _).
      apply pair_is_true_inv in Hd as [Hd _].
      by rewrite (lookup_Some_truthy _ _ _ Hd) in Hfalsy. }
    rewrite (add_inventory_location_run _ _ _ _ Hrows1) in Hadd.
    injection Hadd as <- _. simpl.
    destruct (new_row_facts env (clock s) P B q) as (HnP & HnB & Hnq).
    eexists. split_and!; try done.
    right. split.
    + by apply (get_inventory_locations_nil_keys _ _ _ _ Hrows1 Hdlocs').
    + eexists. split_and!; [done| |exact Hnq].
      unfold pair_key. by rewrite HnP, HnB.
Qed.

(** [add_inventory_location] appends the row it is given, with its
    pair: it keeps the pairs distinct exactly when that pair is new. *)
Lemma add_inventory_location_unique_pairs env (data : record) s rows :
  inventory_locations s = Some rows → unique_pairs s →
  unique_pairs (fst (add_inventory_location env data s)) ↔
  pair_key data ∉ pair_key <$> rows.
Proof.
  intros Hrows Hu. rewrite (add_inventory_location_run _ _ _ _ Hrows). simpl.
  set (new := <["created_at" := _]> _).
  assert (pair_key new = pair_key data) as Hkey.
  { unfold pair_key, new. by rewrite !lookup_insert_ne. }
  specialize (Hu _ Hrows). split.
  - intros Hu'. specialize (Hu' _ eq_refl).
    rewrite fmap_app in Hu'. apply NoDup_app in Hu' as (_ & Hdisj & _).
    intros Hin. apply (Hdisj _ Hin). simpl. rewrite Hkey. apply list_elem_of_here.
  - intros Hnew rows' [= <-]. rewrite fmap_app. apply NoDup_app.
    split_and!; [done| |apply NoDup_singleton].
    simpl. intros k Hin ->%list_elem_of_singleton. by rewrite Hkey in Hin.
Qed.

(** C8, as the code has it.  From a store with at most one row per
    (product, location) pair, every store reached through the ledger's
    stock writes has at most one row per pair, and so has the store any
    further such write leaves.  A transfer that returns [True], with
    non-empty ids and distinct row ids, is merge-or-create at its
    destination: once the source row is debited, a row of the pair
    (P, B), if there is one, gains [q] and no row is added; otherwise
    exactly one row for (P, B), holding [q], is appended.  The other
    stock writes leave the rows as they are.  [add_inventory_location]
    called by itself does not merge: it keeps the pairs distinct exactly
    when the pair of the row it is given is new. *)
Theorem unique_pairs_invariant env s0 s w :
  unique_pairs s0 → reachable env s0 s →
  unique_pairs s ∧ unique_pairs (run_write env w s) ∧
  match w with
  | Transfer P A B q reason =>
      truthy P = true → truthy A = true → truthy B = true → unique_ids s →
      ∀ msg,
        snd (transfer_inventory env P A B q reason s) = Ok (true, msg) →
        ∃ rows rows1 rows',
          inventory_locations s = Some rows ∧
          debit P A q rows rows1 ∧
          merge_or_create P B q rows1 rows' ∧
          inventory_locations (run_write env w s) = Some rows'
  | _ => inventory_locations (run_write env w s) = inventory_locations s
  end ∧
  ∀ (data : record) rows,
    inventory_locations s = Some rows →
    unique_pairs (fst (add_inventory_location env data s)) ↔
    pair_key data ∉ pair_key <$> rows.
Proof.
  intros H0 Hreach.
  pose proof (reachable_unique_pairs env s0 s H0 Hreach) as Hs.
  split_and!; [done| | |].
  - eapply pair_keys_grow_unique_pairs; [apply run_write_pair_keys_grow|done].
  - destruct w as [P q|P d reason|P A B q reason|P q|product q reason]; simpl.
    + apply receive_stock_locations.
    + apply adjust_stock_locations.
    + intros HP HA HB Hu msg Hrun.
      destruct (transfer_inventory env P A B q reason s) as [s' r] eqn:Ht.
      simpl in Hrun. subst r.
      exact (transfer_debits_then_merges env s s' P A B q reason msg
               HP HA HB Hu Ht).
    + apply invoice_deduct_locations.
    + apply deduct_stock_locations.
  - intros data rows Hrows. by apply add_inventory_location_unique_pairs.
Qed.

Lemma unique_pairs_invariant_witness :
  let s := run_write Demo.env (Receive (VStr "X") 5)
             (run_write Demo.env (Transfer (VStr "X") (VStr "A") (VStr "B") 4 "")
                        Demo.db1) in
  let w := Transfer (VStr "X") (VStr "A") (VStr "B") 1 "" in
  unique_pairs s ∧ unique_pairs (run_write Demo.env w s) ∧
  (∃ rows rows1 rows',
     inventory_locations s = Some rows ∧
     debit (VStr "X") (VStr "A") 1 rows rows1 ∧
     merge_or_create (VStr "X") (VStr "B") 1 rows1 rows' ∧
     inventory_locations (run_write Demo.env w s) = Some rows') ∧
  ∀ (data : record) rows,
    inventory_locations s = Some rows →
    unique_pairs (fst (add_inventory_location Demo.env data s)) ↔
    pair_key data ∉ pair_key <$> rows.
Proof.
  intros s w.
  assert (unique_pairs Demo.db1) as H0.
  { intros rows [= <-]. apply (bool_decide_unpack _). vm_compute. exact I. }
  assert (reachable Demo.env Demo.db1 s) as Hreach.
  { apply reach_step, reach_step, reach_refl. }
  assert (inventory_locations s =
          Some [<["quantity" := VInt 6]> (Demo.row "r1" "X" "A" 10);
                <["created_at" := VStr (now_isoformat Demo.env 1)]>
                  (<["id" := VStr (uuid4 Demo.env 0)]>
                     (new_location_row (VStr "X") (VStr "B") 4))]) as Hrows.
  { vm_compute. reflexivity. }
  assert (unique_ids s) as Hids.
  { intros rows Hr. rewrite Hrows in Hr. injection Hr as <-.
    apply (bool_decide_unpack _). vm_compute. exact I. }
  destruct (unique_pairs_invariant Demo.env Demo.db1 s w H0 Hreach)
    as (H1 & H2 & H3 & H4).
  split_and!; [exact H1 | exact H2 | | exact H4].
  apply (H3 eq_refl eq_refl eq_refl Hids
            (Msg "Inventory transferred successfully")).
  vm_compute. reflexivity.
Defined.

(** [add_inventory_location] is a write of the rows that does not
    merge.  Given a row for the pair (X, A) on a store that has one,
    it returns the new id, leaves the existing row with its 10 units
    and appends a second row for the same pair. *)
Lemma unique_pairs_counterexample :
  let data := new_location_row (VStr "X") (VStr "A") 1 in
  let s' := fst (add_inventory_location Demo.env data Demo.db1) in
  unique_pairs Demo.db1 ∧
  reachable Demo.env Demo.db1 Demo.db1 ∧
  snd (add_inventory_location Demo.env data Demo.db1) =
    Ok (Some (uuid4 Demo.env 0)) ∧
  inventory_locations s' =
    Some [Demo.row "r1" "X" "A" 10;
          <["created_at" := VStr (now_isoformat Demo.env 1)]>
            (<["id" := VStr (uuid4 Demo.env 0)]> data)] ∧
  ¬ unique_pairs s'.
Proof.
  intros data s'. split_and!.
  - intros rows [= <-]. apply (bool_decide_unpack _). vm_compute. exact I.
  - apply reach_refl.
  - reflexivity.
  - reflexivity.
  - intros Hu. specialize (Hu _ eq_refl).
    revert Hu. apply (bool_decide_unpack _). vm_compute. exact I.
Qed.

(** ** The scenario of the specification *)

(** C9. Product X has quantity 10, with 10 units at A and 0 at B.
    Transferring 4 from A to B returns [True] and leaves A = 6, B = 4,
    location sum 10 and aggregate 10; the invoice deduction of 6 then
    completes and leaves the aggregate at 4; the adjustment by -10 is
    then rejected with "Cannot have negative stock", the store stays
    as it was and the aggregate is still 4.  "Total" after the
    deduction is the aggregate [Product.quantity], which the deduction
    and the adjustment work on. *)
Theorem scenario_transfer_deduct_adjust env :
  let X := VStr "X" in
  let A := VStr "A" in
  let B := VStr "B" in
  let t := transfer_inventory env X A B 4 "" Demo.db0 in
  let d := invoice_deduct X 6 (fst t) in
  let a := adjust_stock env X (-10) "Damaged" (fst d) in
  product_quantity Demo.db0 X = Ok (VInt 10) ∧
  quantityAt Demo.db0 X A = Ok (Some 10) ∧
  quantityAt Demo.db0 X B = Ok (Some 0) ∧
  snd t = Ok (true, Msg "Inventory transferred successfully") ∧
  quantityAt (fst t) X A = Ok (Some 6) ∧
  quantityAt (fst t) X B = Ok (Some 4) ∧
  get_total_inventory_by_product (fst t) X = Ok 10 ∧
  product_quantity (fst t) X = Ok (VInt 10) ∧
  snd d = Ok tt ∧
  product_quantity (fst d) X = Ok (VInt 4) ∧
  snd a = Ok (st_error "Cannot have negative stock") ∧
  fst a = fst d ∧
  product_quantity (fst a) X = Ok (VInt 4).
Proof. vm_compute. by repeat split. Qed.

(** In that scenario the location rows are not consulted by the
    deduction: their sum is still 10 after it. *)
Lemma scenario_location_sum env :
  let X := VStr "X" in
  let t := transfer_inventory env X (VStr "A") (VStr "B") 4 "" Demo.db0 in
  get_total_inventory_by_product (fst (invoice_deduct X 6 (fst t))) X = Ok 10.
Proof. vm_compute. reflexivity. Qed.

(** ** Transfers on a store of well-formed rows *)

Lemma wf_row_predicates_total P A (r : record) :
  wf_row r →
  (∃ b, product_and_location_is P A r = Ok b) ∧
  (∃ b, product_is P r = Ok b) ∧ (∃ b, location_is A r = Ok b) ∧
  (∀ key, ∃ b, id_is key r = Ok b).
Proof.
  intros ([i Hi] & [p Hp] & [l Hl] & _).
  unfold product_and_location_is, product_is, location_is, id_is, subscript.
  rewrite Hi, Hp, Hl. simpl. split_and!; eauto.
  destruct (py_eq p P); eauto.
Qed.

Lemma wf_row_insert_quantity (r : record) n :
  wf_row r → wf_row (<["quantity" := VInt n]> r).
Proof.
  intros (Hi & Hp & Hl & _). unfold wf_row.
  rewrite !lookup_insert_ne by done. rewrite lookup_insert_eq. eauto.
Qed.

Lemma get_inventory_locations_wf s P A rows :
  inventory_locations s = Some rows → Forall wf_row rows →
  ∃ locs, get_inventory_locations s P A = Ok locs ∧ Forall wf_row locs.
Proof.
  intros Hrows Hwf. unfold get_inventory_locations, locations_rows.
  rewrite Hrows. simpl.
  assert (∀ p, Forall (λ y, ∃ b, p y = Ok b) rows →
               ∃ locs, filterM p rows = Ok locs ∧ Forall wf_row locs) as Hp.
  { intros p [locs Hlocs]%filterM_total. exists locs. split; [done|].
    rewrite Forall_forall in Hwf |- *. intros x Hx.
    by destruct (filterM_elem _ _ _ _ Hlocs Hx) as [?%Hwf _]. }
  destruct (truthy P), (truthy A); simpl; [apply Hp..|eauto];
    eapply Forall_impl; try exact Hwf; intros r Hr;
    by destruct (wf_row_predicates_total P A r Hr) as (? & ? & ? & ?).
Qed.

Lemma update_inventory_location_wf lid n s rows :
  inventory_locations s = Some rows → Forall wf_row rows →
  ∃ s' b rows',
    update_inventory_location lid {["quantity" := VInt n]} s = (s', Ok b) ∧
    inventory_locations s' = Some rows' ∧ Forall wf_row rows' ∧
    audit_log s' = audit_log s.
Proof.
  intros Hrows Hwf. rewrite update_inventory_location_run, Hrows.
  destruct (first_where_total (id_is lid) rows) as [o Ho].
  { eapply Forall_impl; [exact Hwf|]. intros r Hr.
    by destruct (wf_row_predicates_total VNone VNone r Hr) as (_ & _ & _ & ?). }
  rewrite Ho. destruct o as [[i x]|]; [|by eauto 10].
  do 3 eexists. split_and!; try done.
  rewrite dict_update_quantity. apply Forall_insert; [done|].
  apply wf_row_insert_quantity.
  destruct (first_where_split _ _ _ _ Ho) as (l1 & l2 & -> & _).
  by apply Forall_app in Hwf as [_ [? _]%Forall_cons].
Qed.

Lemma destination_wf env s P B q rows :
  inventory_locations s = Some rows → Forall wf_row rows →
  ∃ s', update_or_create_destination env P B q s = (s', Ok tt) ∧
        audit_log s' = audit_log s.
Proof.
  intros Hrows Hwf. unfold update_or_create_destination, bind at 1, read.
  destruct (get_inventory_locations_wf s P B rows Hrows Hwf)
    as (dlocs & -> & Hdwf).
  destruct dlocs as [|dest ds]; simpl.
  - unfold bind. rewrite (add_inventory_location_run _ _ _ _ Hrows).
    unfold ret. eauto.
  - apply Forall_cons in Hdwf as [([did Hdid] & _ & _ & [b Hb]) _].
    rewrite (lookup_Some_truthy _ _ _ Hdid).
    unfold bind at 1, lift, subscript. rewrite Hdid.
    unfold bind at 1. rewrite Hb. unfold bind at 1. simpl.
    destruct (update_inventory_location_wf did (b + q) s rows Hrows Hwf)
      as (s' & b' & rows' & Hu & _ & _ & Haud).
    unfold bind, ret. rewrite Hu. eauto.
Qed.

(** On well-formed rows a transfer whose source row holds enough
    returns [True] and appends its audit entry. *)
Lemma transfer_succeeds env s P A B q reason a :
  wf_rows s → quantityAt s P A = Ok (Some a) → q ≤ a →
  ∃ s', transfer_inventory env P A B q reason s =
        (s', Ok (true, Msg "Inventory transferred successfully")) ∧
        length (audit_log s') = S (length (audit_log s)).
Proof.
  intros (rows & Hrows & Hwf) Hqa Hle.
  unfold quantityAt in Hqa.
  unfold transfer_inventory, try_except, transfer_body, bind at 1, read.
  destruct (get_inventory_locations_wf s P A rows Hrows Hwf)
    as (locs & Hlocs & Hlwf).
  rewrite Hlocs in Hqa |- *. simpl in Hqa.
  destruct locs as [|src xs]; [done|]. simpl in Hqa.
  apply Forall_cons in Hlwf as [([sid Hsid] & _ & _ & [n Hn]) _].
  unfold subscript in Hqa. rewrite Hn in Hqa. injection Hqa as ->.
  unfold bind at 1, lift, source_insufficient. simpl.
  rewrite (lookup_Some_truthy _ _ _ Hsid). unfold subscript. rewrite Hn.
  simpl. assert ((a <? q) = false) as -> by (apply Z.ltb_ge; lia).
  unfold bind at 1. rewrite Hsid. unfold bind at 1. unfold bind at 1. simpl.
  unfold bind at 1.
  destruct (update_inventory_location_wf sid (a - q) s rows Hrows Hwf)
    as (s1 & b1 & rows1 & -> & Hrows1 & Hwf1 & Haud1).
  unfold bind at 1.
  destruct (destination_wf env s1 P B q rows1 Hrows1 Hwf1)
    as (s2 & -> & Haud2).
  unfold bind. rewrite log_audit_run. unfold ret. eexists. split; [done|].
  simpl. rewrite length_app, Haud2, Haud1. simpl. lia.
Qed.

Lemma quantityAt_wf s P A :
  wf_rows s → ∃ oa, quantityAt s P A = Ok oa.
Proof.
  intros (rows & Hrows & Hwf). unfold quantityAt.
  destruct (get_inventory_locations_wf s P A rows Hrows Hwf)
    as (locs & -> & Hlwf). simpl.
  destruct locs as [|src xs]; simpl; [eauto|].
  apply Forall_cons in Hlwf as [(_ & _ & _ & [n Hn]) _].
  unfold subscript. rewrite Hn. simpl. eauto.
Qed.

(** C6, as the code has it.  [transfer_inventory] checks neither
    [q > 0] nor [A <> B]: with [q <= 0] or [A = B], on well-formed
    rows, the source row alone decides.  The transfer returns [True]
    and appends its audit entry when the row of (P, A) holds at least
    [q]; it returns "Not enough inventory at source location" and
    leaves the store as it was when that row is missing or holds less
    than [q]. *)
Theorem transfer_validates_nothing env s P A B q reason :
  wf_rows s → q ≤ 0 ∨ A = B →
  ∃ oa, quantityAt s P A = Ok oa ∧
    (∀ a, oa = Some a → q ≤ a →
       ∃ s', transfer_inventory env P A B q reason s =
             (s', Ok (true, Msg "Inventory transferred successfully")) ∧
             length (audit_log s') = S (length (audit_log s))) ∧
    (oa = None ∨ (∃ a, oa = Some a ∧ a < q) →
       transfer_inventory env P A B q reason s =
       (s, Ok (false, Msg "Not enough inventory at source location"))).
Proof.
  intros Hwf _. destruct (quantityAt_wf s P A Hwf) as [oa Hoa].
  exists oa. split_and!; [done| |].
  - intros a -> Hle. by eapply transfer_succeeds.
  - intros H. apply transfer_short.
    destruct H as [->|(a & -> & Ha)]; eauto.
Qed.

Lemma transfer_validates_nothing_witness :
  ∃ oa, quantityAt Demo.db0 (VStr "X") (VStr "A") = Ok oa ∧
    (∀ a, oa = Some a → 4 ≤ a →
       ∃ s', transfer_inventory Demo.env (VStr "X") (VStr "A") (VStr "A") 4 ""
                                Demo.db0 =
             (s', Ok (true, Msg "Inventory transferred successfully")) ∧
             length (audit_log s') = S (length (audit_log Demo.db0))) ∧
    (oa = None ∨ (∃ a, oa = Some a ∧ a < 4) →
       transfer_inventory Demo.env (VStr "X") (VStr "A") (VStr "A") 4 ""
                          Demo.db0 =
       (Demo.db0, Ok (false, Msg "Not enough inventory at source location"))).
Proof.
  apply (transfer_validates_nothing Demo.env Demo.db0 (VStr "X") (VStr "A")
           (VStr "A") 4 "").
  - eexists. split; [reflexivity|].
    repeat constructor; by eexists.
  - right. reflexivity.
Defined.

(** C6 as stated fails: a transfer from A to A returns [True] and
    writes an audit entry, and so does a transfer of -3 units, which
    leaves 13 at A and -3 at B. *)
Lemma transfer_validation_counterexample :
  snd (transfer_inventory Demo.env (VStr "X") (VStr "A") (VStr "A") 4 ""
                          Demo.db0) =
    Ok (true, Msg "Inventory transferred successfully") ∧
  length (audit_log (fst (transfer_inventory Demo.env (VStr "X") (VStr "A")
                                             (VStr "A") 4 "" Demo.db0)))
    = 1%nat ∧
  snd (transfer_inventory Demo.env (VStr "X") (VStr "A") (VStr "B") (-3) ""
                          Demo.db0) =
    Ok (true, Msg "Inventory transferred successfully") ∧
  quantityAt (fst (transfer_inventory Demo.env (VStr "X") (VStr "A")
                                      (VStr "B") (-3) "" Demo.db0))
             (VStr "X") (VStr "A") = Ok (Some 13) ∧
  quantityAt (fst (transfer_inventory Demo.env (VStr "X") (VStr "A")
                                      (VStr "B") (-3) "" Demo.db0))
             (VStr "X") (VStr "B") = Ok (Some (-3)).
Proof. vm_compute. by repeat split. Qed.

(** ** A store without the location collection *)

(** [_initialize_db] creates no ['inventory_locations']: on a store
    that has none, every transfer ends in the [except] clause with the
    [KeyError] of the missing collection, and writes nothing. *)
Lemma transfer_without_collection env s P A B q reason :
  inventory_locations s = None →
  transfer_inventory env P A B q reason s =
  (s, Ok (false, ErrorTransferring (KeyError "inventory_locations"))).
Proof.
  intros H.
  unfold transfer_inventory, try_except, transfer_body, bind, read,
    get_inventory_locations, locations_rows.
  by rewrite H.
Qed.

(** * Properties of the rest of the inventory code *)

(** ** Scans and comprehensions, continued *)

Lemma first_where_all_false p l :
  Forall (λ y, p y = Ok false) l → first_where p l = Ok None.
Proof.
  induction 1 as [|y l Hy _ IH]; simpl; [done|]. by rewrite Hy, IH.
Qed.

Lemma first_where_app_found p l1 l2 i r :
  first_where p l1 = Ok (Some (i, r)) →
  first_where p (l1 ++ l2) = Ok (Some (i, r)).
Proof.
  intros (m1 & m2 & -> & <- & Hr & Hm1)%first_where_split.
  rewrite <- app_assoc. simpl. by apply first_where_found.
Qed.

Lemma first_where_snoc_none p l x :
  first_where p l = Ok None →
  first_where p (l ++ [x]) =
  let? b := p x in Ok (if b then Some (length l, x) else None).
Proof.
  intros Hl%first_where_none.
  induction Hl as [|y l Hy _ IH]; simpl.
  - destruct (p x) as [[]|]; done.
  - rewrite Hy. simpl. rewrite IH. destruct (p x) as [[]|]; done.
Qed.

Lemma filterM_all_true p l :
  Forall (λ y, p y = Ok true) l → filterM p l = Ok l.
Proof.
  induction 1 as [|y l Hy _ IH]; simpl; [done|]. by rewrite Hy, IH.
Qed.

Lemma filterM_fixed p l kept :
  filterM p l = Ok kept → filterM p kept = Ok kept.
Proof.
  intros Hf. apply filterM_all_true. rewrite Forall_forall. intros x Hx.
  by destruct (filterM_elem _ _ _ _ Hf Hx).
Qed.

Lemma filterM_length p l kept :
  filterM p l = Ok kept → (length kept ≤ length l)%nat.
Proof.
  revert kept. induction l as [|x l IH]; simpl; intros kept.
  - by intros [= <-].
  - destruct (p x) as [b|]; simpl; [|done].
    destruct (filterM p l) as [rest|]; simpl; [|done].
    specialize (IH _ eq_refl). destruct b; intros [= <-]; simpl; lia.
Qed.

(** ** [add_inventory_item], [delete_inventory_item] *)

Lemma add_inventory_item_run env data s :
  add_inventory_item env data s =
  (mkDB (inventory s ++
         [<["created_at" := VStr (now_isoformat env (S (clock s)))]>
            (<["id" := VStr (uuid4 env (clock s))]> data)])
        (inventory_locations s) (audit_log s) (S (S (clock s))),
   Ok (Some (uuid4 env (clock s)))).
Proof. reflexivity. Qed.

Lemma id_is_of_lookup key (r : record) v :
  r !! "id" = Some v → id_is key r = Ok (bool_decide (v = key)).
Proof. intros H. unfold id_is, subscript. by rewrite H. Qed.

Lemma id_is_not_of_lookup key (r : record) v :
  r !! "id" = Some v → id_is_not key r = Ok (negb (bool_decide (v = key))).
Proof. intros H. unfold id_is_not, subscript. by rewrite H. Qed.

(** X1. Adding a product gives it a fresh id and a creation time,
    overwriting whatever ['id'] the caller supplied, appends it to the
    inventory and returns the id.  When the existing records all have
    an id other than the new one, looking that id up returns the new
    record, whose other fields are the caller's; lookups that found a
    record before still find the same one; the location rows and the
    audit log are untouched. *)
Theorem add_inventory_item_lookup env data s :
  all_have_id (inventory s) →
  (∀ r : record, r ∈ inventory s →
                 r !! "id" ≠ Some (VStr (uuid4 env (clock s)))) →
  ∃ uid (item : record) s',
    add_inventory_item env data s = (s', Ok (Some uid)) ∧
    get_inventory_item s' (VStr uid) = Ok (Some item) ∧
    item !! "id" = Some (VStr uid) ∧
    (∀ k, k ≠ "id" → k ≠ "created_at" → item !! k = data !! k) ∧
    inventory s' = inventory s ++ [item] ∧
    (∀ key r, get_inventory_item s key = Ok (Some r) →
              get_inventory_item s' key = Ok (Some r)) ∧
    inventory_locations s' = inventory_locations s ∧
    audit_log s' = audit_log s.
Proof.
  intros Hids Hfresh. rewrite add_inventory_item_run.
  set (uid := uuid4 env (clock s)) in *.
  set (item := <["created_at" := _]> _).
  exists uid, item. eexists. split; [done|]. simpl.
  assert (item !! "id" = Some (VStr uid)) as Hitem.
  { unfold item. by simplify_map_eq. }
  split_and!; try done.
  - unfold get_inventory_item. simpl.
    rewrite first_where_snoc_none.
    + rewrite (id_is_of_lookup _ _ _ Hitem). simpl.
      by rewrite bool_decide_eq_true_2.
    + apply first_where_all_false. unfold all_have_id in Hids.
      rewrite Forall_forall in Hids |- *. intros r Hr.
      destruct (Hids r Hr) as [v Hv]. rewrite (id_is_of_lookup _ _ _ Hv).
      rewrite bool_decide_eq_false_2; [done|].
      intros ->. by apply (Hfresh r Hr).
  - intros k Hk1 Hk2. unfold item. by rewrite !lookup_insert_ne.
  - intros key r. unfold get_inventory_item. simpl.
    destruct (first_where (id_is key) (inventory s)) as [[[i x]|]|] eqn:Hfw;
      simpl; try done.
    intros [= <-]. by rewrite (first_where_app_found _ _ _ _ _ Hfw).
Qed.

Lemma add_inventory_item_lookup_witness :
  ∃ uid (item : record) s',
    add_inventory_item Demo.env (Demo.product "ignored" "Bolt" 3) Demo.db0 =
      (s', Ok (Some uid)) ∧
    get_inventory_item s' (VStr uid) = Ok (Some item) ∧
    item !! "id" = Some (VStr uid) ∧
    (∀ k, k ≠ "id" → k ≠ "created_at" →
          item !! k = Demo.product "ignored" "Bolt" 3 !! k) ∧
    inventory s' = inventory Demo.db0 ++ [item] ∧
    (∀ key r, get_inventory_item Demo.db0 key = Ok (Some r) →
              get_inventory_item s' key = Ok (Some r)) ∧
    inventory_locations s' = inventory_locations Demo.db0 ∧
    audit_log s' = audit_log Demo.db0.
Proof.
  apply (add_inventory_item_lookup Demo.env (Demo.product "ignored" "Bolt" 3)
                                   Demo.db0).
  - repeat constructor; by eexists.
  - intros r Hr. apply (bool_decide_unpack _). revert r Hr.
    apply Forall_forall. repeat constructor; by vm_compute.
Defined.

Lemma delete_inventory_item_run item_id s :
  delete_inventory_item item_id s =
  match filterM (id_is_not item_id) (inventory s) with
  | Ok kept =>
      (mkDB kept (inventory_locations s) (audit_log s) (clock s),
       Ok (true, DeleteMsg "Item deleted successfully"))
  | Raise e => (s, Ok (false, DeleteError "item" e))
  end.
Proof.
  unfold delete_inventory_item, try_except, bind, read.
  by destruct (filterM (id_is_not item_id) (inventory s)).
Qed.

Lemma filterM_id_is_not key (l : list record) :
  all_have_id l →
  filterM (id_is_not key) l = Ok (filter (λ r : record, r !! "id" ≠ Some key) l).
Proof.
  induction 1 as [|x l [v Hv] _ IH]; simpl; [done|].
  rewrite (id_is_not_of_lookup _ _ _ Hv), IH. simpl.
  rewrite filter_cons. rewrite Hv.
  case_bool_decide as Hk; simpl.
  - subst. by rewrite decide_False by (by intros []).
  - rewrite decide_True; [done|]. by intros [= ->].
Qed.

Lemma filterM_id_is_not_missing key (l : list record) :
  Exists (λ r : record, r !! "id" = None) l →
  filterM (id_is_not key) l = Raise (KeyError "id").
Proof.
  induction l as [|x l IH]; intros Hex; [by apply Exists_nil in Hex|].
  simpl. unfold id_is_not at 1, subscript.
  destruct (x !! "id") as [v|] eqn:Hv; simpl; [|done].
  apply Exists_cons in Hex as [Hx|Hl]; [congruence|]. by rewrite IH.
Qed.

Lemma all_have_id_filter (P : record → Prop) `{∀ r, Decision (P r)} l :
  all_have_id l → all_have_id (filter P l).
Proof.
  unfold all_have_id. rewrite !Forall_forall.
  intros Hl r [_ Hr]%list_elem_of_filter. by apply Hl.
Qed.

(** Looking up another id is not affected by the removal. *)
Lemma first_where_id_filter key item_id (l : list record) :
  all_have_id l → key ≠ item_id →
  rmap (fmap snd)
       (first_where (id_is key)
                    (filter (λ r : record, r !! "id" ≠ Some item_id) l)) =
  rmap (fmap (M := option) snd) (first_where (id_is key) l).
Proof.
  intros Hids Hne. induction Hids as [|x l [v Hv] _ IH]; [done|].
  rewrite filter_cons. simpl. rewrite (id_is_of_lookup _ _ _ Hv).
  destruct (decide (x !! "id" ≠ Some item_id)) as [Hx|Hx]; simpl.
  - rewrite (id_is_of_lookup _ _ _ Hv). simpl.
    case_bool_decide; simpl; [done|].
    destruct (first_where (id_is key) (filter _ l)) as [[[]|]|],
             (first_where (id_is key) l) as [[[]|]|]; simpl in *;
      congruence.
  - apply dec_stable in Hx. rewrite Hv in Hx. injection Hx as ->.
    rewrite bool_decide_eq_false_2 by (by intros ->). simpl.
    destruct (first_where (id_is key) (filter _ l)) as [[[]|]|],
             (first_where (id_is key) l) as [[[]|]|]; simpl in *;
      congruence.
Qed.

(** X2. On an inventory whose records all have an id, deleting an id
    always returns [(True, "Item deleted successfully")] - also when
    no record has that id, in which case nothing changes - and leaves
    exactly the records with another id, in their order; looking the
    id up afterwards finds nothing, and the lookup of any other id
    gives what it gave before. *)
Theorem delete_inventory_item_lookup item_id s :
  all_have_id (inventory s) →
  ∃ s',
    delete_inventory_item item_id s =
      (s', Ok (true, DeleteMsg "Item deleted successfully")) ∧
    inventory s' =
      filter (λ r : record, r !! "id" ≠ Some item_id) (inventory s) ∧
    get_inventory_item s' item_id = Ok None ∧
    (∀ key, key ≠ item_id →
            get_inventory_item s' key = get_inventory_item s key) ∧
    (Forall (λ r : record, r !! "id" ≠ Some item_id) (inventory s) →
     inventory s' = inventory s).
Proof.
  intros Hids. rewrite delete_inventory_item_run, filterM_id_is_not by done.
  eexists. split; [done|]. simpl. split_and!; [done| | |].
  - unfold get_inventory_item. simpl. rewrite first_where_all_false; [done|].
    apply Forall_forall. intros r [Hr Hin]%list_elem_of_filter.
    unfold all_have_id in Hids. rewrite Forall_forall in Hids.
    destruct (Hids r Hin) as [v Hv]. rewrite (id_is_of_lookup _ _ _ Hv).
    rewrite bool_decide_eq_false_2; [done|]. intros ->. by rewrite Hv in Hr.
  - intros key Hne. unfold get_inventory_item. simpl.
    pose proof (first_where_id_filter key item_id _ Hids Hne) as Heq.
    destruct (first_where (id_is key) (filter _ (inventory s))) as [o1|],
             (first_where (id_is key) (inventory s)) as [o2|];
      simpl in *; congruence.
  - intros Hnone. induction Hnone as [|x l Hx _ IH]; [done|].
    rewrite filter_cons, decide_True by done. f_equal. apply IH.
    by apply Forall_cons in Hids as [_ ?].
Qed.

Lemma delete_inventory_item_lookup_witness :
  ∃ s',
    delete_inventory_item (VStr "X") Demo.db0 =
      (s', Ok (true, DeleteMsg "Item deleted successfully")) ∧
    inventory s' =
      filter (λ r : record, r !! "id" ≠ Some (VStr "X")) (inventory Demo.db0) ∧
    get_inventory_item s' (VStr "X") = Ok None ∧
    (∀ key, key ≠ VStr "X" →
            get_inventory_item s' key = get_inventory_item Demo.db0 key) ∧
    (Forall (λ r : record, r !! "id" ≠ Some (VStr "X")) (inventory Demo.db0) →
     inventory s' = inventory Demo.db0).
Proof.
  apply (delete_inventory_item_lookup (VStr "X") Demo.db0).
  repeat constructor; by eexists.
Defined.

(** X3. When some record of the inventory has no ['id'], deleting any
    id fails with the [KeyError] and removes nothing: the store is
    unchanged. *)
Theorem delete_inventory_item_missing_id item_id s :
  Exists (λ r : record, r !! "id" = None) (inventory s) →
  delete_inventory_item item_id s =
  (s, Ok (false, DeleteError "item" (KeyError "id"))).
Proof.
  intros Hex. by rewrite delete_inventory_item_run, filterM_id_is_not_missing.
Qed.

Lemma delete_inventory_item_missing_id_witness :
  delete_inventory_item (VStr "X") Sample.db_broken =
  (Sample.db_broken, Ok (false, DeleteError "item" (KeyError "id"))).
Proof.
  apply (delete_inventory_item_missing_id (VStr "X") Sample.db_broken).
  apply Exists_cons_tl, Exists_cons_hd. reflexivity.
Defined.

(** X4. Deleting a product never looks at or removes its location
    rows and writes no audit entry: the rows, the sum of the product's
    location quantities and the audit log are what they were. *)
Theorem delete_inventory_item_keeps_rows item_id s :
  inventory_locations (fst (delete_inventory_item item_id s)) =
    inventory_locations s ∧
  audit_log (fst (delete_inventory_item item_id s)) = audit_log s ∧
  get_total_inventory_by_product (fst (delete_inventory_item item_id s))
                                 item_id =
    get_total_inventory_by_product s item_id.
Proof.
  assert (inventory_locations (fst (delete_inventory_item item_id s)) =
          inventory_locations s) as Hloc.
  { rewrite delete_inventory_item_run. by case_match. }
  split_and!; [done| |by apply get_total_locations].
  rewrite delete_inventory_item_run. by case_match.
Qed.

(** X5. Deleting is idempotent: deleting the same id again returns the
    same pair and leaves the store the first deletion left. *)
Theorem delete_inventory_item_idempotent item_id s :
  delete_inventory_item item_id (fst (delete_inventory_item item_id s)) =
  delete_inventory_item item_id s.
Proof.
  rewrite (delete_inventory_item_run item_id s).
  destruct (filterM (id_is_not item_id) (inventory s)) as [kept|e] eqn:Hf;
    simpl.
  - rewrite delete_inventory_item_run. simpl.
    by rewrite (filterM_fixed _ _ _ Hf).
  - by rewrite delete_inventory_item_run, Hf.
Qed.

(** ** [update_inventory_item], [get_inventory_item_by_barcode] *)

Lemma first_where_insert_same_id key (inv : list record) i (r r' : record) :
  first_where (id_is key) inv = Ok (Some (i, r)) →
  r' !! "id" = r !! "id" →
  first_where (id_is key) (<[i := r']> inv) = Ok (Some (i, r')).
Proof.
  intros (l1 & l2 & -> & <- & Hp & Hl1)%first_where_split Hid.
  rewrite list_insert_middle. apply first_where_found; [done|].
  unfold id_is, subscript in *. by rewrite Hid.
Qed.

(** X6. Updating a product by id, with update data that carry no
    ['id']: when the id is found the method returns [True] and a
    lookup of the id returns the old record overwritten by the update
    data (their keys win, the other fields stay), the inventory keeps
    its length and nothing else is written; when the id is not found
    it returns [False] and the store is unchanged. *)
Theorem update_inventory_item_lookup item_id (upd : record) s :
  upd !! "id" = None →
  match get_inventory_item s item_id with
  | Ok (Some r) =>
      ∃ s', update_inventory_item item_id upd s = (s', Ok true) ∧
            get_inventory_item s' item_id = Ok (Some (dict_update r upd)) ∧
            (∀ k v, upd !! k = Some v → dict_update r upd !! k = Some v) ∧
            (∀ k, upd !! k = None → dict_update r upd !! k = r !! k) ∧
            length (inventory s') = length (inventory s) ∧
            inventory_locations s' = inventory_locations s ∧
            audit_log s' = audit_log s
  | Ok None => update_inventory_item item_id upd s = (s, Ok false)
  | Raise e => update_inventory_item item_id upd s = (s, Raise e)
  end.
Proof.
  intros Hupd. rewrite update_inventory_item_run.
  unfold get_inventory_item.
  destruct (first_where (id_is item_id) (inventory s)) as [[[i r]|]|] eqn:Hfw;
    simpl; try done.
  eexists. split; [done|]. simpl. split_and!; try done.
  - rewrite (first_where_insert_same_id _ _ _ _ (dict_update r upd) Hfw);
      [done|].
    unfold dict_update. by rewrite lookup_union_r.
  - intros k v Hk. unfold dict_update. by rewrite (lookup_union_Some_l _ _ _ v).
  - intros k Hk. unfold dict_update. by rewrite lookup_union_r.
  - by rewrite length_insert.
Qed.

Lemma update_inventory_item_lookup_witness :
  match get_inventory_item Demo.db0 (VStr "X") with
  | Ok (Some r) =>
      ∃ s', update_inventory_item (VStr "X") {["min_stock" := VInt 2]} Demo.db0
            = (s', Ok true) ∧
            get_inventory_item s' (VStr "X") =
              Ok (Some (dict_update r {["min_stock" := VInt 2]})) ∧
            (∀ k v, ({["min_stock" := VInt 2]} : gmap string value) !! k = Some v →
                    dict_update r {["min_stock" := VInt 2]} !! k = Some v) ∧
            (∀ k, ({["min_stock" := VInt 2]} : gmap string value) !! k = None →
                  dict_update r {["min_stock" := VInt 2]} !! k = r !! k) ∧
            length (inventory s') = length (inventory Demo.db0) ∧
            inventory_locations s' = inventory_locations Demo.db0 ∧
            audit_log s' = audit_log Demo.db0
  | Ok None =>
      update_inventory_item (VStr "X") {["min_stock" := VInt 2]} Demo.db0 =
      (Demo.db0, Ok false)
  | Raise e =>
      update_inventory_item (VStr "X") {["min_stock" := VInt 2]} Demo.db0 =
      (Demo.db0, Raise e)
  end.
Proof.
  apply (update_inventory_item_lookup (VStr "X") {["min_stock" := VInt 2]}
                                      Demo.db0).
  reflexivity.
Defined.

Lemma barcode_is_total barcode (l : list record) :
  ∃ o, first_where (barcode_is barcode) l = Ok o.
Proof.
  apply first_where_total, Forall_forall. intros r _.
  unfold barcode_is. eauto.
Qed.

(** X7. The barcode lookup never raises and returns the first record
    with the barcode.  After a product carrying barcode [b] is added,
    looking [b] up returns the record that already had that barcode if
    there was one (a second product with the same barcode is accepted
    and shadowed), and the new record otherwise. *)
Theorem barcode_lookup_after_add env (data : record) b s :
  data !! "barcode" = Some b →
  match get_inventory_item_by_barcode s b with
  | Ok (Some old) =>
      get_inventory_item_by_barcode (fst (add_inventory_item env data s)) b =
      Ok (Some old)
  | Ok None =>
      get_inventory_item_by_barcode (fst (add_inventory_item env data s)) b =
      Ok (Some (<["created_at" := VStr (now_isoformat env (S (clock s)))]>
                  (<["id" := VStr (uuid4 env (clock s))]> data)))
  | Raise _ => False
  end.
Proof.
  intros Hb. rewrite add_inventory_item_run. simpl.
  unfold get_inventory_item_by_barcode. simpl.
  destruct (barcode_is_total b (inventory s)) as [[[i old]|] Hfw];
    rewrite Hfw; simpl.
  - by rewrite (first_where_app_found _ _ _ _ _ Hfw).
  - rewrite (first_where_snoc_none _ _ _ Hfw). unfold barcode_is, dict_get.
    rewrite !lookup_insert_ne by done. rewrite Hb. simpl.
    unfold py_eq. by rewrite bool_decide_eq_true_2.
Qed.

Lemma barcode_lookup_after_add_witness :
  match get_inventory_item_by_barcode Demo.db0 (VStr "PRD-1") with
  | Ok (Some old) =>
      get_inventory_item_by_barcode
        (fst (add_inventory_item Demo.env {["barcode" := VStr "PRD-1"]}
                                 Demo.db0)) (VStr "PRD-1") = Ok (Some old)
  | Ok None =>
      get_inventory_item_by_barcode
        (fst (add_inventory_item Demo.env {["barcode" := VStr "PRD-1"]}
                                 Demo.db0)) (VStr "PRD-1") =
      Ok (Some (<["created_at" :=
                    VStr (now_isoformat Demo.env (S (clock Demo.db0)))]>
                  (<["id" := VStr (uuid4 Demo.env (clock Demo.db0))]>
                     {["barcode" := VStr "PRD-1"]})))
  | Raise _ => False
  end.
Proof.
  apply (barcode_lookup_after_add Demo.env {["barcode" := VStr "PRD-1"]}
                                  (VStr "PRD-1") Demo.db0).
  reflexivity.
Defined.

(** ** The audit log *)

Lemma log_entry_fields uid user action details ts :
  log_entry uid user action details ts !! "user_id" = Some user ∧
  log_entry uid user action details ts !! "action" = Some (VStr action).
Proof. unfold log_entry. by simplify_map_eq. Qed.

Lemma get_audit_logs_log_audit env user action details s a :
  get_audit_logs (fst (log_audit env user action details s)) user (VStr a) =
  rmap (λ m, m ++ if truthy (VStr a) && negb (bool_decide (action = a))
                  then []
                  else [log_entry (uuid4 env (clock s)) user action details
                                  (now_isoformat env (S (clock s)))])
       (get_audit_logs s user (VStr a)).
Proof.
  rewrite log_audit_run. simpl. set (e := log_entry _ _ _ _ _).
  destruct (log_entry_fields (uuid4 env (clock s)) user action details
              (now_isoformat env (S (clock s)))) as [Hu Ha].
  fold e in Hu, Ha.
  assert (field_is "user_id" user e = Ok true) as Hfu.
  { unfold field_is, subscript, py_eq. rewrite Hu. simpl.
    by rewrite bool_decide_eq_true_2. }
  assert (field_is "action" (VStr a) e = Ok (bool_decide (action = a)))
    as Hfa.
  { unfold field_is, subscript, py_eq. rewrite Ha. simpl.
    f_equal. apply bool_decide_ext. split; [by intros [= ->]|by intros ->]. }
  unfold get_audit_logs. simpl.
  assert (∀ l,
    (let? logs := Ok (l ++ [e]) in
     if truthy (VStr a) then filterM (field_is "action" (VStr a)) logs
     else Ok logs) =
    rmap (λ m, m ++ if truthy (VStr a) && negb (bool_decide (action = a))
                    then [] else [e])
         (if truthy (VStr a) then filterM (field_is "action" (VStr a)) l
          else Ok l)) as Hact.
  { intros l. destruct (truthy (VStr a)); simpl; [|done].
    rewrite filterM_app. simpl. rewrite Hfa. simpl.
    destruct (filterM (field_is "action" (VStr a)) l) as [m|]; simpl; [|done].
    by destruct (bool_decide (action = a)). }
  destruct (truthy user).
  - rewrite filterM_app. simpl. rewrite Hfu. simpl.
    destruct (filterM (field_is "user_id" user) (audit_log s)) as [l|];
      simpl; [|done].
    apply (Hact l).
  - apply (Hact (audit_log s)).
Qed.

(** X8. An entry written by [log_audit] is read back by
    [get_audit_logs]: asked for the entry's user and action it returns
    what it returned before followed by the new entry; asked for the
    same user and another action it returns what it returned before. *)
Theorem get_audit_logs_after_log_audit env user action details s logs :
  get_audit_logs s user (VStr action) = Ok logs →
  get_audit_logs (fst (log_audit env user action details s)) user
                 (VStr action) =
    Ok (logs ++ [log_entry (uuid4 env (clock s)) user action details
                           (now_isoformat env (S (clock s)))]) ∧
  ∀ other, other ≠ action → other ≠ "" →
    get_audit_logs (fst (log_audit env user action details s)) user
                   (VStr other) =
    get_audit_logs s user (VStr other).
Proof.
  intros Hlogs. split.
  - rewrite get_audit_logs_log_audit, Hlogs. simpl.
    rewrite (bool_decide_eq_true_2 (action = action)) by done.
    by rewrite andb_false_r.
  - intros other Hne Hnonempty. rewrite get_audit_logs_log_audit.
    simpl. rewrite (bool_decide_eq_false_2 (other = "")) by done.
    rewrite (bool_decide_eq_false_2 (action = other)) by done. simpl.
    apply rmap_id. intros m. by rewrite app_nil_r.
Qed.

Lemma get_audit_logs_after_log_audit_witness :
  get_audit_logs (fst (log_audit Demo.env (VStr "admin") "logout" "" Demo.db0))
                 (VStr "admin") (VStr "logout") =
    Ok ([] ++ [log_entry (uuid4 Demo.env (clock Demo.db0)) (VStr "admin")
                         "logout" ""
                         (now_isoformat Demo.env (S (clock Demo.db0)))]) ∧
  ∀ other, other ≠ "logout" → other ≠ "" →
    get_audit_logs (fst (log_audit Demo.env (VStr "admin") "logout" ""
                                   Demo.db0))
                   (VStr "admin") (VStr other) =
    get_audit_logs Demo.db0 (VStr "admin") (VStr other).
Proof.
  apply (get_audit_logs_after_log_audit Demo.env (VStr "admin") "logout" ""
                                        Demo.db0 []).
  reflexivity.
Defined.

Lemma grows_by_none {A} (l l' : list A) :
  l' = l → ∃ extra, l' = l ++ extra ∧ (length extra ≤ 1)%nat.
Proof. intros ->. exists []. rewrite app_nil_r. split; [done|simpl; lia]. Qed.

Lemma grows_by_one {A} (l l' : list A) x :
  l' = l ++ [x] → ∃ extra, l' = l ++ extra ∧ (length extra ≤ 1)%nat.
Proof. intros ->. exists [x]. split; [done|simpl; lia]. Qed.

(** X9. The audit log is append-only under the ledger writes: whatever
    a write does, the entries that were there stay, in their order, and
    at most one entry is added. *)
Theorem audit_log_append_only env w s :
  ∃ extra, audit_log (run_write env w s) = audit_log s ++ extra ∧
           (length extra ≤ 1)%nat.
Proof.
  destruct w as [P q|P d reason|P A B q reason|P q|product q reason]; simpl.
  - destruct (receive_stock env P q s) as [s' r] eqn:Hrun.
    apply receive_stock_audit in Hrun. simpl.
    destruct r; [destruct Hrun as (? & ? & ? & Hrun)|];
      eauto using grows_by_none, grows_by_one.
  - destruct (adjust_stock env P d reason s) as [s' r] eqn:Hrun.
    apply adjust_stock_audit in Hrun. simpl.
    destruct r as [[]|]; [destruct Hrun as (? & ? & ? & Hrun)|..];
      eauto using grows_by_none, grows_by_one.
  - destruct (transfer_inventory env P A B q reason s) as [s' r] eqn:Hrun.
    destruct (transfer_cases _ _ _ _ _ _ _ _ _ Hrun) as (b & msg & -> & _).
    apply transfer_inventory_audit in Hrun. simpl.
    destruct b; [destruct Hrun as (? & ? & Hrun)|];
      eauto using grows_by_none, grows_by_one.
  - apply grows_by_none. rewrite invoice_deduct_run. by repeat case_match.
  - destruct (deduct_stock env product q reason s) as [s' r] eqn:Hrun.
    apply deduct_stock_audit in Hrun. simpl.
    destruct r; [destruct Hrun as (? & ? & ? & Hrun)|];
      eauto using grows_by_none, grows_by_one.
Qed.

(** ** What the ledger writes keep *)

Lemma update_inventory_location_Forall (Φ : record → Prop) lid n s s' r rows :
  update_inventory_location lid {["quantity" := VInt n]} s = (s', r) →
  inventory_locations s = Some rows → Forall Φ rows →
  (∀ x, x ∈ rows → Φ x → Φ (<["quantity" := VInt n]> x)) →
  ∃ rows', inventory_locations s' = Some rows' ∧ Forall Φ rows' ∧
           Forall2 qty_only rows rows' ∧ inventory s' = inventory s ∧
           audit_log s' = audit_log s ∧ clock s' = clock s.
Proof.
  intros [[-> _]|(rows0 & i & x & Hrows0 & Hi & _ & _ & ->)]
    %update_inventory_location_cases Hrows HΦ Hstep.
  - exists rows. split_and!; auto using Forall2_qty_only_refl.
  - rewrite Hrows in Hrows0. injection Hrows0 as <-.
    eexists. split; [done|]. split_and!; try done.
    + apply Forall_insert; [done|]. apply Hstep.
      * by eapply list_elem_of_lookup_2.
      * by eapply Forall_lookup_1.
    + by apply Forall2_qty_only_insert.
Qed.

Lemma destination_rows_Forall (Φ : record → Prop) env s1 s2 P B q r rows1 :
  inventory_locations s1 = Some rows1 → Forall Φ rows1 →
  (∀ (dest x : record) b,
      dest ∈ rows1 → dest !! "quantity" = Some (VInt b) → x ∈ rows1 →
      Φ x → Φ (<["quantity" := VInt (b + q)]> x)) →
  Φ (<["created_at" := VStr (now_isoformat env (S (clock s1)))]>
       (<["id" := VStr (uuid4 env (clock s1))]> (new_location_row P B q))) →
  update_or_create_destination env P B q s1 = (s2, r) →
  ∃ rows' extra,
    inventory_locations s2 = Some (rows' ++ extra) ∧
    Forall Φ (rows' ++ extra) ∧ Forall2 qty_only rows1 rows' ∧
    (extra = [] ∨
     extra = [<["created_at" := VStr (now_isoformat env (S (clock s1)))]>
                (<["id" := VStr (uuid4 env (clock s1))]>
                   (new_location_row P B q))]) ∧
    inventory s2 = inventory s1.
Proof.
  intros Hrows HΦ Hstep Hnew.
  pose (Post := λ s2 : JSONDatabase,
    ∃ rows' extra,
      inventory_locations s2 = Some (rows' ++ extra) ∧
      Forall Φ (rows' ++ extra) ∧ Forall2 qty_only rows1 rows' ∧
      (extra = [] ∨
       extra = [<["created_at" := VStr (now_isoformat env (S (clock s1)))]>
                  (<["id" := VStr (uuid4 env (clock s1))]>
                     (new_location_row P B q))]) ∧
      inventory s2 = inventory s1).
  change (update_or_create_destination env P B q s1 = (s2, r) → Post s2).
  assert (Post s1) as Hsame.
  { exists rows1, []. rewrite app_nil_r.
    split_and!; auto using Forall2_qty_only_refl. }
  assert (∀ s2 r,
    bind (add_inventory_location env (new_location_row P B q))
         (λ _, ret tt) s1 = (s2, r) → Post s2) as Hadd.
  { intros ? ?. unfold bind. rewrite (add_inventory_location_run _ _ _ _ Hrows).
    intros [= <- <-]. eexists rows1, [_]. simpl.
    split_and!; eauto using Forall2_qty_only_refl.
    apply Forall_app. split; [done|]. by apply Forall_singleton. }
  unfold update_or_create_destination, bind at 1, read.
  destruct (get_inventory_locations s1 P B) as [dlocs|] eqn:Hd;
    [|by intros [= <- <-]].
  destruct dlocs as [|dest ds]; simpl; [apply Hadd|].
  destruct (dict_truthy dest); [|apply Hadd].
  unfold bind at 1, lift, subscript.
  destruct (dest !! "id") as [did|]; [|by intros [= <- <-]].
  unfold bind at 1.
  destruct (dest !! "quantity") as [dq|] eqn:Hdq; [|by intros [= <- <-]].
  unfold bind at 1.
  destruct dq as [|b|]; simpl; try (by intros [= <- <-]).
  unfold bind at 1.
  destruct (update_inventory_location did _ s1) as [s2' r'] eqn:Hu.
  assert (dest ∈ rows1) as Hdest.
  { eapply get_inventory_locations_elem; [done..|]. left. }
  destruct (update_inventory_location_Forall Φ _ _ _ _ _ _ Hu Hrows HΦ)
    as (rows' & Hrows' & HΦ' & Hq & Hinv & _); [by eauto|].
  intros Hend. assert (s2 = s2') as ->.
  { destruct r'; by injection Hend as <-. }
  exists rows', []. rewrite app_nil_r. split_and!; auto.
Qed.

(** The rows after a transfer, whatever its outcome: the old rows with
    at most their quantities changed, followed by at most the one new
    row; a property of rows that the written quantities respect is
    kept. *)
Lemma transfer_rows_Forall (Φ : record → Prop) env s P A B q reason rows :
  inventory_locations s = Some rows → Forall Φ rows →
  (∀ (src x : record) a,
      Φ src → src !! "quantity" = Some (VInt a) → q ≤ a →
      Φ x → Φ (<["quantity" := VInt (a - q)]> x)) →
  (∀ (dest x : record) b,
      Φ dest → dest !! "quantity" = Some (VInt b) →
      Φ x → Φ (<["quantity" := VInt (b + q)]> x)) →
  Φ (<["created_at" := VStr (now_isoformat env (S (clock s)))]>
       (<["id" := VStr (uuid4 env (clock s))]> (new_location_row P B q))) →
  ∃ rows' extra,
    inventory_locations (fst (transfer_inventory env P A B q reason s)) =
      Some (rows' ++ extra) ∧
    Forall Φ (rows' ++ extra) ∧ Forall2 qty_only rows rows' ∧
    (extra = [] ∨
     extra = [<["created_at" := VStr (now_isoformat env (S (clock s)))]>
                (<["id" := VStr (uuid4 env (clock s))]>
                   (new_location_row P B q))]) ∧
    inventory (fst (transfer_inventory env P A B q reason s)) = inventory s.
Proof.
  intros Hrows HΦ Hsrc Hdst Hnew.
  pose (Post := λ s' : JSONDatabase,
    ∃ rows' extra,
      inventory_locations s' = Some (rows' ++ extra) ∧
      Forall Φ (rows' ++ extra) ∧ Forall2 qty_only rows rows' ∧
      (extra = [] ∨
       extra = [<["created_at" := VStr (now_isoformat env (S (clock s)))]>
                  (<["id" := VStr (uuid4 env (clock s))]>
                     (new_location_row P B q))]) ∧
      inventory s' = inventory s).
  change (Post (fst (transfer_inventory env P A B q reason s))).
  assert (Post s) as Hsame.
  { exists rows, []. rewrite app_nil_r.
    split_and!; auto using Forall2_qty_only_refl. }
  destruct (transfer_inventory env P A B q reason s) as [s' res] eqn:Hrun.
  simpl. revert Hrun.
  unfold transfer_inventory, try_except, transfer_body, bind at 1, read.
  destruct (get_inventory_locations s P A) as [locs|] eqn:Hl;
    [|by intros [= <- _]].
  unfold bind at 1, lift, source_insufficient.
  destruct (head locs) as [src|] eqn:Hhead; [|by intros [= <- _]].
  destruct (dict_truthy src); [|by intros [= <- _]].
  unfold subscript at 1.
  destruct (src !! "quantity") as [sq|] eqn:Hq; simpl;
    [|by intros [= <- _]].
  destruct sq as [|a|]; simpl; try (by intros [= <- _]).
  destruct (a <? q) eqn:Hlt; simpl; [by intros [= <- _]|].
  apply Z.ltb_ge in Hlt.
  unfold bind at 1, subscript. destruct (src !! "id") as [sid|] eqn:Hid;
    [|by intros [= <- _]].
  unfold bind at 1. rewrite Hq. unfold bind at 1. simpl. unfold bind at 1.
  destruct (update_inventory_location sid _ s) as [s1 r1] eqn:Hu.
  assert (src ∈ rows) as Hsrcin.
  { eapply get_inventory_locations_elem; [done..|].
    destruct locs; [done|]. injection Hhead as ->. left. }
  assert (Φ src) as HΦsrc by (by eapply Forall_forall).
  destruct (update_inventory_location_Forall Φ _ _ _ _ _ _ Hu Hrows HΦ)
    as (rows1 & Hrows1 & HΦ1 & Hq1 & Hinv1 & _ & Hclock1); [by eauto|].
  destruct r1 as [b1|e1];
    [|intros [= <- _]; exists rows1, []; rewrite app_nil_r;
      split_and!; auto].
  unfold bind at 1.
  destruct (update_or_create_destination env P B q s1) as [s2 r2] eqn:Hd.
  destruct (destination_rows_Forall Φ env s1 s2 P B q r2 rows1 Hrows1 HΦ1)
    as (rows2 & extra & Hrows2 & HΦ2 & Hq2 & Hextra & Hinv2).
  { intros dest x b Hdest Hb Hx HΦx. eapply Hdst; [|done|done].
    by eapply Forall_forall. }
  { by rewrite Hclock1. }
  { done. }
  rewrite Hclock1 in Hextra.
  intros Hend.
  assert (inventory_locations s' = inventory_locations s2 ∧
          inventory s' = inventory s2) as [Hl' Hi'].
  { destruct r2 as [u|e2].
    - unfold bind in Hend. rewrite log_audit_run in Hend.
      unfold ret in Hend. by injection Hend as <- _.
    - by injection Hend as <- _. }
  exists rows2, extra. rewrite Hl', Hi'. split_and!; try done.
  - by eapply Forall2_qty_only_trans.
  - congruence.
Qed.

Lemma run_write_inventory_cases env w s :
  inventory (run_write env w s) = inventory s ∨
  ∃ i (prod : record) n,
    inventory s !! i = Some prod ∧
    inventory (run_write env w s) =
      <[i := <["quantity" := VInt n]> prod]> (inventory s) ∧
    (0 ≤ n ∨
     ∃ P q c, w = Receive P q ∧ prod !! "quantity" = Some (VInt c) ∧
              n = c + q).
Proof.
  destruct w as [P q|P d reason|P A B q reason|P q|product q reason]; simpl.
  - rewrite receive_stock_run.
    destruct (first_where (id_is P) (inventory s)) as [[[i prod]|]|] eqn:Hfw;
      simpl; auto.
    destruct (first_where_insert_qty _ _ _ _ VNone Hfw) as (Hi & _ & _).
    destruct (prod !! "quantity") as [[|c|]|] eqn:Hq; simpl; auto.
    right. exists i, prod, (c + q). split_and!; [done| |by eauto 10].
    by destruct (prod !! "name").
  - rewrite adjust_stock_run.
    destruct (first_where (id_is P) (inventory s)) as [[[i prod]|]|] eqn:Hfw;
      simpl; auto.
    destruct (first_where_insert_qty _ _ _ _ VNone Hfw) as (Hi & _ & _).
    destruct (prod !! "quantity") as [[|c|]|] eqn:Hq; simpl; auto.
    destruct (c + d <? 0) eqn:Hlt; simpl; auto. apply Z.ltb_ge in Hlt.
    right. exists i, prod, (c + d). split_and!; [done| |by left].
    by destruct (prod !! "name").
  - left. destruct (inventory_locations s) as [rows|] eqn:Hrows.
    + by destruct (transfer_rows_Forall (λ _, True) env s P A B q reason rows
                     Hrows (Forall_true _ _ (λ _, I)) ltac:(done) ltac:(done) I)
        as (_ & _ & _ & _ & _ & _ & ?).
    + by rewrite transfer_without_collection.
  - rewrite invoice_deduct_run.
    destruct (first_where (id_is P) (inventory s)) as [[[i prod]|]|] eqn:Hfw;
      simpl; auto.
    destruct (first_where_insert_qty _ _ _ _ VNone Hfw) as (Hi & _ & _).
    destruct (prod !! "quantity") as [[|c|]|] eqn:Hq; simpl; auto.
    right. exists i, prod, (Z.max 0 (c - q)). split_and!; [done..|left; lia].
  - rewrite deduct_stock_run.
    destruct (product !! "quantity") as [[|c|]|]; simpl; auto.
    destruct (product !! "id") as [pid|]; simpl; auto.
    destruct (first_where (id_is pid) (inventory s)) as [[[i prod]|]|] eqn:Hfw;
      simpl; auto.
    + destruct (first_where_insert_qty _ _ _ _ VNone Hfw) as (Hi & _ & _).
      right. exists i, prod, (if c - q <? 0 then 0 else c - q).
      split_and!; [done|by destruct (product !! "name")|].
      left. destruct (c - q <? 0) eqn:Hlt; [done|]. by apply Z.ltb_ge in Hlt.
    + left. by destruct (product !! "name").
Qed.

Lemma run_write_locations_cases env w s :
  inventory_locations (run_write env w s) = inventory_locations s ∨
  ∃ P A B q reason, w = Transfer P A B q reason.
Proof.
  destruct w; simpl; eauto 10 using receive_stock_locations,
    adjust_stock_locations, invoice_deduct_locations, deduct_stock_locations.
Qed.

(** X10. A ledger write never removes or reorders a record: the
    inventory afterwards is the inventory before with at most
    ['quantity'] fields changed, and so are the location rows, followed
    by at most one new row. *)
Theorem ledger_writes_change_quantities_only env w s :
  Forall2 qty_only (inventory s) (inventory (run_write env w s)) ∧
  match inventory_locations s with
  | Some rows =>
      ∃ rows' extra,
        inventory_locations (run_write env w s) = Some (rows' ++ extra) ∧
        Forall2 qty_only rows rows' ∧ (length extra ≤ 1)%nat
  | None => inventory_locations (run_write env w s) = None
  end.
Proof.
  split.
  - destruct (run_write_inventory_cases env w s)
      as [->|(i & prod & n & Hi & -> & _)];
      auto using Forall2_qty_only_refl, Forall2_qty_only_insert.
  - destruct (run_write_locations_cases env w s)
      as [->|(P & A & B & q & reason & ->)].
    + destruct (inventory_locations s) as [rows|]; [|done].
      exists rows, []. rewrite app_nil_r.
      split_and!; auto using Forall2_qty_only_refl.
    + simpl. destruct (inventory_locations s) as [rows|] eqn:Hrows.
      * destruct (transfer_rows_Forall (λ _, True) env s P A B q reason rows
                    Hrows (Forall_true _ _ (λ _, I)) ltac:(done) ltac:(done) I)
          as (rows' & extra & Hrows' & _ & Hq & Hextra & _).
        exists rows', extra. split_and!; [done..|].
        destruct Hextra as [->| ->]; simpl; lia.
      * by rewrite transfer_without_collection.
Qed.

Lemma new_row_wf env c P B q :
  wf_row (<["created_at" := VStr (now_isoformat env (S c))]>
            (<["id" := VStr (uuid4 env c)]> (new_location_row P B q))).
Proof.
  unfold wf_row, new_location_row. simplify_map_eq. eauto 10.
Qed.

(** X11. Well-formed location rows stay well-formed: if every row has
    an id, a product, a location and an int quantity, it is so after
    any ledger write, whatever its outcome. *)
Theorem wf_rows_preserved env w s :
  wf_rows s → wf_rows (run_write env w s).
Proof.
  intros (rows & Hrows & Hwf).
  destruct (run_write_locations_cases env w s)
    as [Hsame|(P & A & B & q & reason & ->)].
  - exists rows. by rewrite Hsame.
  - simpl.
    destruct (transfer_rows_Forall wf_row env s P A B q reason rows Hrows Hwf)
      as (rows' & extra & Hrows' & Hwf' & _);
      eauto using wf_row_insert_quantity, new_row_wf.
    by exists (rows' ++ extra).
Qed.

Lemma wf_rows_preserved_witness :
  wf_rows (run_write Demo.env
             (Transfer (VStr "X") (VStr "A") (VStr "C") 4 "") Demo.db0).
Proof.
  apply (wf_rows_preserved Demo.env
           (Transfer (VStr "X") (VStr "A") (VStr "C") 4 "") Demo.db0).
  eexists. split; [reflexivity|]. repeat constructor; by eexists.
Defined.

Lemma nonneg_insert (x : record) m :
  0 ≤ m → ∀ n, <["quantity" := VInt m]> x !! "quantity" = Some (VInt n) → 0 ≤ n.
Proof. intros Hm n. rewrite lookup_insert_eq. by intros [= <-]. Qed.

(** X12. Stock never goes negative: if no int quantity of the
    inventory or of the location rows is negative, none is after a
    ledger write that is asked for a non-negative quantity (an
    adjustment may ask for any), whatever the outcome of the write. *)
Theorem stock_stays_nonnegative env w s :
  nonneg_store s → write_nonneg w → nonneg_store (run_write env w s).
Proof.
  intros [Hinv Hrows] Hw. split.
  - destruct (run_write_inventory_cases env w s)
      as [->|(i & prod & n & Hi & -> & Hn)]; [done|].
    apply Forall_insert; [done|]. apply nonneg_insert.
    destruct Hn as [?|(P & q & c & -> & Hc & ->)]; [done|].
    simpl in Hw. unfold nonneg_records in Hinv.
    pose proof (Forall_lookup_1 _ _ _ _ Hinv Hi c Hc). lia.
  - destruct (run_write_locations_cases env w s)
      as [->|(P & A & B & q & reason & ->)]; [done|].
    simpl in *. intros rows' Hrows'.
    destruct (inventory_locations s) as [rows|] eqn:Hr.
    + destruct (transfer_rows_Forall
                  (λ r : record, ∀ n, r !! "quantity" = Some (VInt n) → 0 ≤ n)
                  env s P A B q reason rows Hr (Hrows rows eq_refl))
        as (rows'' & extra & Hrows'' & HΦ & _).
      * intros src x a _ _ Hle _. apply nonneg_insert. lia.
      * intros dest x b Hdest Hb _. apply nonneg_insert.
        specialize (Hdest b Hb). lia.
      * intros n. unfold new_location_row. simplify_map_eq. by intros [= <-].
      * rewrite Hrows' in Hrows''. by injection Hrows'' as ->.
    + rewrite transfer_without_collection in Hrows' by done.
      simpl in Hrows'. congruence.
Qed.

Lemma stock_stays_nonnegative_witness :
  nonneg_store (run_write Demo.env
                  (Transfer (VStr "X") (VStr "A") (VStr "B") 10 "") Demo.db0).
Proof.
  apply (stock_stays_nonnegative Demo.env
           (Transfer (VStr "X") (VStr "A") (VStr "B") 10 "") Demo.db0).
  - split; [|intros rows [= <-]];
      repeat constructor; intros n; vm_compute; intros [= <-]; done.
  - simpl. lia.
Defined.

Lemma Forall2_qty_only_row_ids l l' :
  Forall2 qty_only l l' → row_ids l' = row_ids l.
Proof.
  induction 1 as [|r r' l l' Hr _ IH]; [done|].
  unfold row_ids in *. rewrite !fmap_cons, IH.
  by rewrite (qty_only_lookup r r').
Qed.

(** X13. Row ids stay pairwise distinct through any ledger write,
    provided the uuid drawn for a new row is not the id of an existing
    row. *)
Theorem row_ids_stay_distinct env w s :
  unique_ids s →
  (∀ rows, inventory_locations s = Some rows →
           Some (VStr (uuid4 env (clock s))) ∉ row_ids rows) →
  unique_ids (run_write env w s).
Proof.
  intros Hu Hfresh.
  destruct (run_write_locations_cases env w s)
    as [Hsame|(P & A & B & q & reason & ->)].
  - unfold unique_ids. by rewrite Hsame.
  - simpl. intros rows' Hrows'.
    destruct (inventory_locations s) as [rows|] eqn:Hr.
    + destruct (transfer_rows_Forall (λ _, True) env s P A B q reason rows
                  Hr (Forall_true _ _ (λ _, I)) ltac:(done) ltac:(done) I)
        as (rows'' & extra & Hrows'' & _ & Hq & Hextra & _).
      rewrite Hrows' in Hrows''. injection Hrows'' as ->.
      unfold row_ids. rewrite fmap_app.
      fold (row_ids rows''). rewrite (Forall2_qty_only_row_ids _ _ Hq).
      destruct Hextra as [->| ->]; simpl.
      * rewrite app_nil_r. by apply Hu.
      * apply NoDup_app. split_and!; [by apply Hu| |apply NoDup_singleton].
        intros x Hx ->%list_elem_of_singleton.
        unfold new_location_row in Hx. simplify_map_eq.
        by apply (Hfresh rows).
    + rewrite transfer_without_collection in Hrows' by done.
      simpl in Hrows'. congruence.
Qed.

Lemma row_ids_stay_distinct_witness :
  unique_ids (run_write Demo.env
                (Transfer (VStr "X") (VStr "A") (VStr "C") 4 "") Demo.db0).
Proof.
  apply (row_ids_stay_distinct Demo.env
           (Transfer (VStr "X") (VStr "A") (VStr "C") 4 "") Demo.db0).
  - intros rows [= <-]. apply (bool_decide_unpack _). vm_compute. exact I.
  - intros rows [= <-]. apply (bool_decide_unpack _). vm_compute. exact I.
Defined.

(** ** Transfers, composed *)

(** What a transfer that returns [True] does to the location
    quantities, for reuse below. *)
Lemma transfer_effect env s s' P A B q reason msg :
  truthy P = true → truthy A = true → truthy B = true → A ≠ B →
  unique_ids s →
  transfer_inventory env P A B q reason s = (s', Ok (true, msg)) →
  ∃ a ob rows rows',
    quantityAt s P A = Ok (Some a) ∧ q ≤ a ∧
    quantityAt s P B = Ok ob ∧
    quantityAt s' P A = Ok (Some (a - q)) ∧
    quantityAt s' P B = Ok (Some (default 0 ob + q)) ∧
    inventory_locations s = Some rows ∧
    inventory_locations s' = Some rows' ∧
    length rows' = (length rows + match ob with Some _ => 0 | None => 1 end)%nat ∧
    get_total_inventory_by_product s' P = get_total_inventory_by_product s P ∧
    inventory s' = inventory s ∧
    ∀ X, product_quantity s' X = product_quantity s X.
Proof.
  intros HP HA HB HAB Huniq Hrun.
  destruct (transfer_success_inv _ _ _ _ _ _ _ _ _ Hrun)
    as (locs & src & sid & a & s1 & s2 & b1 & u & Hlocs & Hhead & Hsid & Hsq
        & Hle & Hupd & Hdest & Hlog & _).
  destruct (get_inventory_locations_Some _ _ _ _ Hlocs) as [rows Hrows].
  pose proof (Huniq _ Hrows) as Hnd.
  rewrite (get_inventory_locations_pair _ _ _ _ HP HA Hrows) in Hlocs.
  destruct locs as [|src' xs]; [done|]. injection Hhead as ->.
  destruct (update_first_match s _ _ _ _ _ (VInt (a - q)) Hrows Hnd Hlocs Hsid)
    as (l1 & l2 & [(-> & Hl1 & Hsrc & Hl2 & Hupd')|[e He]]);
    [|by rewrite He in Hupd].
  rewrite Hupd' in Hupd. injection Hupd as <- <-.
  set (src' := <["quantity" := VInt (a - q)]> src) in *.
  set (rows1 := l1 ++ src' :: l2) in *.
  assert (qty_only src src') as Hqo by apply qty_only_insert.
  assert (product_and_location_is P A src' = Ok true) as Hsrc'.
  { by rewrite (qty_only_product_and_location_is P A src src'). }
  assert (product_and_location_is P B src = Ok false) as HsrcB.
  { by apply (pair_is_other_location P A B). }
  assert (product_and_location_is P B src' = Ok false) as Hsrc'B.
  { by rewrite (qty_only_product_and_location_is P B src src'). }
  assert (filterM (product_and_location_is P A) rows1 = Ok (src' :: xs))
    as HfA1.
  { unfold rows1. rewrite filterM_middle_true by done.
    by rewrite (filterM_all_false _ _ Hl1), Hl2. }
  assert (filterM (product_and_location_is P B) rows1 =
          filterM (product_and_location_is P B) (l1 ++ src :: l2)) as HfB1.
  { unfold rows1. by rewrite !filterM_middle_false. }
  assert ((let? l := filterM (product_is P) rows1 in sum_quantities 0 l) =
          rmap (λ t, t + (a - q - a))
               (let? l := filterM (product_is P) (l1 ++ src :: l2) in
                sum_quantities 0 l)) as Htot1.
  { apply total_replace; [by eapply pair_is_product_is|done]. }
  assert (NoDup (row_ids rows1)) as Hnd1.
  { unfold rows1, src'. by rewrite row_ids_replace. }
  set (st1 := mkDB (inventory s) (Some rows1) (audit_log s) (clock s)) in *.
  assert (inventory_locations st1 = Some rows1) as Hrows1 by done.
  rewrite log_audit_run in Hlog. injection Hlog as <-.
  destruct (destination_inv _ _ _ _ _ _ _ Hdest) as (dlocs & Hdlocs & Hcase).
  rewrite (get_inventory_locations_pair _ _ _ _ HP HB Hrows1) in Hdlocs.
  exists a.
  destruct Hcase as [(dest & did & b & b2 & Hdh & _ & Hdid & Hdq & Hdu)
                    |[Hnone (r & Hadd)]].
  - (* the destination row exists: merged *)
    destruct dlocs as [|dest' ys]; [done|]. injection Hdh as ->.
    destruct (update_first_match st1 _ _ _ _ _ (VInt (b + q))
                Hrows1 Hnd1 Hdlocs Hdid)
      as (n1 & n2 & [(Hsplit & Hn1 & Hd & Hn2 & Hdu')|[e He]]);
      [|by rewrite He in Hdu].
    rewrite Hdu' in Hdu. injection Hdu as <- <-.
    set (dest' := <["quantity" := VInt (b + q)]> dest) in *.
    assert (qty_only dest dest') as Hqd by apply qty_only_insert.
    assert (product_and_location_is P B dest' = Ok true) as Hd'.
    { by rewrite (qty_only_product_and_location_is P B dest dest'). }
    assert (product_and_location_is P A dest = Ok false) as HdA.
    { by apply (pair_is_other_location P B A). }
    assert (product_and_location_is P A dest' = Ok false) as Hd'A.
    { by rewrite (qty_only_product_and_location_is P A dest dest'). }
    exists (Some b), (l1 ++ src :: l2), (n1 ++ dest' :: n2). simpl.
    split_and!; try done.
    + by eapply quantityAt_of_filter.
    + eapply quantityAt_of_filter; [done..| |done]. by rewrite <- HfB1.
    + eapply quantityAt_of_filter; [done|done|done| |].
      * rewrite filterM_middle_false by done.
        rewrite <- (filterM_middle_false _ n1 n2 dest) by done.
        rewrite <- Hsplit. exact HfA1.
      * unfold src'. by rewrite lookup_insert_eq.
    + eapply quantityAt_of_filter; [done|done|done| |].
      * rewrite filterM_middle_true by done.
        by rewrite (filterM_all_false _ _ Hn1), Hn2.
      * unfold dest'. by rewrite lookup_insert_eq.
    + rewrite !length_app. simpl.
      assert (length rows1 = length (l1 ++ src :: l2)) as Hlen.
      { unfold rows1. by rewrite !length_app. }
      rewrite Hsplit, !length_app in Hlen. simpl in Hlen. lia.
    + erewrite !get_total_rows by done.
      unfold dest'. rewrite (total_replace P n1 n2 dest b (b + q));
        [|by eapply pair_is_product_is|done].
      rewrite <- Hsplit, Htot1, rmap_rmap. apply rmap_id. intros t. simpl. lia.
  - (* no destination row: created *)
    assert (dlocs = []) as ->.
    { destruct Hnone as [Hn|(dest & Hdh & Hfalsy)]; [by destruct dlocs|].
      destruct dlocs as [|d ys]; [done|]. injection Hdh as ->.
      destruct (filterM_head_split _ _ _ _ Hdlocs) as (? & ? & _ & _ & Hd & _).
      apply pair_is_true_inv in Hd as [Hd _].
      by rewrite (lookup_Some_truthy _ _ _ Hd) in Hfalsy. }
    rewrite (add_inventory_location_run _ _ _ _ Hrows1) in Hadd.
    injection Hadd as <- _. simpl.
    destruct (new_row_facts env (clock s) P B q) as (HnP & HnB & Hnq).
    set (new := <["created_at" := _]> _) in *.
    assert (product_and_location_is P B new = Ok true) as HnewB.
    { by apply pair_is_true_intro. }
    assert (product_and_location_is P A new = Ok false) as HnewA.
    { by apply (pair_is_other_location P B A). }
    exists None, (l1 ++ src :: l2), (rows1 ++ [new]). simpl.
    split_and!; try done.
    + by eapply quantityAt_of_filter.
    + eapply quantityAt_of_filter_nil; [done..|]. by rewrite <- HfB1.
    + eapply quantityAt_of_filter; [done|done|done| |].
      * rewrite filterM_app, HfA1. simpl. rewrite HnewA. simpl.
        by rewrite app_nil_r.
      * unfold src'. by rewrite lookup_insert_eq.
    + eapply quantityAt_of_filter; [done|done|done| |done].
      rewrite filterM_app, Hdlocs. simpl. by rewrite HnewB.
    + unfold rows1. rewrite !length_app. simpl. lia.
    + erewrite !get_total_rows by done.
      rewrite (total_append P rows1 new q);
        [|by eapply pair_is_product_is|done].
      rewrite Htot1, rmap_rmap. apply rmap_id. intros t. simpl. lia.
Qed.

(** X14. A transfer from A to B followed by a transfer of the same
    quantity back from B to A, both returning [True], restores the
    quantity at A and leaves at B what it held before (0 in a row that
    stays when there was none); the product's location sum and the
    inventory collection are unchanged.  Ids are non-empty, A and B
    differ and row ids are distinct before each transfer. *)
Theorem transfer_there_and_back env s s1 s2 P A B q r1 r2 m1 m2 :
  truthy P = true → truthy A = true → truthy B = true → A ≠ B →
  unique_ids s → unique_ids s1 →
  transfer_inventory env P A B q r1 s = (s1, Ok (true, m1)) →
  transfer_inventory env P B A q r2 s1 = (s2, Ok (true, m2)) →
  ∃ a ob,
    quantityAt s P A = Ok (Some a) ∧ quantityAt s P B = Ok ob ∧
    quantityAt s2 P A = Ok (Some a) ∧
    quantityAt s2 P B = Ok (Some (default 0 ob)) ∧
    get_total_inventory_by_product s2 P = get_total_inventory_by_product s P ∧
    inventory s2 = inventory s.
Proof.
  intros HP HA HB HAB Hu Hu1 Hrun1 Hrun2.
  destruct (transfer_effect env s s1 P A B q r1 m1 HP HA HB HAB Hu Hrun1)
    as (a & ob & rows & rows1 & HqA & Hle & HqB & HqA1 & HqB1 & _ & _ & _
        & Htot1 & Hinv1 & _).
  destruct (transfer_effect env s1 s2 P B A q r2 m2 HP HB HA
              (not_eq_sym HAB) Hu1 Hrun2)
    as (a' & ob' & rows1' & rows2 & HqB1' & Hle' & HqA1' & HqB2 & HqA2 & _ & _
        & _ & Htot2 & Hinv2 & _).
  rewrite HqB1 in HqB1'. injection HqB1' as <-.
  rewrite HqA1 in HqA1'. injection HqA1' as <-.
  exists a, ob. split_and!; try done.
  - rewrite HqA2. simpl. do 2 f_equal. lia.
  - rewrite HqB2. do 2 f_equal. lia.
  - congruence.
  - congruence.
Qed.

Lemma sample_there_run :
  transfer_inventory Demo.env (VStr "X") (VStr "A") (VStr "B") 4 "" Demo.db0 =
  (fst (transfer_inventory Demo.env (VStr "X") (VStr "A") (VStr "B") 4 ""
                           Demo.db0),
   Ok (true, Msg "Inventory transferred successfully")).
Proof. vm_compute. reflexivity. Qed.

Lemma sample_back_run :
  transfer_inventory Demo.env (VStr "X") (VStr "B") (VStr "A") 4 ""
    (fst (transfer_inventory Demo.env (VStr "X") (VStr "A") (VStr "B") 4 ""
                             Demo.db0)) =
  (fst (transfer_inventory Demo.env (VStr "X") (VStr "B") (VStr "A") 4 ""
          (fst (transfer_inventory Demo.env (VStr "X") (VStr "A") (VStr "B") 4
                                   "" Demo.db0))),
   Ok (true, Msg "Inventory transferred successfully")).
Proof. vm_compute. reflexivity. Qed.

Lemma unique_ids_intro s rows :
  inventory_locations s = Some rows → NoDup (row_ids rows) → unique_ids s.
Proof. intros H Hnd rows' H'. rewrite H in H'. by injection H' as <-. Qed.

Lemma sample_there_unique_ids :
  unique_ids (fst (transfer_inventory Demo.env (VStr "X") (VStr "A")
                                      (VStr "B") 4 "" Demo.db0)).
Proof.
  apply (unique_ids_intro _ [<["quantity" := VInt 6]> (Demo.row "r1" "X" "A" 10);
                             <["quantity" := VInt 4]> (Demo.row "r2" "X" "B" 0)]).
  - vm_compute. reflexivity.
  - apply (bool_decide_unpack _). vm_compute. exact I.
Qed.

Lemma transfer_there_and_back_witness :
  ∃ a ob,
    quantityAt Demo.db0 (VStr "X") (VStr "A") = Ok (Some a) ∧
    quantityAt Demo.db0 (VStr "X") (VStr "B") = Ok ob ∧
    quantityAt
      (fst (transfer_inventory Demo.env (VStr "X") (VStr "B") (VStr "A") 4 ""
              (fst (transfer_inventory Demo.env (VStr "X") (VStr "A")
                                       (VStr "B") 4 "" Demo.db0))))
      (VStr "X") (VStr "A") = Ok (Some a) ∧
    quantityAt
      (fst (transfer_inventory Demo.env (VStr "X") (VStr "B") (VStr "A") 4 ""
              (fst (transfer_inventory Demo.env (VStr "X") (VStr "A")
                                       (VStr "B") 4 "" Demo.db0))))
      (VStr "X") (VStr "B") = Ok (Some (default 0 ob)) ∧
    get_total_inventory_by_product
      (fst (transfer_inventory Demo.env (VStr "X") (VStr "B") (VStr "A") 4 ""
              (fst (transfer_inventory Demo.env (VStr "X") (VStr "A")
                                       (VStr "B") 4 "" Demo.db0))))
      (VStr "X") =
      get_total_inventory_by_product Demo.db0 (VStr "X") ∧
    inventory
      (fst (transfer_inventory Demo.env (VStr "X") (VStr "B") (VStr "A") 4 ""
              (fst (transfer_inventory Demo.env (VStr "X") (VStr "A")
                                       (VStr "B") 4 "" Demo.db0)))) =
    inventory Demo.db0.
Proof.
  apply (transfer_there_and_back Demo.env Demo.db0
           (fst (transfer_inventory Demo.env (VStr "X") (VStr "A") (VStr "B") 4
                                    "" Demo.db0))
           (fst (transfer_inventory Demo.env (VStr "X") (VStr "B") (VStr "A") 4
                   ""
                   (fst (transfer_inventory Demo.env (VStr "X") (VStr "A")
                                            (VStr "B") 4 "" Demo.db0))))
           (VStr "X") (VStr "A")
           (VStr "B") 4 "" "" (Msg "Inventory transferred successfully")
           (Msg "Inventory transferred successfully"));
    [reflexivity | reflexivity | reflexivity | discriminate | |
     exact sample_there_unique_ids | exact sample_there_run |
     exact sample_back_run].
  intros rows [= <-]. apply (bool_decide_unpack _). vm_compute. exact I.
Defined.

(** X15. A transfer whose source and destination are the same
    location, when it returns [True], moves nothing - the location
    rows are exactly what they were - and still writes its audit
    entry. *)
Theorem transfer_to_same_location env s s' P A q reason msg :
  truthy P = true → truthy A = true → unique_ids s →
  transfer_inventory env P A A q reason s = (s', Ok (true, msg)) →
  inventory_locations s' = inventory_locations s ∧
  inventory s' = inventory s ∧
  length (audit_log s') = S (length (audit_log s)).
Proof.
  intros HP HA Hu Hrun. split_and!.
  - exact (transfer_same_location env s s' P A q reason msg HP HA Hu Hrun).
  - destruct (inventory_locations s) as [rows|] eqn:Hrows.
    + destruct (transfer_rows_Forall (λ _, True) env s P A A q reason rows
                  Hrows (Forall_true _ _ (λ _, I)) ltac:(done) ltac:(done) I)
        as (_ & _ & _ & _ & _ & _ & Hinv).
      by rewrite Hrun in Hinv.
    + by rewrite transfer_without_collection in Hrun.
  - apply transfer_inventory_audit in Hrun as (uid & ts & ->).
    rewrite length_app. simpl. lia.
Qed.

Lemma transfer_to_same_location_witness :
  let s' := fst (transfer_inventory Demo.env (VStr "X") (VStr "A") (VStr "A") 4
                                    "" Demo.db0) in
  inventory_locations s' = inventory_locations Demo.db0 ∧
  inventory s' = inventory Demo.db0 ∧
  length (audit_log s') = S (length (audit_log Demo.db0)).
Proof.
  intros s'.
  apply (transfer_to_same_location Demo.env Demo.db0 s' (VStr "X") (VStr "A") 4
           "" (Msg "Inventory transferred successfully"));
    [reflexivity | reflexivity | | vm_compute; reflexivity].
  intros rows [= <-]. apply (bool_decide_unpack _). vm_compute. exact I.
Defined.

(** X16. [transfer_inventory] writes its audit entry exactly when it
    returns [True]: then the log grows by one entry of action
    ["inventory_transfer"] that names the session user and, in its
    details, the quantity, the product, both locations and the reason;
    when it returns [False] the log is unchanged. *)
Theorem transfer_audit_entry env s P A B q reason :
  ∃ b msg,
    snd (transfer_inventory env P A B q reason s) = Ok (b, msg) ∧
    if b then
      ∃ uid ts,
        audit_log (fst (transfer_inventory env P A B q reason s)) =
        audit_log s ++
          [log_entry uid (session_user_id env) "inventory_transfer"
             ("Transferred " +:+ pretty q +:+ " units of " +:+ py_str P
              +:+ " from " +:+ py_str A +:+ " to " +:+ py_str B
              +:+ ". Reason: " +:+ reason) ts]
    else audit_log (fst (transfer_inventory env P A B q reason s)) =
         audit_log s.
Proof.
  destruct (transfer_inventory env P A B q reason s) as [s' r] eqn:Hrun.
  destruct (transfer_cases _ _ _ _ _ _ _ _ _ Hrun) as (b & msg & -> & _).
  exists b, msg. split; [done|]. simpl.
  exact (transfer_inventory_audit _ _ _ _ _ _ _ _ _ _ Hrun).
Qed.

(** X17. On a store whose file has no ['inventory_locations']
    collection - the store [_initialize_db] creates - every transfer
    ends in the [except] clause with the [KeyError] and writes
    nothing, the location sum of any product raises that [KeyError],
    and [add_inventory_location] returns [None] without creating the
    collection. *)
Theorem no_location_collection env s P A B q reason (row : record) :
  inventory_locations s = None →
  transfer_inventory env P A B q reason s =
    (s, Ok (false, ErrorTransferring (KeyError "inventory_locations"))) ∧
  get_total_inventory_by_product s P =
    Raise (KeyError "inventory_locations") ∧
  snd (add_inventory_location env row s) = Ok None ∧
  inventory_locations (fst (add_inventory_location env row s)) = None.
Proof.
  intros Hnone. split_and!.
  - by apply transfer_without_collection.
  - unfold get_total_inventory_by_product, get_inventory_locations,
      locations_rows. by rewrite Hnone.
  - unfold add_inventory_location, try_except, bind, read, locations_rows.
    simpl. by rewrite Hnone.
  - unfold add_inventory_location, try_except, bind, read, locations_rows.
    simpl. by rewrite Hnone.
Qed.

Lemma no_location_collection_witness :
  transfer_inventory Demo.env (VStr "X") (VStr "A") (VStr "B") 1 ""
                     Demo.db_fresh =
    (Demo.db_fresh,
     Ok (false, ErrorTransferring (KeyError "inventory_locations"))) ∧
  get_total_inventory_by_product Demo.db_fresh (VStr "X") =
    Raise (KeyError "inventory_locations") ∧
  snd (add_inventory_location Demo.env (Demo.row "r" "X" "A" 1)
                              Demo.db_fresh) = Ok None ∧
  inventory_locations
    (fst (add_inventory_location Demo.env (Demo.row "r" "X" "A" 1)
                                 Demo.db_fresh)) = None.
Proof.
  apply (no_location_collection Demo.env Demo.db_fresh (VStr "X") (VStr "A")
           (VStr "B") 1 "" (Demo.row "r" "X" "A" 1)).
  reflexivity.
Defined.

(** ** The statistics and the "Stock Status" filter *)

Lemma is_in_stock_negates r b :
  is_out_of_stock r = Ok b → is_in_stock r = Ok (negb b).
Proof.
  unfold is_out_of_stock, is_in_stock, subscript.
  destruct (r !! "quantity") as [[| a | t]|]; simpl; try discriminate.
  intros [= <-]. by rewrite Z.ltb_antisym.
Qed.

Lemma filterM_complement p q l kept :
  (∀ r b, p r = Ok b → q r = Ok (negb b)) →
  filterM p l = Ok kept →
  ∃ rest, filterM q l = Ok rest ∧ kept ++ rest ≡ₚ l.
Proof.
  intros Hpq. revert kept.
  induction l as [|x l IH]; simpl; intros kept H.
  - injection H as <-. by exists [].
  - destruct (p x) as [b|] eqn:Hp; [|discriminate]. simpl in H.
    destruct (filterM p l) as [kept'|] eqn:Hl; [|discriminate].
    simpl in H. injection H as <-.
    destruct (IH kept' eq_refl) as (rest & -> & Hperm).
    rewrite (Hpq _ _ Hp). simpl.
    destruct b; simpl; eexists; split; try reflexivity.
    + by rewrite Hperm.
    + by rewrite <- Permutation_middle, Hperm.
Qed.

Lemma filter_by_stock_other choice products :
  choice ≠ "All" → choice ≠ "Low Stock" → choice ≠ "Out of Stock" →
  filter_by_stock choice products = filterM is_in_stock products.
Proof.
  intros H1 H2 H3. unfold filter_by_stock.
  by rewrite !bool_decide_eq_false_2.
Qed.

(** X18. "Out of Stock" and "In Stock" split the product list: when the
    "Out of Stock" filter runs through, the filter of the last branch
    (the choice "In Stock", and any choice that is none of the three the
    code names) runs through as well, and the two results together hold
    every product exactly once. *)
Theorem stock_filters_partition choice products out :
  choice ≠ "All" → choice ≠ "Low Stock" → choice ≠ "Out of Stock" →
  filter_by_stock "Out of Stock" products = Ok out →
  ∃ ins, filter_by_stock choice products = Ok ins ∧
         out ++ ins ≡ₚ products ∧
         (∀ p, p ∈ out → is_out_of_stock p = Ok true) ∧
         (∀ p, p ∈ ins → is_in_stock p = Ok true).
Proof.
  intros H1 H2 H3 Hout.
  rewrite (filter_by_stock_other _ _ H1 H2 H3).
  change (filterM is_out_of_stock products = Ok out) in Hout.
  destruct (filterM_complement _ is_in_stock _ _ is_in_stock_negates Hout)
    as (ins & Hins & Hperm).
  exists ins. repeat split; try done.
  - intros p Hp. by destruct (filterM_elem _ _ _ _ Hout Hp).
  - intros p Hp. by destruct (filterM_elem _ _ _ _ Hins Hp).
Qed.

Lemma stock_filters_partition_witness :
  ∃ ins, filter_by_stock "In Stock" (inventory Sample.db_located) = Ok ins ∧
         [Demo.product "Y" "Gadget" 0] ++ ins ≡ₚ inventory Sample.db_located ∧
         (∀ p, p ∈ [Demo.product "Y" "Gadget" 0] →
               is_out_of_stock p = Ok true) ∧
         (∀ p, p ∈ ins → is_in_stock p = Ok true).
Proof.
  apply (stock_filters_partition "In Stock" (inventory Sample.db_located)
           [Demo.product "Y" "Gadget" 0]);
    [discriminate | discriminate | discriminate | vm_compute; reflexivity].
Defined.

Lemma low_stock_of_out_of_stock (r : record) n :
  r !! "quantity" = Some (VInt n) →
  (r !! "min_stock" = None ∨
   ∃ m, r !! "min_stock" = Some (VInt m) ∧ 1 ≤ m) →
  ∃ lo, is_low_stock r = Ok lo ∧ is_out_of_stock r = Ok (n <=? 0) ∧
        ((n <=? 0) = true → lo = true).
Proof.
  intros Hq Hm. unfold is_low_stock, is_out_of_stock, subscript, dict_get.
  rewrite Hq. simpl.
  destruct Hm as [-> | (m & -> & Hm)]; simpl; eexists; repeat split; lia.
Qed.

Lemma filterM_length_le p q (l : list record) :
  Forall (λ r, ∃ a b, p r = Ok a ∧ q r = Ok b ∧ (b = true → a = true)) l →
  ∃ lp lq, filterM p l = Ok lp ∧ filterM q l = Ok lq ∧
           (length lq ≤ length lp)%nat.
Proof.
  induction 1 as [|x l (a & b & Hp & Hq & Hab) _ (lp & lq & Hlp & Hlq & Hle)];
    simpl.
  - by exists [], [].
  - rewrite Hp, Hq, Hlp, Hlq. simpl.
    destruct b; [rewrite (Hab eq_refl)|destruct a];
      eexists _, _; repeat split; simpl; lia.
Qed.

(** X19. On the dashboard the "Out of Stock" count never exceeds the
    "Low Stock" count, as long as every product has an int quantity and
    its min_stock is absent (the default 5 applies) or an int of at
    least 1: a product with no units left is below its minimum. *)
Theorem out_of_stock_at_most_low_stock s :
  Forall (λ r : record,
            (∃ n, r !! "quantity" = Some (VInt n)) ∧
            (r !! "min_stock" = None ∨
             ∃ m, r !! "min_stock" = Some (VInt m) ∧ 1 ≤ m))
         (inventory s) →
  ∃ low out, low_stock_count s = Ok low ∧ out_of_stock_count s = Ok out ∧
             (out ≤ low)%nat.
Proof.
  intros H. unfold low_stock_count, out_of_stock_count, get_inventory_items.
  destruct (filterM_length_le is_low_stock is_out_of_stock (inventory s))
    as (lp & lq & -> & -> & Hle).
  - eapply Forall_impl; [exact H|]. intros r [[n Hn] Hm].
    destruct (low_stock_of_out_of_stock r n Hn Hm) as (lo & H1 & H2 & H3).
    by exists lo, (n <=? 0).
  - by exists (length lp), (length lq).
Qed.

Lemma out_of_stock_at_most_low_stock_witness :
  ∃ low out, low_stock_count Sample.db_located = Ok low ∧
             out_of_stock_count Sample.db_located = Ok out ∧
             (out ≤ low)%nat.
Proof.
  apply (out_of_stock_at_most_low_stock Sample.db_located).
  repeat constructor; (try by eexists); by left.
Defined.

(** ** The "Transfer Stock" form *)

Lemma get_inventory_item_found s P (prod : record) :
  get_inventory_item s P = Ok (Some prod) →
  ∃ i, first_where (id_is P) (inventory s) = Ok (Some (i, prod)).
Proof.
  unfold get_inventory_item.
  destruct (first_where (id_is P) (inventory s)) as [[[i r]|]|]; simpl;
    try discriminate.
  intros [= <-]. by exists i.
Qed.

Lemma transfer_stock_form_run env P A B q s :
  transfer_stock_form env P A B q s =
  match first_where (id_is P) (inventory s) with
  | Raise e => (s, inl (Raised e))
  | Ok None => (s, inl (AttributeError "get"))
  | Ok (Some (i, prod)) =>
      if negb (py_eq (dict_get prod "location_id" VNone) A) then
        (s, inr (st_error "Product is not at the selected source location"))
      else
        match prod !! "quantity" with
        | None => (s, inl (Raised (KeyError "quantity")))
        | Some (VInt c) =>
            if c <? q then
              (s, inr (st_error "Not enough stock available for transfer"))
            else
              let inv' := <[i := <["quantity" := VInt (c - q)]> prod]>
                            (inventory s) in
              match prod !! "name" with
              | None =>
                  (mkDB inv' (inventory_locations s) (audit_log s) (clock s),
                   inl (Raised (KeyError "name")))
              | Some name =>
                  (mkDB inv' (inventory_locations s)
                     (audit_log s ++
                      [log_entry (uuid4 env (clock s)) (session_user_id env)
                         "stock_transferred"
                         ("Transferred " +:+ pretty q +:+ " units of "
                          +:+ py_str name +:+ " from " +:+ py_str A
                          +:+ " to " +:+ py_str B)
                         (now_isoformat env (S (clock s)))])
                     (S (S (clock s))),
                   inr (st_success ("Transferred " +:+ pretty q
                                    +:+ " units to " +:+ py_str B)))
              end
        | Some _ => (s, inl (Raised (TypeError "<")))
        end
  end.
Proof.
  unfold transfer_stock_form, get_inventory_item.
  destruct (first_where (id_is P) (inventory s)) as [[[i prod]|]|] eqn:Hfw;
    simpl; try done.
  unfold transfer_stock_checked.
  destruct (negb (py_eq (dict_get prod "location_id" VNone) A)); [done|].
  unfold bind at 1, lift, subscript.
  destruct (prod !! "quantity") as [[|c|]|] eqn:Hq; simpl; try done.
  unfold bind at 1. simpl. destruct (c <? q); [done|].
  unfold bind at 1. simpl. unfold bind at 1. simpl. unfold bind at 1.
  rewrite update_inventory_item_run, Hfw, dict_update_quantity.
  unfold bind at 1. destruct (prod !! "name") as [name|]; [|done].
  unfold bind. by rewrite log_audit_run.
Qed.

(** X21. The "Transfer Stock" form moves nothing to the destination.
    Whatever it is given and however it ends, it leaves the location
    rows as they are, and the inventory it leaves does not depend on
    the destination chosen: [to_location] only appears in the texts. *)
Theorem transfer_stock_form_ignores_destination env P A B B' q s :
  inventory_locations (fst (transfer_stock_form env P A B q s)) =
    inventory_locations s ∧
  inventory (fst (transfer_stock_form env P A B q s)) =
    inventory (fst (transfer_stock_form env P A B' q s)) ∧
  only_quantity_of P (inventory s)
                   (inventory (fst (transfer_stock_form env P A B q s))).
Proof.
  rewrite !transfer_stock_form_run.
  destruct (first_where (id_is P) (inventory s)) as [[[i prod]|]|] eqn:Hfw;
    simpl; auto using only_quantity_of_refl.
  destruct (first_where_insert_qty _ _ _ _ VNone Hfw) as (Hi & Hid & _).
  repeat case_match; simpl;
    auto using only_quantity_of_refl, only_quantity_of_insert.
Qed.

(** X22. A "Transfer Stock" submission that passes both checks (the
    product's own location_id is the source chosen, and it has at least
    [q] units) takes [q] off [Product.quantity] and adds it nowhere:
    no other record and no other field changes, the location rows stay
    as they are, and one "stock_transferred" entry is logged.  The
    destination is not looked at; it may be the source itself. *)
Theorem transfer_stock_form_takes_off env P A B q s (prod : record) c name :
  get_inventory_item s P = Ok (Some prod) →
  dict_get prod "location_id" VNone = A →
  prod !! "quantity" = Some (VInt c) →
  prod !! "name" = Some name →
  q ≤ c →
  ∃ s' entry,
    transfer_stock_form env P A B q s =
      (s', inr (st_success ("Transferred " +:+ pretty q +:+ " units to "
                            +:+ py_str B))) ∧
    product_quantity s' P = Ok (VInt (c - q)) ∧
    only_quantity_of P (inventory s) (inventory s') ∧
    inventory_locations s' = inventory_locations s ∧
    audit_log s' = audit_log s ++ [entry] ∧
    entry !! "action" = Some (VStr "stock_transferred") ∧
    entry !! "user_id" = Some (session_user_id env).
Proof.
  intros Hget Hloc Hq Hname Hle.
  destruct (get_inventory_item_found _ _ _ Hget) as [i Hfw].
  destruct (first_where_insert_qty _ _ _ _ (VInt (c - q)) Hfw)
    as (Hi & Hid & Hfw').
  rewrite transfer_stock_form_run, Hfw, Hloc.
  unfold py_eq. rewrite bool_decide_eq_true_2 by done. simpl.
  rewrite Hq, Hname. destruct (c <? q) eqn:Hlt; [apply Z.ltb_lt in Hlt; lia|].
  eexists _, _. split; [reflexivity|]. split_and!; simpl.
  - erewrite product_quantity_found by exact Hfw'.
    unfold subscript. by rewrite lookup_insert_eq.
  - by apply only_quantity_of_insert.
  - done.
  - done.
  - apply log_entry_fields.
  - apply log_entry_fields.
Qed.

Lemma transfer_stock_form_takes_off_witness :
  ∃ s' entry,
    transfer_stock_form Demo.env (VStr "X") (VStr "L1") (VStr "L1") 4
                        Sample.db_located =
      (s', inr (st_success ("Transferred " +:+ pretty 4 +:+ " units to "
                            +:+ py_str (VStr "L1")))) ∧
    product_quantity s' (VStr "X") = Ok (VInt (10 - 4)) ∧
    only_quantity_of (VStr "X") (inventory Sample.db_located) (inventory s') ∧
    inventory_locations s' = inventory_locations Sample.db_located ∧
    audit_log s' = audit_log Sample.db_located ++ [entry] ∧
    entry !! "action" = Some (VStr "stock_transferred") ∧
    entry !! "user_id" = Some (session_user_id Demo.env).
Proof.
  apply (transfer_stock_form_takes_off Demo.env (VStr "X") (VStr "L1")
           (VStr "L1") 4 Sample.db_located
           (Sample.product_at "X" "Widget" "L1" 10) 10 (VStr "Widget"));
    [reflexivity | reflexivity | reflexivity | reflexivity | lia].
Defined.

(** X23. What the "Transfer Stock" form does when it does not go
    through: an unknown product id is not reported but raises the
    [AttributeError] of [None.get]; a product kept elsewhere and a
    product with fewer than [q] units get their error message; in all
    three cases the store is left exactly as it was. *)
Theorem transfer_stock_form_rejections env P A B q s :
  match get_inventory_item s P with
  | Ok None =>
      transfer_stock_form env P A B q s = (s, inl (AttributeError "get"))
  | Ok (Some prod) =>
      (dict_get prod "location_id" VNone ≠ A →
       transfer_stock_form env P A B q s =
       (s, inr (st_error "Product is not at the selected source location"))) ∧
      (∀ c, dict_get prod "location_id" VNone = A →
            prod !! "quantity" = Some (VInt c) → c < q →
            transfer_stock_form env P A B q s =
            (s, inr (st_error "Not enough stock available for transfer")))
  | Raise e => transfer_stock_form env P A B q s = (s, inl (Raised e))
  end.
Proof.
  rewrite transfer_stock_form_run. unfold get_inventory_item.
  destruct (first_where (id_is P) (inventory s)) as [[[i prod]|]|] eqn:Hfw;
    simpl; try done.
  unfold py_eq. split.
  - intros Hne. by rewrite bool_decide_eq_false_2.
  - intros c -> Hq Hlt. rewrite bool_decide_eq_true_2 by done. simpl.
    rewrite Hq. by rewrite (proj2 (Z.ltb_lt c q) Hlt).
Qed.

(** ** [delete_location] *)

Lemma location_has_products_spec s L :
  location_has_products s L = true ↔
  ∃ p : record, p ∈ inventory s ∧ dict_get p "location_id" VNone = L ∧ p ≠ ∅.
Proof.
  unfold location_has_products. rewrite existsb_exists. split.
  - intros (p & Hin & Hp). apply andb_true_iff in Hp as [Heq Hne].
    exists p. split_and!.
    + by apply list_elem_of_In.
    + unfold py_eq in Heq. by apply bool_decide_eq_true in Heq.
    + unfold dict_truthy in Hne. apply negb_true_iff in Hne.
      by apply bool_decide_eq_false in Hne.
  - intros (p & Hin & Heq & Hne). exists p. split.
    + by apply list_elem_of_In.
    + apply andb_true_iff. split.
      * unfold py_eq. by apply bool_decide_eq_true.
      * unfold dict_truthy. apply negb_true_iff.
        by apply bool_decide_eq_false.
Qed.

(** X24. [delete_location] looks at the products' own location_id only.
    It never writes to the ledger: the inventory, the location rows and
    the audit log are what they were, so rows that hold stock at the
    deleted location stay behind.  It refuses exactly when some product
    record names the location, and then changes nothing; otherwise, with
    an id on every location, the locations with that id are removed and
    all others kept in order. *)
Theorem delete_location_outcomes L c :
  all_have_id (locations c) →
  ledger (fst (delete_location L c)) = ledger c ∧
  ((∃ p : record, p ∈ inventory (ledger c) ∧
                  dict_get p "location_id" VNone = L ∧ p ≠ ∅) →
   delete_location L c =
   (c, (false, DeleteMsg "Location has products. Reassign them first."))) ∧
  ((∀ p : record, p ∈ inventory (ledger c) → p ≠ ∅ →
                  dict_get p "location_id" VNone ≠ L) →
   delete_location L c =
   (mkCatalog (ledger c)
              (filter (λ l : record, l !! "id" ≠ Some L) (locations c)),
    (true, DeleteMsg "Location deleted successfully"))).
Proof.
  intros Hall. unfold delete_location.
  rewrite (filterM_id_is_not _ _ Hall).
  destruct (location_has_products (ledger c) L) eqn:Hhas.
  - split_and!; [done|done|].
    intros Hno. apply location_has_products_spec in Hhas
      as (p & Hin & Heq & Hne). by destruct (Hno p Hin Hne).
  - split_and!; [done| |done].
    intros Hex. apply location_has_products_spec in Hex. congruence.
Qed.

Lemma delete_location_outcomes_witness :
  ledger (fst (delete_location (VStr "L2") Sample.catalog)) =
    ledger Sample.catalog ∧
  ((∃ p : record, p ∈ inventory (ledger Sample.catalog) ∧
                  dict_get p "location_id" VNone = VStr "L2" ∧ p ≠ ∅) →
   delete_location (VStr "L2") Sample.catalog =
   (Sample.catalog,
    (false, DeleteMsg "Location has products. Reassign them first."))) ∧
  ((∀ p : record, p ∈ inventory (ledger Sample.catalog) → p ≠ ∅ →
                  dict_get p "location_id" VNone ≠ VStr "L2") →
   delete_location (VStr "L2") Sample.catalog =
   (mkCatalog (ledger Sample.catalog)
              (filter (λ l : record, l !! "id" ≠ Some (VStr "L2"))
                      (locations Sample.catalog)),
    (true, DeleteMsg "Location deleted successfully"))).
Proof.
  apply (delete_location_outcomes (VStr "L2") Sample.catalog).
  repeat constructor; by eexists.
Defined.

(** ** Composing the aggregate writes *)

Lemma insert_quantity_twice (l : list record) i (prod : record) v w :
  l !! i = Some prod →
  <[i := <["quantity" := w]> (<["quantity" := v]> prod)]>
    (<[i := <["quantity" := v]> prod]> l) =
  <[i := <["quantity" := w]> prod]> l.
Proof.
  intros Hi. by rewrite list_insert_insert_eq, insert_insert_eq.
Qed.

(** X25. Two invoice lines for the same product deduct as one line for
    the sum of their quantities, when the second quantity is not
    negative: the stores left are equal, clamping at 0 included. *)
Theorem invoice_deduct_twice P q1 q2 s :
  0 ≤ q2 →
  fst (invoice_deduct P q2 (fst (invoice_deduct P q1 s))) =
  fst (invoice_deduct P (q1 + q2) s).
Proof.
  intros Hq2. rewrite (invoice_deduct_run P q1 s).
  rewrite (invoice_deduct_run P (q1 + q2) s).
  destruct (first_where (id_is P) (inventory s)) as [[[i prod]|]|] eqn:Hfw;
    simpl.
  - destruct (first_where_insert_qty _ _ _ _ (VInt (Z.max 0 0)) Hfw)
      as (Hi & _ & _).
    destruct (prod !! "quantity") as [[|c|t]|] eqn:Hq; simpl;
      try (rewrite invoice_deduct_run, Hfw, Hq; done).
    destruct (first_where_insert_qty _ _ _ _ (VInt (Z.max 0 (c - q1))) Hfw)
      as (_ & _ & Hfw').
    rewrite invoice_deduct_run. simpl. rewrite Hfw', lookup_insert_eq. simpl.
    rewrite insert_quantity_twice by done.
    do 4 f_equal. lia.
  - rewrite invoice_deduct_run, Hfw. done.
  - rewrite invoice_deduct_run, Hfw. done.
Qed.

Lemma invoice_deduct_twice_witness :
  fst (invoice_deduct (VStr "X") 8 (fst (invoice_deduct (VStr "X") 5 Demo.db0)))
  = fst (invoice_deduct (VStr "X") (5 + 8) Demo.db0).
Proof. apply (invoice_deduct_twice (VStr "X") 5 8 Demo.db0). lia. Defined.

(** X26. An accepted adjustment is undone by the opposite adjustment:
    when the product holds [c ≥ 0] units and [c + d] is not negative,
    adjusting by [d] and then by [-d] both succeed, the inventory and
    the location rows are back to what they were, and the audit log has
    grown by the two "stock_adjusted" entries. *)
Theorem adjust_stock_undo env P d reason reason' s (prod : record) c name :
  get_inventory_item s P = Ok (Some prod) →
  prod !! "quantity" = Some (VInt c) →
  prod !! "name" = Some name →
  0 ≤ c → 0 ≤ c + d →
  ∃ s1 s2 e1 e2,
    adjust_stock env P d reason s =
      (s1, Ok (st_success ("Stock adjusted! New quantity: "
                           +:+ pretty (c + d)))) ∧
    adjust_stock env P (- d) reason' s1 =
      (s2, Ok (st_success ("Stock adjusted! New quantity: " +:+ pretty c))) ∧
    product_quantity s1 P = Ok (VInt (c + d)) ∧
    inventory s2 = inventory s ∧
    inventory_locations s2 = inventory_locations s ∧
    audit_log s2 = audit_log s ++ [e1; e2] ∧
    e1 !! "action" = Some (VStr "stock_adjusted") ∧
    e2 !! "action" = Some (VStr "stock_adjusted").
Proof.
  intros Hget Hq Hname Hc Hcd.
  destruct (get_inventory_item_found _ _ _ Hget) as [i Hfw].
  destruct (first_where_insert_qty _ _ _ _ (VInt (c + d)) Hfw)
    as (Hi & Hid & Hfw').
  rewrite adjust_stock_run, Hfw, Hq, Hname.
  destruct (c + d <? 0) eqn:Hlt; [apply Z.ltb_lt in Hlt; lia|]. simpl.
  eexists _, _, _, _. split; [reflexivity|].
  rewrite adjust_stock_run. simpl. rewrite Hfw', lookup_insert_eq.
  rewrite lookup_insert_ne, Hname by done.
  replace (c + d + - d) with c by lia.
  destruct (c <? 0) eqn:Hlt'; [apply Z.ltb_lt in Hlt'; lia|]. simpl.
  split; [reflexivity|]. split_and!; simpl.
  - erewrite product_quantity_found by exact Hfw'.
    unfold subscript. by rewrite lookup_insert_eq.
  - rewrite insert_quantity_twice by done.
    rewrite insert_id by done. by apply list_insert_id.
  - done.
  - by rewrite <- app_assoc.
  - apply log_entry_fields.
  - apply log_entry_fields.
Qed.

Lemma adjust_stock_undo_witness :
  ∃ s1 s2 e1 e2,
    adjust_stock Demo.env (VStr "X") (-3) "count" Demo.db0 =
      (s1, Ok (st_success ("Stock adjusted! New quantity: "
                           +:+ pretty (10 + -3)))) ∧
    adjust_stock Demo.env (VStr "X") (- -3) "recount" s1 =
      (s2, Ok (st_success ("Stock adjusted! New quantity: " +:+ pretty 10))) ∧
    product_quantity s1 (VStr "X") = Ok (VInt (10 + -3)) ∧
    inventory s2 = inventory Demo.db0 ∧
    inventory_locations s2 = inventory_locations Demo.db0 ∧
    audit_log s2 = audit_log Demo.db0 ++ [e1; e2] ∧
    e1 !! "action" = Some (VStr "stock_adjusted") ∧
    e2 !! "action" = Some (VStr "stock_adjusted").
Proof.
  apply (adjust_stock_undo Demo.env (VStr "X") (-3) "count" "recount" Demo.db0
           (Demo.product "X" "Widget" 10) 10 (VStr "Widget"));
    [reflexivity | reflexivity | reflexivity | lia | lia].
Defined.

(** ** The "Confirm Delete" button *)

Lemma first_where_filtered_none item_id (l : list record) :
  all_have_id l →
  first_where (id_is item_id)
              (filter (λ r : record, r !! "id" ≠ Some item_id) l) = Ok None.
Proof.
  intros Hids. apply first_where_all_false.
  apply Forall_forall. intros r [Hr Hin]%list_elem_of_filter.
  unfold all_have_id in Hids. rewrite Forall_forall in Hids.
  destruct (Hids r Hin) as [v Hv]. rewrite (id_is_of_lookup _ _ _ Hv).
  rewrite bool_decide_eq_false_2; [done|]. intros ->. by rewrite Hv in Hr.
Qed.

(** X27. "Confirm Delete" does not look at what [delete_inventory_item]
    returns: for a product with an id and a name it always completes
    and logs one "product_deleted" entry.  With an id on every record
    the product is gone afterwards; with a record that has no id the
    deletion fails, the inventory is what it was, and the entry is
    logged all the same. *)
Theorem confirm_delete_logs_regardless env (product : record) pid name s :
  product !! "id" = Some pid →
  product !! "name" = Some name →
  ∃ s' entry,
    confirm_delete env product s = (s', Ok tt) ∧
    audit_log s' = audit_log s ++ [entry] ∧
    entry !! "action" = Some (VStr "product_deleted") ∧
    inventory_locations s' = inventory_locations s ∧
    (all_have_id (inventory s) → get_inventory_item s' pid = Ok None) ∧
    (Exists (λ r : record, r !! "id" = None) (inventory s) →
     inventory s' = inventory s).
Proof.
  intros Hid Hname. unfold confirm_delete.
  unfold bind at 1, lift at 1, subscript at 1. rewrite Hid.
  unfold bind at 1. rewrite delete_inventory_item_run.
  destruct (filterM (id_is_not pid) (inventory s)) as [kept|e] eqn:Hf;
    unfold bind at 1, lift at 1, subscript at 1; rewrite Hname;
    unfold bind at 1; rewrite log_audit_run; simpl;
    eexists _, _; (split; [reflexivity|]); simpl;
    (split; [reflexivity|]); (split; [apply log_entry_fields|]);
    (split; [reflexivity|]); split.
  - intros Hall. rewrite (filterM_id_is_not _ _ Hall) in Hf.
    injection Hf as <-. unfold get_inventory_item. simpl.
    by rewrite first_where_filtered_none.
  - intros Hex. by rewrite (filterM_id_is_not_missing _ _ Hex) in Hf.
  - intros Hall. by rewrite (filterM_id_is_not _ _ Hall) in Hf.
  - done.
Qed.

Lemma confirm_delete_logs_regardless_witness :
  ∃ s' entry,
    confirm_delete Demo.env (Demo.product "X" "Widget" 10) Sample.db_broken =
      (s', Ok tt) ∧
    audit_log s' = audit_log Sample.db_broken ++ [entry] ∧
    entry !! "action" = Some (VStr "product_deleted") ∧
    inventory_locations s' = inventory_locations Sample.db_broken ∧
    (all_have_id (inventory Sample.db_broken) →
     get_inventory_item s' (VStr "X") = Ok None) ∧
    (Exists (λ r : record, r !! "id" = None) (inventory Sample.db_broken) →
     inventory s' = inventory Sample.db_broken).
Proof.
  apply (confirm_delete_logs_regardless Demo.env (Demo.product "X" "Widget" 10)
           (VStr "X") (VStr "Widget") Sample.db_broken);
    reflexivity.
Defined.
